(** * Door Se Kaam: capture/streaming engine and helper-process protocol

    A shallow embedding of the Python sources

    - [server/config.py]          (the three capture defaults),
    - [server/screen_capture.py]  (class [ScreenCapture]),
    - [server/main.py]            (the control-message handler of [ws_screen],
                                   [auth_login], [ws_input]),
    - [server/input_handler.py]   (classes [WaylandInputBackend], [InputHandler],
                                   the key names of [X11InputBackend]),
    - [server/wayland_input.py]   (the key table and the key commands),
    - [server/auth.py]            (the lockout of [AuthManager]),
    - [server/file_manager.py]    (allowed paths and upload targets),

    together with the properties the specification states about them.

    Conventions.
    - Python [int] is [Z].  The floats of rate adaptation and pacing (frame
      times, target intervals, sleeps) are IEEE 754 doubles, module [float]
      below.  The other floats (the sensitivity, the clock of the lockout,
      the ratio of a resize, the timeouts handed to the operating system)
      are idealised as rationals [Q], without rounding.
    - An optional argument ([x: int = None]) is an [option].
    - A method that mutates [self] is a function from the old object to the
      new one; a method that can raise returns in the monad [M] below, which
      keeps the mutations that happened before the exception.
    - Everything the operating system decides (results of subprocesses, lines
      a helper prints, whether a process is still running, what a captured
      frame looks like, how long it took) is an input of the model: either an
      explicit argument or the next entry of an environment script. *)

From Stdlib Require Import ZArith QArith List String Ascii Bool Lia DecimalString
  DecimalNat SpecFloat.
From stdpp Require Import gmap strings.
Import ListNotations.

Set Warnings "-register-all".
#[local] Open Scope Z_scope.

(* ===================================================================== *)
(** * Python values and exceptions                                        *)
(* ===================================================================== *)

(** The exception classes that occur in the modelled code.  The first group
    derives from [Exception]; [GeneratorExit] and [KeyboardInterrupt] derive
    from [BaseException] only, so [except Exception] does not catch them.
    [PermissionError] stands for an [OSError] that is not a
    [FileNotFoundError] (an executable that exists but may not be run, a
    failed [fork], ...). *)
Inductive exn : Type :=
| TimeoutExpired
| FileNotFoundError
| CalledProcessError
| PermissionError
| BrokenPipeError
| ZeroDivisionError
| OverflowError
| TypeError
| ValueError
| AttributeError
| JSONDecodeError
| RuntimeError
| BackendError
| GeneratorExit
| KeyboardInterrupt.

Definition is_Exception (e : exn) : bool :=
  match e with
  | GeneratorExit | KeyboardInterrupt => false
  | _ => true
  end.

Definition exn_eqb (a b : exn) : bool :=
  match a, b with
  | TimeoutExpired, TimeoutExpired | FileNotFoundError, FileNotFoundError
  | CalledProcessError, CalledProcessError | PermissionError, PermissionError
  | BrokenPipeError, BrokenPipeError | ZeroDivisionError, ZeroDivisionError
  | OverflowError, OverflowError
  | TypeError, TypeError | ValueError, ValueError
  | AttributeError, AttributeError | JSONDecodeError, JSONDecodeError
  | RuntimeError, RuntimeError | BackendError, BackendError
  | GeneratorExit, GeneratorExit | KeyboardInterrupt, KeyboardInterrupt => true
  | _, _ => false
  end.

(** Result of a call that can raise. *)
Inductive result (A : Type) : Type :=
| Ok (a : A)
| Raise (e : exn).
Arguments Ok {A} a.
Arguments Raise {A} e.

(** A JSON-shaped Python value. *)
Inductive pyval : Type :=
| VNone
| VBool (b : bool)
| VInt (z : Z)
| VFloat (q : Q)
| VStr (s : string)
| VList (l : list pyval)
| VDict (d : gmap string pyval).

(** [dict.get(key, default)]. *)
Definition dict_get (d : gmap string pyval) (key : string) (dflt : pyval) : pyval :=
  default dflt (d !! key).

(** Truth value of a Python object ([if v:], [v or w]). *)
Definition py_truthy (v : pyval) : bool :=
  match v with
  | VNone => false
  | VBool b => b
  | VInt z => negb (z =? 0)
  | VFloat q => negb (Qeq_bool q 0)
  | VStr s => negb (String.eqb s "")
  | VList l => match l with [] => false | _ => true end
  | VDict d => negb (bool_decide (d = ∅))
  end.

(** [v == "text"] for a string literal. *)
Definition is_str (v : pyval) (s : string) : bool :=
  match v with
  | VStr t => String.eqb t s
  | _ => false
  end.

(** [x or d] on [Optional[int]]: [None] and [0] are both falsy. *)
Definition int_or (x : option Z) (d : Z) : Z :=
  match x with
  | Some v => if v =? 0 then d else v
  | None => d
  end.

(** Strict comparisons of rationals as booleans. *)
Definition Qgt_bool (a b : Q) : bool := negb (Qle_bool a b).
Definition Qlt_bool (a b : Q) : bool := negb (Qle_bool b a).

(** [min(a, b)] and [max(a, b)] of Python on two numbers: the first
    argument unless the second is strictly smaller, respectively strictly
    larger. *)
Definition py_min (a b : Q) : Q := if Qlt_bool b a then b else a.
Definition py_max (a b : Q) : Q := if Qlt_bool a b then b else a.

(** [int(x)] on a float: truncation towards zero. *)
Definition Qtruncate (q : Q) : Z := Z.quot (Qnum q) (Zpos (Qden q)).

(** [sum(xs)]: left to right from [0]. *)
Definition Qsum (xs : list Q) : Q := fold_left Qplus xs (0%Q).

(** [xs[-n:]] for a positive [n]. *)
Definition last_n {A : Type} (n : nat) (xs : list A) : list A :=
  skipn (length xs - n)%nat xs.

(* ===================================================================== *)
(** * Python floats                                                       *)
(* ===================================================================== *)

(** A Python [float] is an IEEE 754 double: a [spec_float] of the Standard
    Library at precision 53 and maximal exponent 1024, with signed zeros,
    infinities and NaN.  [SFadd], [SFsub], [SFmul] and [SFdiv] round to
    nearest, ties to even, as [+], [-], [*] and [/] of Python do.  Where
    Python raises instead of giving an infinity or a NaN, so does the
    model. *)
Module float.

Definition prec : Z := 53.
Definition emax : Z := 1024.

Definition t : Type := spec_float.

(** The double nearest to an integer; an infinity beyond the largest
    double. *)
Definition nearest (z : Z) : t := binary_normalize prec emax z 0 false.

(** The conversion of an [int], explicit ([float(z)]) or of an [int]
    operand of float arithmetic: [OverflowError] ("int too large to convert
    to float") where the nearest double is an infinity. *)
Definition of_int (z : Z) : result t :=
  match nearest z with
  | S754_infinity _ => Raise OverflowError
  | x => Ok x
  end.

(** A decimal literal: [literal n d] is the double nearest to [n / d], for
    [n] and [d] below 2^53 (they are doubles, and their quotient is rounded
    once).  [0.5] is [literal 5 10], [0.001] is [literal 1 1000]. *)
Definition literal (n d : Z) : t := SFdiv prec emax (nearest n) (nearest d).

Definition add : t -> t -> t := SFadd prec emax.
Definition sub : t -> t -> t := SFsub prec emax.
Definition mul : t -> t -> t := SFmul prec emax.

(** [a / z] for a float [a] and an [int] [z]: [ZeroDivisionError] for 0,
    [OverflowError] for an integer too large to be converted, else the
    quotient by the converted integer. *)
Definition truediv_int (a : t) (z : Z) : result t :=
  if z =? 0 then Raise ZeroDivisionError
  else
    match of_int z with
    | Raise e => Raise e
    | Ok b => Ok (SFdiv prec emax a b)
    end.

(** [a < b] and [a > b]: false if one of the two is a NaN. *)
Definition lt (a b : t) : bool := SFltb a b.
Definition gt (a b : t) : bool := SFltb b a.

(** [max(a, b)]: the first argument unless the second is strictly larger. *)
Definition max (a b : t) : t := if gt b a then b else a.

(** [sum(xs)] for a list of floats: the start value [0] becomes [0.0] when
    the first float is added, and the floats are added from left to right,
    each addition rounded.  (This is [sum] up to CPython 3.11; later versions
    compensate the rounding errors of the additions, which can change the
    last bit of the result.) *)
Definition sum (xs : list t) : t := fold_left add xs (S754_zero false).

(** The rational a finite float stands for ([0] for the others). *)
Definition to_Q (x : t) : Q :=
  match x with
  | S754_finite s m e =>
      let v := (inject_Z (Zpos m) * (2 ^ e))%Q in
      if s then (- v)%Q else v
  | _ => 0%Q
  end.

End float.

(* ===================================================================== *)
(** * config.py                                                           *)
(* ===================================================================== *)

(** The capture part of [ServerConfig].  [from_env] overwrites each field
    with [int(os.getenv(...))] without any range check, so every integer is
    a possible value. *)
Record ServerConfig : Type := {
  capture_fps : Z;
  capture_quality : Z;
  capture_monitor : Z
}.

(** The dataclass defaults. *)
Definition default_config : ServerConfig :=
  {| capture_fps := 15; capture_quality := 60; capture_monitor := 0 |}.

(* ===================================================================== *)
(** * Helper processes and the environment                                *)
(* ===================================================================== *)

(** Code that talks to a subprocess is run against an environment script:
    the list of answers the operating system gives, in the order in which
    the code asks.  [L] is the type of a line read from a helper's output. *)
Inductive answer (L : Type) : Type :=
| Spawned (ok : bool)          (* [subprocess.Popen(...)]: a handle, or an [OSError] *)
| Running (yes : bool)         (* [proc.poll() is None] *)
| Selected (line : option L)   (* [select(...)]: timed out, or [readline().strip()] *)
| Written (ok : bool)          (* [stdin.write(...)] and [flush()]: done, or a broken pipe *)
| Waited (exited : bool)       (* [proc.wait(timeout=...)]: exited, or [TimeoutExpired] *)
| Called (ok : bool)           (* a call into pyautogui or pyperclip: returns, or raises *)
| Pasted (text : string)       (* what [clip.paste()] returns *)
| Stalled.                     (* [select(...)] reports the stream readable, and
                                  [readline()] waits for the end of a line that
                                  never comes *)
Arguments Spawned {L} ok.
Arguments Running {L} yes.
Arguments Selected {L} line.
Arguments Written {L} ok.
Arguments Waited {L} exited.
Arguments Called {L} ok.
Arguments Pasted {L} text.
Arguments Stalled {L}.

(** What the code does to the outside, in order.  Processes are numbered in
    the order in which they are spawned; [P] is the type of a message
    written to a helper or handed to the direct backend. *)
Inductive action (P : Type) : Type :=
| Popen (proc : nat)
| Select (proc : nat) (timeout : Q)
| Write (proc : nat) (payload : P)
| Wait (proc : nat) (timeout : Q)
| Terminate (proc : nat)
| Kill (proc : nat)
| Direct (payload : P).
Arguments Popen {P} proc.
Arguments Select {P} proc timeout.
Arguments Write {P} proc payload.
Arguments Wait {P} proc timeout.
Arguments Terminate {P} proc.
Arguments Kill {P} proc.
Arguments Direct {P} payload.

Record world (L P : Type) : Type := {
  script : list (answer L);    (* the answers still to come *)
  log : list (action P);       (* what was done so far, oldest first *)
  spawned : nat                (* how many processes were started *)
}.
Arguments script {L P} w.
Arguments log {L P} w.
Arguments spawned {L P} w.

(** A call returns, raises, never returns (it waits in a blocking read), or
    is not described by the model: the script is used up, its next answer is
    to a different question, the nesting budget of a recursive definition is
    exhausted, or a value is of a type the model leaves open. *)
Inductive outcome (A : Type) : Type :=
| Done (a : A)
| Thrown (e : exn)
| Unscripted
| Blocked.
Arguments Done {A} a.
Arguments Thrown {A} e.
Arguments Unscripted {A}.
Arguments Blocked {A}.

Section Effects.
Context {O L P : Type}.

(** A method of an object of type [O] that talks to the environment.  The
    object and the world are returned in every case: what was mutated before
    an exception stays mutated. *)
Definition M (A : Type) : Type :=
  O * world L P -> outcome A * (O * world L P).

Definition ret {A : Type} (a : A) : M A := fun s => (Done a, s).

Definition bind {A B : Type} (m : M A) (k : A -> M B) : M B :=
  fun s =>
    match m s with
    | (Done a, s') => k a s'
    | (Thrown e, s') => (Thrown e, s')
    | (Unscripted, s') => (Unscripted, s')
    | (Blocked, s') => (Blocked, s')
    end.

Definition raise {A : Type} (e : exn) : M A := fun s => (Thrown e, s).

Definition unscripted {A : Type} : M A := fun s => (Unscripted, s).

(** A call that never returns: no handler runs and nothing follows it. *)
Definition blocked {A : Type} : M A := fun s => (Blocked, s).

(** [try: body except Exception as e: handler e]. *)
Definition try_except {A : Type} (body : M A) (handler : exn -> M A) : M A :=
  fun s =>
    match body s with
    | (Thrown e, s') =>
        if is_Exception e then handler e s' else (Thrown e, s')
    | r => r
    end.

Definition get_self : M O := fun s => (Done (fst s), s).

Definition modify_self (f : O -> O) : M unit :=
  fun s => (Done tt, (f (fst s), snd s)).

(** Append to the log. *)
Definition emit (a : action P) : M unit :=
  fun s =>
    let w := snd s in
    (Done tt,
     (fst s, {| script := script w; log := (log w ++ [a])%list; spawned := spawned w |})).

(** Take the next answer of the script. *)
Definition next_answer : M (answer L) :=
  fun s =>
    let w := snd s in
    match script w with
    | [] => (Unscripted, s)
    | a :: rest =>
        (Done a, (fst s, {| script := rest; log := log w; spawned := spawned w |}))
    end.

Definition fresh_proc : M nat :=
  fun s =>
    let w := snd s in
    (Done (spawned w),
     (fst s, {| script := script w; log := log w; spawned := S (spawned w) |})).

End Effects.

(** stdpp's monad notations [x ← m; k] and [m;; k] for [M]. *)
#[global] Instance M_ret {O L P : Type} : MRet (@M O L P) := @ret O L P.
#[global] Instance M_bind {O L P : Type} : MBind (@M O L P) :=
  fun A B k m => bind m k.

Section Subprocess.
Context {O L P : Type}.

(** [subprocess.Popen(...)]. *)
Definition popen : M (O:=O) (L:=L) (P:=P) nat :=
  a ← next_answer;
  match a with
  | Spawned true => proc ← fresh_proc; emit (Popen proc);; ret proc
  | Spawned false => raise PermissionError
  | _ => unscripted
  end.

(** [proc.poll() is None]. *)
Definition poll_is_None (proc : nat) : M (O:=O) (L:=L) (P:=P) bool :=
  a ← next_answer;
  match a with
  | Running yes => ret yes
  | _ => unscripted
  end.

(** [select.select([proc.stdout], [], [], timeout)] followed, if the stream
    is readable, by [proc.stdout.readline().strip()].  [select] returns
    within the timeout; [readline] returns at the end of a line or of the
    stream, and has no timeout. *)
Definition select_readline (proc : nat) (timeout : Q) : M (O:=O) (L:=L) (P:=P) (option L) :=
  emit (Select proc timeout);;
  a ← next_answer;
  match a with
  | Selected line => ret line
  | Stalled => blocked
  | _ => unscripted
  end.

(** [proc.stdin.write(...)] and [proc.stdin.flush()]. *)
Definition stdin_write (proc : nat) (payload : P) : M (O:=O) (L:=L) (P:=P) unit :=
  a ← next_answer;
  match a with
  | Written true => emit (Write proc payload)
  | Written false => raise BrokenPipeError
  | _ => unscripted
  end.

(** [proc.wait(timeout=...)]. *)
Definition wait (proc : nat) (timeout : Q) : M (O:=O) (L:=L) (P:=P) unit :=
  emit (Wait proc timeout);;
  a ← next_answer;
  match a with
  | Waited true => ret tt
  | Waited false => raise TimeoutExpired
  | _ => unscripted
  end.

(** [proc.terminate()] and [proc.kill()] send a signal and return. *)
Definition terminate (proc : nat) : M (O:=O) (L:=L) (P:=P) unit :=
  emit (Terminate proc).

Definition kill (proc : nat) : M (O:=O) (L:=L) (P:=P) unit :=
  emit (Kill proc).

End Subprocess.

(** Seconds a log spent waiting in [select]: the sum of the timeouts. *)
Fixpoint seconds_polled {P : Type} (l : list (action P)) : Q :=
  match l with
  | [] => 0
  | Select _ timeout :: l' => timeout + seconds_polled l'
  | _ :: l' => seconds_polled l'
  end.

(** The processes a log started. *)
Definition started {P : Type} (l : list (action P)) : list nat :=
  omap (fun a => match a with Popen p => Some p | _ => None end) l.

(** The processes a log sent a signal to, with [terminate] or [kill]. *)
Definition signalled {P : Type} (l : list (action P)) : list nat :=
  omap (fun a => match a with Terminate p | Kill p => Some p | _ => None end) l.

(** A world at its beginning: nothing done yet, the given answers to come. *)
Definition world_of {L P : Type} (answers : list (answer L)) : world L P :=
  {| script := answers; log := []; spawned := 0 |}.

(** Continue with [k] after a call that returned. *)
Definition and_then {S A B : Type} (r : outcome A * S) (k : A -> S -> outcome B * S)
    : outcome B * S :=
  match r with
  | (Done a, s') => k a s'
  | (Thrown e, s') => (Thrown e, s')
  | (Unscripted, s') => (Unscripted, s')
  | (Blocked, s') => (Blocked, s')
  end.

(* ===================================================================== *)
(** * screen_capture.py                                                   *)
(* ===================================================================== *)

Module screen_capture.

(** ** Backend detection *)

(** What the two kinds of probe subprocess report.  [subprocess.run] either
    completes with a return code or raises. *)
Record probes : Type := {
  is_wayland : bool;              (* the module-level flag [_is_wayland] *)
  gdbus_introspect : result Z;    (* [gdbus introspect ... ScreenCast], [timeout=2] *)
  which : string -> result Z      (* [which cmd], before [check=True] is applied *)
}.

(** [except (A, B):] catches exactly the listed classes. *)
Definition caught (classes : list exn) (e : exn) : bool :=
  existsb (exn_eqb e) classes.

(** [subprocess.run(..., check=True)]: a non-zero return code becomes
    [CalledProcessError]. *)
Definition check_returncode (r : result Z) : result Z :=
  match r with
  | Ok rc => if rc =? 0 then Ok rc else Raise CalledProcessError
  | Raise e => Raise e
  end.

Definition _cmd_exists (env : probes) (cmd : string) : result bool :=
  match check_returncode (which env cmd) with
  | Ok _ => Ok true
  | Raise e =>
      if caught [CalledProcessError; FileNotFoundError] e then Ok false
      else Raise e
  end.

(** The [for tool in [...]] loop of [_detect_backend]: [Some tool] is the
    early [return tool], [None] is falling out of the loop. *)
Fixpoint first_tool (env : probes) (tools : list string) : result (option string) :=
  match tools with
  | [] => Ok None
  | tool :: rest =>
      match _cmd_exists env tool with
      | Ok true => Ok (Some tool)
      | Ok false => first_tool env rest
      | Raise e => Raise e
      end
  end.

Definition _detect_backend (env : probes) : result string :=
  if is_wayland env then
    let introspected :=
      match gdbus_introspect env with
      | Ok rc => Ok (rc =? 0)
      | Raise e =>
          if caught [TimeoutExpired; FileNotFoundError] e then Ok false
          else Raise e
      end in
    match introspected with
    | Raise e => Raise e
    | Ok true => Ok "pipewire"%string
    | Ok false =>
        match first_tool env ["grim"; "gnome-screenshot"; "spectacle"]%string with
        | Raise e => Raise e
        | Ok (Some tool) => Ok tool
        | Ok None => Ok "mss-fallback"%string
        end
    end
  else Ok "mss"%string.

(** The four backend kinds of the specification's data model, and the kind
    each backend string stands for. *)
Inductive backend_kind : Type :=
| compositor
| direct
| cli_tool
| fallback.

Definition kind_of (backend : string) : option backend_kind :=
  if String.eqb backend "pipewire" then Some compositor
  else if String.eqb backend "mss" then Some direct
  else if String.eqb backend "grim" then Some cli_tool
  else if String.eqb backend "gnome-screenshot" then Some cli_tool
  else if String.eqb backend "spectacle" then Some cli_tool
  else if String.eqb backend "mss-fallback" then Some fallback
  else None.

(** ** The capture session object *)

(** The fields of [ScreenCapture] that configuration, pacing and encoding
    read or write.  The two fields of the helper session ([_pw_node_id],
    [_pw_session_proc]) are the record [PipeWireSession] further down. *)
Record ScreenCapture : Type := {
  fps : Z;
  quality : Z;
  monitor : Z;
  _running : bool;
  _frame_times : list float.t;
  _adaptive_quality : Z;
  _adaptive_fps : Z;
  _backend : string
}.

Definition set_fps (v : Z) (self : ScreenCapture) : ScreenCapture :=
  {| fps := v; quality := quality self; monitor := monitor self;
     _running := _running self; _frame_times := _frame_times self;
     _adaptive_quality := _adaptive_quality self;
     _adaptive_fps := _adaptive_fps self; _backend := _backend self |}.

Definition set_quality (v : Z) (self : ScreenCapture) : ScreenCapture :=
  {| fps := fps self; quality := v; monitor := monitor self;
     _running := _running self; _frame_times := _frame_times self;
     _adaptive_quality := _adaptive_quality self;
     _adaptive_fps := _adaptive_fps self; _backend := _backend self |}.

Definition set_monitor (v : Z) (self : ScreenCapture) : ScreenCapture :=
  {| fps := fps self; quality := quality self; monitor := v;
     _running := _running self; _frame_times := _frame_times self;
     _adaptive_quality := _adaptive_quality self;
     _adaptive_fps := _adaptive_fps self; _backend := _backend self |}.

Definition set_running (v : bool) (self : ScreenCapture) : ScreenCapture :=
  {| fps := fps self; quality := quality self; monitor := monitor self;
     _running := v; _frame_times := _frame_times self;
     _adaptive_quality := _adaptive_quality self;
     _adaptive_fps := _adaptive_fps self; _backend := _backend self |}.

Definition set_frame_times (v : list float.t) (self : ScreenCapture) : ScreenCapture :=
  {| fps := fps self; quality := quality self; monitor := monitor self;
     _running := _running self; _frame_times := v;
     _adaptive_quality := _adaptive_quality self;
     _adaptive_fps := _adaptive_fps self; _backend := _backend self |}.

Definition set_adaptive_quality (v : Z) (self : ScreenCapture) : ScreenCapture :=
  {| fps := fps self; quality := quality self; monitor := monitor self;
     _running := _running self; _frame_times := _frame_times self;
     _adaptive_quality := v;
     _adaptive_fps := _adaptive_fps self; _backend := _backend self |}.

Definition set_adaptive_fps (v : Z) (self : ScreenCapture) : ScreenCapture :=
  {| fps := fps self; quality := quality self; monitor := monitor self;
     _running := _running self; _frame_times := _frame_times self;
     _adaptive_quality := _adaptive_quality self;
     _adaptive_fps := v; _backend := _backend self |}.

(** [ScreenCapture.__init__].  It raises only if backend detection does. *)
Definition __init__ (config : ServerConfig) (env : probes)
    (fps quality monitor : option Z) : result ScreenCapture :=
  let fps' := int_or fps (capture_fps config) in
  let quality' := int_or quality (capture_quality config) in
  let monitor' :=
    match monitor with
    | Some m => m
    | None => capture_monitor config
    end in
  match _detect_backend env with
  | Raise e => Raise e
  | Ok backend =>
      Ok {| fps := fps'; quality := quality'; monitor := monitor';
            _running := false; _frame_times := [];
            _adaptive_quality := quality'; _adaptive_fps := fps';
            _backend := backend |}
  end.

(** ** Single-frame capture *)

(** A decoded picture: its size, and whether it is the grey placeholder that
    [capture_frame] synthesises when nothing could be captured. *)
Record image : Type := {
  width : Z;
  height : Z;
  placeholder : bool
}.

(** A JPEG payload: the picture that was encoded and the [quality] argument
    given to the encoder. *)
Record jpeg : Type := {
  jpeg_image : image;
  jpeg_quality : Z
}.

(** [capture_frame].  [captured] is what [_capture_image()] returned, which
    never raises.  The [monitor] argument is accepted and not used. *)
Definition capture_frame (self : ScreenCapture) (captured : option image)
    (quality monitor max_width : option Z) : jpeg :=
  let q := int_or quality (_adaptive_quality self) in
  let img :=
    match captured with
    | Some img => img
    | None => {| width := 640; height := 480; placeholder := true |}
    end in
  let img :=
    match max_width with
    | Some mw =>
        if negb (mw =? 0) && (width img >? mw) then
          let ratio := (inject_Z mw / inject_Z (width img))%Q in
          {| width := mw;
             height := Qtruncate (inject_Z (height img) * ratio);
             placeholder := placeholder img |}
        else img
    | None => img
    end in
  {| jpeg_image := img; jpeg_quality := q |}.

(** ** Rate adaptation *)

(** [_update_adaptive].  The samples are appended and trimmed before
    anything can go wrong; [1.0 / self.fps] raises when [fps] is zero or too
    large for a float. *)
Definition _update_adaptive (frame_time : float.t) (self : ScreenCapture)
    : result unit * ScreenCapture :=
  let times := (_frame_times self ++ [frame_time])%list in
  let times := if (30 <? length times)%nat then last_n 30 times else times in
  let self := set_frame_times times self in
  if (length times <? 5)%nat then (Ok tt, self)
  else
    match float.truediv_int (float.sum times) (Z.of_nat (length times)) with
    | Raise e => (Raise e, self)
    | Ok avg_time =>
        match float.truediv_int (float.literal 1 1) (fps self) with
        | Raise e => (Raise e, self)
        | Ok target_time =>
            let self :=
              if float.gt avg_time (float.mul target_time (float.literal 15 10)) then
                set_adaptive_fps (Z.max 3 (_adaptive_fps self - 1)) self
              else if float.lt avg_time (float.mul target_time (float.literal 5 10)) then
                set_adaptive_fps (Z.min (fps self) (_adaptive_fps self + 1)) self
              else self in
            (Ok tt, set_adaptive_quality (quality self) self)
        end
    end.

(** [stop]. *)
Definition stop (self : ScreenCapture) : ScreenCapture :=
  set_running false self.

(** ** The frame loop *)

(** What the consumer of the generator does while it is suspended at
    [yield]: it resumes the generator, possibly after mutating the capture
    object, or it closes the generator ([GeneratorExit] is thrown at the
    [yield]). *)
Inductive consumer : Type :=
| Resume (between : ScreenCapture -> ScreenCapture)
| Close.

(** One pass through the body of [while self._running], seen from the
    pacing state.  Lines 341-359 of the source either leave [frame_data] at
    [None], raise, or produce a payload; which one happens, what picture is
    encoded and how long it took is decided by the display server and the
    helper processes, so it is the input of the iteration. *)
Inductive iteration : Type :=
| Absent                                          (* [frame_data is None] *)
| Fails (e : exn)                                 (* acquisition or encoding raised [e] *)
| Frame (img : image) (frame_time : float.t) (c : consumer).

(** What the generator does that can be observed from outside. *)
Inductive event : Type :=
| Yield (frame_data : jpeg) (self : ScreenCapture)  (* the payload, and the object at that moment *)
| Sleep (seconds : float.t).

(** How the [try] statement inside the loop completes normally. *)
Inductive flow : Type :=
| Next
| Break.

(** The body of the inner [try], lines 341-378. *)
Definition loop_try (it : iteration) (self : ScreenCapture) (error_count : Z)
    : list event * (result flow * (ScreenCapture * Z)) :=
  match it with
  | Fails e => ([], (Raise e, (self, error_count)))
  | Absent =>
      let error_count := error_count + 1 in
      if error_count >? 10 then ([], (Ok Break, (self, error_count)))
      else ([Sleep (float.literal 5 10)], (Ok Next, (self, error_count)))
  | Frame img frame_time c =>
      let frame_data :=
        {| jpeg_image := img; jpeg_quality := _adaptive_quality self |} in
      let error_count := 0 in
      match _update_adaptive frame_time self with
      | (Raise e, self) => ([], (Raise e, (self, error_count)))
      | (Ok _, self) =>
          match c with
          | Close =>
              ([Yield frame_data self], (Raise GeneratorExit, (self, error_count)))
          | Resume between =>
              let resumed := between self in
              match float.truediv_int (float.literal 1 1) (_adaptive_fps resumed) with
              | Raise e =>
                  ([Yield frame_data self], (Raise e, (resumed, error_count)))
              | Ok target_interval =>
                  let sleep_time :=
                    float.max (float.literal 1 1000)
                              (float.sub target_interval frame_time) in
                  ([Yield frame_data self; Sleep sleep_time],
                   (Ok Next, (resumed, error_count)))
              end
          end
      end
  end.

(** The inner [try] with its [except Exception] handler, lines 340-385. *)
Definition loop_iteration (it : iteration) (self : ScreenCapture) (error_count : Z)
    : list event * (result flow * (ScreenCapture * Z)) :=
  match loop_try it self error_count with
  | (evs, (Raise e, (self, error_count))) =>
      if is_Exception e then
        let error_count := error_count + 1 in
        if error_count >? 10 then (evs, (Ok Break, (self, error_count)))
        else ((evs ++ [Sleep (float.literal 5 10)])%list, (Ok Next, (self, error_count)))
      else (evs, (Raise e, (self, error_count)))
  | r => r
  end.

(** Where a run stands once its inputs are used up. *)
Inductive status : Type :=
| Suspended (error_count : Z)   (* the loop is still going; its counter *)
| Returned                      (* the generator finished normally *)
| Raised (e : exn).             (* [e] left the generator *)

(** [while self._running: ...], one [iteration] per pass. *)
Fixpoint while_running (its : list iteration) (self : ScreenCapture)
    (error_count : Z) : list event * status * ScreenCapture :=
  if negb (_running self) then ([], Returned, self)
  else
    match its with
    | [] => ([], Suspended error_count, self)
    | it :: its' =>
        match loop_iteration it self error_count with
        | (evs, (Ok Next, (self, error_count))) =>
            let '(evs', st, self) := while_running its' self error_count in
            ((evs ++ evs')%list, st, self)
        | (evs, (Ok Break, (self, _))) => (evs, Returned, self)
        | (evs, (Raise e, (self, _))) => (evs, Raised e, self)
        end
    end.

(** [stream_frames], lines 328-331 and 336-388.  The [finally] clause runs
    when the [try] statement is left, not while the generator is suspended.
    Starting and stopping the helper session (lines 333-334 and 389-390)
    concerns [PipeWireSession] only and is modelled there. *)
Definition stream_frames (its : list iteration) (self : ScreenCapture)
    : list event * status * ScreenCapture :=
  let self := set_running true self in
  let self := set_adaptive_quality (quality self) self in
  let self := set_adaptive_fps (fps self) self in
  let '(evs, st, self) := while_running its self 0 in
  match st with
  | Suspended _ => (evs, st, self)
  | _ => (evs, st, set_running false self)
  end.

Definition events_of (run : list event * status * ScreenCapture) : list event :=
  fst (fst run).
Definition status_of (run : list event * status * ScreenCapture) : status :=
  snd (fst run).

(** ** The capture-session helper *)

(** The two fields of [ScreenCapture] that describe the helper session. *)
Record PipeWireSession : Type := {
  _pw_node_id : option Z;
  _pw_session_proc : option nat
}.

(** [s.split(sep)] for a one-character separator. *)
Fixpoint split_on (sep : ascii) (s : string) : list string :=
  match s with
  | EmptyString => [EmptyString]
  | String c rest =>
      if Ascii.eqb c sep then EmptyString :: split_on sep rest
      else
        match split_on sep rest with
        | [] => [String c EmptyString]
        | field :: fields => String c field :: fields
        end
  end.

(** [_stop_pipewire_session]: the helper reads lines of text and is sent
    the text [stop]. *)
Definition _stop_pipewire_session : M (O:=PipeWireSession) (L:=string) (P:=string) unit :=
  self ← get_self;
  match _pw_session_proc self with
  | None => ret tt
  | Some proc =>
      try_except
        (stdin_write proc "stop";; wait proc 3)
        (fun _ =>
           try_except
             (terminate proc;; wait proc 2)
             (fun _ => kill proc));;
      modify_self (fun _ => {| _pw_node_id := None; _pw_session_proc := None |})
  end.

Section Session.

(** [int(text)] of Python; [None] stands for [ValueError]. *)
Variable py_int : string -> option Z.

(** The [for _ in range(10)] loop of [_start_pipewire_session].  The result
    is [true] if the function returned from inside the loop and [false] if
    the loop ended, by [break] or by running out. *)
Fixpoint await_node (polls : nat) (proc : nat)
    : M (O:=PipeWireSession) (L:=string) (P:=string) bool :=
  match polls with
  | O => ret false
  | S polls' =>
      ready ← select_readline proc (1 # 2);
      let line := default ""%string ready in
      if String.prefix "NODE:" line then
        match py_int (nth 1 (split_on ":" line) ""%string) with
        | None => raise ValueError
        | Some node =>
            modify_self (fun self =>
              {| _pw_node_id := Some node;
                 _pw_session_proc := _pw_session_proc self |});;
            ret false
        end
      else if String.prefix "ERROR:" line then
        _stop_pipewire_session;; ret true
      else await_node polls' proc
  end.

Definition _start_pipewire_session : M (O:=PipeWireSession) (L:=string) (P:=string) unit :=
  self ← get_self;
  match _pw_session_proc self with
  | Some _ => ret tt
  | None =>
      proc ← popen;
      modify_self (fun self =>
        {| _pw_node_id := _pw_node_id self; _pw_session_proc := Some proc |});;
      try_except
        (returned ← await_node 10 proc;
         if returned : bool then ret tt
         else
           self ← get_self;
           match _pw_node_id self with
           | None => _stop_pipewire_session
           | Some _ => ret tt
           end)
        (fun _ => _stop_pipewire_session)
  end.

End Session.

End screen_capture.

(* ===================================================================== *)
(** * main.py: the streaming channel                                      *)
(* ===================================================================== *)

Module main.
Import screen_capture.

(** A decoded control message.  The payload is [None] when the key is
    missing from the message. *)
Inductive control : Type :=
| SetQuality (quality : option Z)
| SetFps (fps : option Z)
| SetMonitor (monitor : option Z)
| OtherMessage.

(** [data.get(key, <current value>)] for an integer setting: [Some None] if
    the key is missing, [Some (Some z)] for an integer, and [None] for any
    other JSON value, which the integer-typed model does not cover. *)
Definition int_field (data : gmap string pyval) (key : string) : option (option Z) :=
  match data !! key with
  | None => Some None
  | Some (VInt z) => Some (Some z)
  | Some _ => None
  end.

Definition decode_control (data : gmap string pyval) : option control :=
  let type := dict_get data "type" VNone in
  if is_str type "set_quality" then SetQuality <$> int_field data "quality"
  else if is_str type "set_fps" then SetFps <$> int_field data "fps"
  else if is_str type "set_monitor" then SetMonitor <$> int_field data "monitor"
  else Some OtherMessage.

(** Lines 220-227 of [ws_screen]. *)
Definition handle_control (msg : control) (capture : ScreenCapture) : ScreenCapture :=
  match msg with
  | SetQuality q =>
      let capture := set_quality (default (quality capture) q) capture in
      set_adaptive_quality (quality capture) capture
  | SetFps f =>
      let capture := set_fps (default (fps capture) f) capture in
      set_adaptive_fps (fps capture) capture
  | SetMonitor m => set_monitor (default (monitor capture) m) capture
  | OtherMessage => capture
  end.

(** What happens on the channel after a frame was handed to [ws_screen]:
    sending fails or the handler dies ([Gone]: the loop is left and the
    generator is closed), nothing arrives within the millisecond ([Quiet]),
    or one control message arrives. *)
Inductive peer : Type :=
| Gone
| Quiet
| Sent (msg : control).

Definition consume (p : peer) : consumer :=
  match p with
  | Gone => Close
  | Quiet => Resume (fun capture => capture)
  | Sent msg => Resume (handle_control msg)
  end.

(** One pass of the frame loop as [ws_screen] drives it. *)
Inductive step : Type :=
| NoFrame
| Error (e : exn)
| Captured (img : image) (frame_time : float.t) (p : peer).

Definition drive (s : step) : iteration :=
  match s with
  | NoFrame => Absent
  | Error e => Fails e
  | Captured img frame_time p => Frame img frame_time (consume p)
  end.

(** The frame loop of [ws_screen]: [stream_frames] consumed by lines
    207-229. *)
Definition ws_screen (steps : list step) (capture : ScreenCapture)
    : list event * status * ScreenCapture :=
  stream_frames (map drive steps) capture.

End main.

(* ===================================================================== *)
(** * input_handler.py                                                    *)
(* ===================================================================== *)

Module input_handler.

(** A line of the input helper's output after [strip()], as [json.loads]
    sees it: the empty string (end of file or a blank line), text that is
    not JSON, or text that parses to a value. *)
Inductive helper_line : Type :=
| Blank
| NotJson
| Json (v : pyval).

(** What leaves the process: a command written to the helper as one JSON
    line, or a call into pyautogui or pyperclip. *)
Inductive payload : Type :=
| JsonLine (command : gmap string pyval)
| Pyautogui (method : string) (args : list pyval)
| Pyperclip (function : string) (args : list pyval).

(** The text of a [message] field. *)
Inductive message : Type :=
| Text (s : string)                 (* a literal *)
| StrOf (e : exn)                   (* [str(e)] *)
| UnknownCommand (cmd_type : pyval). (* [f"Unknown command: {cmd_type}"] *)

(** The dictionaries the bridge and the router return. *)
Inductive reply : Type :=
| status_ok                          (* [{"status": "ok"}] *)
| status_error (m : message)         (* [{"status": "error", "message": m}] *)
| helper_said (v : pyval)            (* [json.loads(line)], whatever it is *)
| clipboard_set                      (* [{"status": "ok", "action": "set"}] *)
| clipboard_get (content : string).  (* [{"status": "ok", "action": "get", "content": ...}] *)

(** ** WaylandInputBackend *)

Record WaylandInputBackend : Type := {
  _process : option nat;
  _ready : bool
}.

Definition set_process (v : option nat) (self : WaylandInputBackend) : WaylandInputBackend :=
  {| _process := v; _ready := _ready self |}.

Definition set_ready (v : bool) (self : WaylandInputBackend) : WaylandInputBackend :=
  {| _process := _process self; _ready := v |}.

(** A method of [WaylandInputBackend]. *)
Abbreviation W A := (M (O:=WaylandInputBackend) (L:=helper_line) (P:=payload) A).

(** An attribute access on [self._process]: [AttributeError] if it is
    [None] at that moment. *)
Definition the_process : W nat :=
  self ← get_self;
  match _process self with
  | Some proc => ret proc
  | None => raise AttributeError
  end.

(** The [for _ in range(20)] loop of [start]: [true] if [start] returned
    from inside the loop (the helper is ready), [false] if the loop ended,
    by [break] or by running out. *)
Fixpoint await_ready (polls : nat) (proc : nat) : W bool :=
  match polls with
  | O => ret false
  | S polls' =>
      ready ← select_readline proc (1 # 2);
      match ready with
      | None | Some Blank => await_ready polls' proc
      | Some NotJson => raise JSONDecodeError
      | Some (Json (VDict data)) =>
          let status := dict_get data "status" VNone in
          if is_str status "ready" then
            modify_self (set_ready true);; ret true
          else if is_str status "error" then ret false
          else await_ready polls' proc
      | Some (Json _) => raise AttributeError
      end
  end.

(** [start], [stop] and [_send] call each other: [start] calls [stop] when
    the helper did not become ready, [stop] calls [_send] to deliver the
    stop command, and [_send] calls [start] when the helper is not usable.
    Each body is written against the method it calls. *)
Definition start_calling (stop : W unit) : W unit :=
  self ← get_self;
  running ←
    match _process self with
    | Some proc => poll_is_None proc
    | None => ret false
    end;
  if running : bool then ret tt
  else
    proc ← popen;
    modify_self (set_process (Some proc));;
    try_except
      (returned ← await_ready 20 proc;
       if returned : bool then ret tt
       else
         self ← get_self;
         if negb (_ready self) then stop else ret tt)
      (fun _ => stop).

Definition stop_calling (_send : gmap string pyval -> W reply) : W unit :=
  self ← get_self;
  match _process self with
  | None => ret tt
  | Some _ =>
      try_except
        (_send {[ "type"%string := VStr "stop" ]};;
         proc ← the_process;
         wait proc 2)
        (fun _ =>
           try_except
             (proc ← the_process; terminate proc;;
              proc ← the_process; wait proc 1)
             (fun _ => proc ← the_process; kill proc));;
      modify_self (fun _ => {| _process := None; _ready := false |})
  end.

Definition _send_calling (start : W unit) (command : gmap string pyval) : W reply :=
  self ← get_self;
  dead ←
    (if negb (_ready self) then ret true
     else
       match _process self with
       | None => ret true
       | Some proc => running ← poll_is_None proc; ret (negb running)
       end);
  usable ←
    (if dead : bool then
       modify_self (set_ready false);;
       start;;
       self ← get_self;
       ret (_ready self)
     else ret true);
  if negb usable then ret (status_error (Text "Input backend not available"))
  else
    try_except
      (proc ← the_process;
       stdin_write proc (JsonLine command);;
       proc ← the_process;
       ready ← select_readline proc 2;
       match ready with
       | Some (Json v) => ret (helper_said v)
       | Some NotJson => raise JSONDecodeError
       | Some Blank | None => ret status_ok
       end)
      (fun e => modify_self (set_ready false);; ret (status_error (StrOf e))).

(** The mutual recursion, tied with a bound on how deeply [start] may nest
    inside itself; a run that needs more is [Unscripted]. *)
Fixpoint start (depth : nat) : W unit :=
  match depth with
  | O => unscripted
  | S depth' => start_calling (stop_calling (_send_calling (start depth')))
  end.

Definition _send (depth : nat) (command : gmap string pyval) : W reply :=
  _send_calling (start depth) command.

Definition stop (depth : nat) : W unit :=
  stop_calling (_send depth).

(** The input methods of [WaylandInputBackend]: each builds a command and
    ignores what [_send] returns. *)
Inductive call : Type :=
| mouse_move (x y relative : pyval)
| mouse_click (button count x y : pyval)
| mouse_scroll (dx dy : pyval)
| mouse_down (button : pyval)
| mouse_up (button : pyval)
| key_press (key modifiers : pyval)
| key_combo (keys : pyval)
| type_text (text : pyval).

Definition is_None (v : pyval) : bool :=
  match v with
  | VNone => true
  | _ => false
  end.

Definition wayland (depth : nat) (c : call) : W unit :=
  match c with
  | mouse_move x y relative =>
      _send depth {[ "type"%string := VStr "mouse_move"; "x"%string := x;
                     "y"%string := y; "relative"%string := relative ]};; ret tt
  | mouse_click button count x y =>
      (if negb (is_None x) && negb (is_None y) then
         _send depth {[ "type"%string := VStr "mouse_move"; "x"%string := x;
                        "y"%string := y; "relative"%string := VBool false ]};; ret tt
       else ret tt);;
      _send depth {[ "type"%string := VStr "mouse_click";
                     "button"%string := button; "count"%string := count ]};; ret tt
  | mouse_scroll dx dy =>
      _send depth {[ "type"%string := VStr "mouse_scroll";
                     "dx"%string := dx; "dy"%string := dy ]};; ret tt
  | mouse_down button =>
      _send depth {[ "type"%string := VStr "mouse_down"; "button"%string := button ]};;
      ret tt
  | mouse_up button =>
      _send depth {[ "type"%string := VStr "mouse_up"; "button"%string := button ]};;
      ret tt
  | key_press key modifiers =>
      _send depth {[ "type"%string := VStr "key_press"; "key"%string := key;
                     "modifiers"%string :=
                       if py_truthy modifiers then modifiers else VList [] ]};;
      ret tt
  | key_combo keys =>
      _send depth {[ "type"%string := VStr "key_combo"; "keys"%string := keys ]};;
      ret tt
  | type_text text =>
      _send depth {[ "type"%string := VStr "type_text"; "text"%string := text ]};;
      ret tt
  end.

(** ** X11InputBackend *)

(** The direct backend is a thin wrapper around pyautogui.  For the router
    each of its methods is one external call that returns or raises. *)
Definition external {O : Type} (p : payload) : M (O:=O) (L:=helper_line) (P:=payload) unit :=
  a ← next_answer;
  match a with
  | Called true => emit (Direct p)
  | Called false => raise BackendError
  | _ => unscripted
  end.

Definition x11 {O : Type} (c : call) : M (O:=O) (L:=helper_line) (P:=payload) unit :=
  match c with
  | mouse_move x y relative => external (Pyautogui "mouse_move" [x; y; relative])
  | mouse_click button count x y => external (Pyautogui "mouse_click" [button; count; x; y])
  | mouse_scroll dx dy => external (Pyautogui "mouse_scroll" [dx; dy])
  | mouse_down button => external (Pyautogui "mouse_down" [button])
  | mouse_up button => external (Pyautogui "mouse_up" [button])
  | key_press key modifiers => external (Pyautogui "key_press" [key; modifiers])
  | key_combo keys => external (Pyautogui "key_combo" [keys])
  | type_text text => external (Pyautogui "type_text" [text])
  end.

(** ** InputHandler *)

Inductive backend : Type :=
| X11InputBackend
| Wayland (b : WaylandInputBackend).

Record InputHandler : Type := {
  _sensitivity : Q;
  _drag_active : bool;
  _backend : backend
}.

Definition set_sensitivity (v : Q) (self : InputHandler) : InputHandler :=
  {| _sensitivity := v; _drag_active := _drag_active self; _backend := _backend self |}.

Definition set_drag_active (v : bool) (self : InputHandler) : InputHandler :=
  {| _sensitivity := _sensitivity self; _drag_active := v; _backend := _backend self |}.

Definition set_backend (v : backend) (self : InputHandler) : InputHandler :=
  {| _sensitivity := _sensitivity self; _drag_active := _drag_active self; _backend := v |}.

(** A method of [InputHandler]. *)
Abbreviation H A := (M (O:=InputHandler) (L:=helper_line) (P:=payload) A).

(** [InputHandler.__init__], given the module-level flag [_is_wayland]. *)
Definition __init__ (_is_wayland : bool) : InputHandler :=
  {| _sensitivity := 1;
     _drag_active := false;
     _backend :=
       if _is_wayland then Wayland {| _process := None; _ready := false |}
       else X11InputBackend |}.

(** Run a method of the compositor backend object held in [self._backend]. *)
Definition on_backend {A : Type} (b : WaylandInputBackend) (m : W A) : H A :=
  fun s =>
    match m (b, snd s) with
    | (r, (b', w')) => (r, (set_backend (Wayland b') (fst s), w'))
    end.

Definition ensure_started (depth : nat) : H unit :=
  self ← get_self;
  match _backend self with
  | Wayland b => if negb (_ready b) then on_backend b (start depth) else ret tt
  | X11InputBackend => ret tt
  end.

(** [self._backend.<method>(...)]. *)
Definition backend_call (depth : nat) (c : call) : H unit :=
  self ← get_self;
  match _backend self with
  | Wayland b => on_backend b (wayland depth c)
  | X11InputBackend => x11 c
  end.

(** Numbers as Python arithmetic and comparison see them. *)
Definition as_number (v : pyval) : option Q :=
  match v with
  | VInt z => Some (inject_Z z)
  | VFloat q => Some q
  | VBool b => Some (if b then 1%Q else 0%Q)
  | _ => None
  end.

(** The [sensitivity] setter: [max(0.1, min(5.0, value))]. *)
Definition sensitivity_setter (value : pyval) : H unit :=
  match as_number value with
  | None => raise TypeError
  | Some v => modify_self (set_sensitivity (py_max (1 # 10) (py_min 5 v)))
  end.

(** [int(x * self._sensitivity)].  For a string or a list [x] Python's [*]
    is repetition when the sensitivity happens to be an [int], which the
    rational [_sensitivity] does not record: the model leaves these cases
    open. *)
Definition scaled (x : pyval) : H pyval :=
  self ← get_self;
  match as_number x with
  | Some v => ret (VInt (Qtruncate (v * _sensitivity self)))
  | None =>
      match x with
      | VStr _ | VList _ => unscripted
      | _ => raise TypeError
      end
  end.

Definition _handle_clipboard (command : gmap string pyval) : H reply :=
  let action := dict_get command "action" (VStr "get") in
  try_except
    (if is_str action "set" then
       external (Pyperclip "copy" [dict_get command "content" (VStr "")]);;
       ret clipboard_set
     else
       a ← next_answer;
       match a with
       | Pasted text => emit (Direct (Pyperclip "paste" []));; ret (clipboard_get text)
       | Called false => raise BackendError
       | _ => unscripted
       end)
    (fun e => ret (status_error (StrOf e))).

Definition process_command (depth : nat) (command : gmap string pyval) : H reply :=
  let cmd_type := dict_get command "type" (VStr "") in
  ensure_started depth;;
  try_except
    (if is_str cmd_type "mouse_move" then
       let x := dict_get command "x" (VInt 0) in
       let y := dict_get command "y" (VInt 0) in
       let relative := dict_get command "relative" (VBool true) in
       xy ← (if py_truthy relative then
                x' ← scaled x; y' ← scaled y; ret (x', y')
              else ret (x, y));
       backend_call depth (mouse_move (fst xy) (snd xy) relative);;
       ret status_ok
     else if is_str cmd_type "mouse_click" then
       backend_call depth
         (mouse_click (dict_get command "button" (VStr "left"))
                      (dict_get command "count" (VInt 1))
                      (dict_get command "x" VNone)
                      (dict_get command "y" VNone));;
       ret status_ok
     else if is_str cmd_type "mouse_scroll" then
       backend_call depth
         (mouse_scroll (dict_get command "dx" (VInt 0))
                       (dict_get command "dy" (VInt 0)));;
       ret status_ok
     else if is_str cmd_type "mouse_down" then
       backend_call depth (mouse_down (dict_get command "button" (VStr "left")));;
       modify_self (set_drag_active true);;
       ret status_ok
     else if is_str cmd_type "mouse_up" then
       backend_call depth (mouse_up (dict_get command "button" (VStr "left")));;
       modify_self (set_drag_active false);;
       ret status_ok
     else if is_str cmd_type "key_press" then
       backend_call depth
         (key_press (dict_get command "key" (VStr ""))
                    (dict_get command "modifiers" VNone));;
       ret status_ok
     else if is_str cmd_type "key_combo" then
       backend_call depth (key_combo (dict_get command "keys" (VList [])));;
       ret status_ok
     else if is_str cmd_type "type_text" then
       backend_call depth (type_text (dict_get command "text" (VStr "")));;
       ret status_ok
     else if is_str cmd_type "set_sensitivity" then
       sensitivity_setter (dict_get command "value" (VFloat 1));;
       ret status_ok
     else if is_str cmd_type "clipboard_sync" then
       _handle_clipboard command
     else
       ret (status_error (UnknownCommand cmd_type)))
    (fun e => ret (status_error (StrOf e))).

End input_handler.

(* ===================================================================== *)
(** * Vocabulary of the specification                                     *)
(* ===================================================================== *)

Section CaptureVocabulary.
Import screen_capture.

(** ** Frame production *)

(** "adaptive_quality equals configured_quality at this yielded frame";
    the payload itself was encoded at that quality. *)
Definition at_configured_quality (ev : event) : Prop :=
  match ev with
  | Yield frame_data self =>
      _adaptive_quality self = quality self /\
      jpeg_quality frame_data = quality self
  | Sleep _ => True
  end.

(** "3 <= adaptive_fps <= configured_fps at this yielded frame". *)
Definition fps_within_bounds (ev : event) : Prop :=
  match ev with
  | Yield _ self => 3 <= _adaptive_fps self <= fps self
  | Sleep _ => True
  end.

(** The capture object as [stream_frames] leaves it at lines 328-330,
    before the loop is entered. *)
Definition entered (self : ScreenCapture) : ScreenCapture :=
  set_adaptive_fps (fps self) (set_adaptive_quality (quality self) (set_running true self)).

(** A consumer that keeps the property [I] of the capture object. *)
Definition preserved_by (I : ScreenCapture -> Prop) (it : iteration) : Prop :=
  match it with
  | Frame _ _ (Resume between) => forall s, I s -> I (between s)
  | _ => True
  end.

(** A frame that was yielded while [I] held: [I] holds of the object at the
    [yield], which is what rate adaptation made of an object [before] that
    satisfied [I] too, and the payload was encoded at the adaptive quality
    of [before]. *)
Definition yielded_under (I : ScreenCapture -> Prop) (ev : event) : Prop :=
  match ev with
  | Yield frame_data self =>
      I self /\
      exists frame_time before,
        I before /\ self = snd (_update_adaptive frame_time before) /\
        jpeg_quality frame_data = _adaptive_quality before
  | Sleep _ => True
  end.

(** A pass of [ws_screen]'s loop in which no [set_fps] message asks for
    less than 3 frames per second. *)
Definition asks_at_least_3 (s : main.step) : Prop :=
  match s with
  | main.Captured _ _ (main.Sent (main.SetFps (Some f))) => 3 <= f
  | _ => True
  end.

(** The sliding window after a new sample: the last 30 of the samples. *)
Definition window (self : ScreenCapture) (frame_time : float.t) : list float.t :=
  last_n 30 (_frame_times self ++ [frame_time]).

(** The average of the window as the code computes it:
    [sum(times) / len(times)]. *)
Definition average (xs : list float.t) : result float.t :=
  float.truediv_int (float.sum xs) (Z.of_nat (length xs)).

(** The target interval as the code computes it, from the configured rate:
    [1.0 / self.fps]. *)
Definition target (self : ScreenCapture) : result float.t :=
  float.truediv_int (float.literal 1 1) (fps self).

(** A rate [r] for which [1.0 / r] raises: zero, or too large for a
    float. *)
Definition no_interval (rate : Z) : Prop :=
  rate = 0 \/ float.of_int rate = Raise OverflowError.

(** The average of a window in exact arithmetic. *)
Definition exact_average (xs : list float.t) : Q :=
  (Qsum (map float.to_Q xs) / inject_Z (Z.of_nat (length xs)))%Q.


(** ** Backend selection *)

(** "The probe succeeded": the subprocess completed with return code 0. *)
Definition succeeded (r : result Z) : bool :=
  match r with
  | Ok rc => rc =? 0
  | Raise _ => false
  end.

Definition cli_tools : list string := ["grim"; "gnome-screenshot"; "spectacle"]%string.

(** The selection rule in the specification's words. *)
Definition selected_backend (env : probes) : string :=
  if is_wayland env then
    if succeeded (gdbus_introspect env) then "pipewire"%string
    else
      match find (fun tool => succeeded (which env tool)) cli_tools with
      | Some tool => tool
      | None => "mss-fallback"%string
      end
  else "mss"%string.

(** The kind of backend the rule selects. *)
Definition selected_kind (env : probes) : backend_kind :=
  if is_wayland env then
    if succeeded (gdbus_introspect env) then compositor
    else if existsb (fun tool => succeeded (which env tool)) cli_tools then cli_tool
    else fallback
  else direct.

(** No probe raises anything but what its [except] clause lists. *)
Definition probes_handled (env : probes) : Prop :=
  (forall e, gdbus_introspect env = Raise e ->
     e = TimeoutExpired \/ e = FileNotFoundError) /\
  (forall tool e, In tool cli_tools -> which env tool = Raise e ->
     e = CalledProcessError \/ e = FileNotFoundError).

(** "Not available", as the probe of a CLI tool reports it: [which] exits
    with a code other than 0 or raises what the [except] clause of
    [_cmd_exists] lists. *)
Definition unavailable (r : result Z) : Prop :=
  match r with
  | Ok rc => rc <> 0
  | Raise e => caught [CalledProcessError; FileNotFoundError] e = true
  end.

(** The same for the introspection probe and the [except] clause of
    [_detect_backend]. *)
Definition not_introspected (r : result Z) : Prop :=
  match r with
  | Ok rc => rc <> 0
  | Raise e => caught [TimeoutExpired; FileNotFoundError] e = true
  end.

(** A probe that detection runs raises [e], which the [except] clause of the
    probe does not list: the introspection probe under a compositor
    session; or, when that reported "not available", the probe of a CLI
    tool before which every tool was reported "not available". *)
Definition escapes (env : probes) (e : exn) : Prop :=
  is_wayland env = true /\
  ((gdbus_introspect env = Raise e /\
    caught [TimeoutExpired; FileNotFoundError] e = false) \/
   (not_introspected (gdbus_introspect env) /\
    exists before tool after,
      cli_tools = (before ++ tool :: after)%list /\
      Forall (fun t => unavailable (which env t)) before /\
      which env tool = Raise e /\
      caught [CalledProcessError; FileNotFoundError] e = false)).

(** Two environments in which every probe has the same outcome. *)
Definition same_probes (env env' : probes) : Prop :=
  is_wayland env = is_wayland env' /\
  gdbus_introspect env = gdbus_introspect env' /\
  (forall tool, In tool cli_tools -> which env tool = which env' tool).

(** ** Example inputs *)

Definition x11_session : probes :=
  {| is_wayland := false;
     gdbus_introspect := Raise FileNotFoundError;
     which := fun _ => Ok 1 |}.

(** A compositor session without the screen-cast interface in which only
    [gnome-screenshot] is installed. *)
Definition gnome_screenshot_only : probes :=
  {| is_wayland := true;
     gdbus_introspect := Ok 1;
     which := fun cmd => if String.eqb cmd "gnome-screenshot" then Ok 0 else Ok 1 |}.

(** A compositor session in which [gdbus] exists but may not be executed. *)
Definition gdbus_not_executable : probes :=
  {| is_wayland := true;
     gdbus_introspect := Raise PermissionError;
     which := fun _ => Ok 0 |}.

(** A compositor session without the screen-cast interface in which
    [which] exists but may not be executed. *)
Definition which_not_executable : probes :=
  {| is_wayland := true;
     gdbus_introspect := Ok 1;
     which := fun _ => Raise PermissionError |}.

(** The capture object [ScreenCapture(fps=..., quality=...)] makes on X11. *)
Definition capture_with (config : ServerConfig) (fps quality : option Z) : ScreenCapture :=
  {| fps := int_or fps (capture_fps config);
     quality := int_or quality (capture_quality config);
     monitor := capture_monitor config;
     _running := false; _frame_times := [];
     _adaptive_quality := int_or quality (capture_quality config);
     _adaptive_fps := int_or fps (capture_fps config);
     _backend := "mss" |}.

Definition full_hd : image := {| width := 1920; height := 1080; placeholder := false |}.

(** The configuration after [DSK_FPS=0 DSK_QUALITY=0]. *)
Definition zero_config : ServerConfig :=
  {| capture_fps := 0; capture_quality := 0; capture_monitor := 0 |}.

(** A session at the default rate of 15 frames per second that has seen
    four frames of 10 ms each. *)
Definition warmed_up : ScreenCapture :=
  set_frame_times (repeat (float.literal 1 100) 4) (capture_with default_config None None).

(** A session configured for 3 frames per second that has seen four frames
    of one second each. *)
Definition at_floor : ScreenCapture :=
  set_frame_times (repeat (float.literal 1 1) 4) (capture_with default_config (Some 3) None).

(** A session at the default rate of 15 frames per second that has seen
    four frames of [0.1] seconds each.  The double [0.1] is a little more
    than a tenth, and the threshold [(1.0 / 15) * 1.5] is that same
    double. *)
Definition on_the_threshold : ScreenCapture :=
  set_frame_times (repeat (float.literal 1 10) 4) (capture_with default_config None None).

(** A rate that is too large for a float. *)
Definition huge_rate : Z := 10 ^ 309.

(** Four quiet passes and a frame, then a client that asks for 10 frames
    per second, failures, and slow frames. *)
Definition busy_stream : list main.step :=
  [main.Captured full_hd (float.literal 1 100) main.Quiet;
   main.Captured full_hd (float.literal 1 100) main.Quiet;
   main.Captured full_hd (float.literal 1 100) (main.Sent (main.SetFps (Some 10)));
   main.NoFrame;
   main.Error RuntimeError;
   main.Captured full_hd (float.literal 2 10) main.Quiet;
   main.Captured full_hd (float.literal 2 10) (main.Sent (main.SetQuality (Some 80)));
   main.Captured full_hd (float.literal 2 10) main.Quiet;
   main.Captured full_hd (float.literal 2 10) main.Quiet].


(** ** The start protocol of the capture-session helper *)

(** A poll that brought no status: nothing to read, or a line that starts
    neither with [NODE:] nor with [ERROR:]. *)
Definition no_status_text (line : option string) : Prop :=
  String.prefix "NODE:" (default ""%string line) = false /\
  String.prefix "ERROR:" (default ""%string line) = false.

(** The polls of a start in which no node id is announced: ten polls
    without status; or fewer followed by an error line; or fewer followed by
    a node line whose id [int] does not read. *)
Inductive never_announced (py_int : string -> option Z) : list (option string) -> Prop :=
| node_budget_spent lines :
    length lines = 10%nat -> Forall no_status_text lines -> never_announced py_int lines
| node_error lines reason :
    (length lines < 10)%nat -> Forall no_status_text lines ->
    never_announced py_int (lines ++ [Some ("ERROR:" ++ reason)%string])
| node_unreadable lines text :
    (length lines < 10)%nat -> Forall no_status_text lines ->
    String.prefix "NODE:" text = true ->
    py_int (nth 1 (split_on ":" text) ""%string) = None ->
    never_announced py_int (lines ++ [Some text]).

(** The answers [_stop_pipewire_session] can meet: the stop line is
    delivered and the helper exits within three seconds; it is delivered and
    the helper has to be terminated (and maybe killed); it cannot be
    delivered and the helper is terminated (and maybe killed). *)
Definition stop_answers {L : Type} (tail : list (answer L)) : bool :=
  match tail with
  | [Written true; Waited true]
  | [Written true; Waited false; Waited _]
  | [Written false; Waited _] => true
  | _ => false
  end.

(** No helper session. *)
Definition dead_session : PipeWireSession :=
  {| _pw_node_id := None; _pw_session_proc := None |}.

(** [int(text)] on the unsigned decimal numerals the helper prints; every
    other text is rejected. *)
Definition decimal (text : string) : option Z :=
  match NilEmpty.uint_of_string text with
  | Some Decimal.Nil | None => None
  | Some digits => Some (Z.of_uint digits)
  end.

(** A capture helper that never prints anything and exits when told to. *)
Definition silent_capture_helper : world string string :=
  world_of (Spawned true :: map Selected (repeat None 10) ++ [Written true; Waited true] ++ []).

End CaptureVocabulary.

Section InputVocabulary.
Import input_handler.

(** ** The start protocol of the input helper *)

Definition status_of_line (data : gmap string pyval) : pyval :=
  dict_get data "status" VNone.

(** A poll that brought no status: nothing to read, an empty line, or an
    object whose status is neither [ready] nor [error]. *)
Definition no_status_line (line : option helper_line) : Prop :=
  match line with
  | None | Some Blank => True
  | Some (Json (VDict data)) =>
      is_str (status_of_line data) "ready" = false /\
      is_str (status_of_line data) "error" = false
  | Some _ => False
  end.

(** The polls of a start in which the helper never reports ready: twenty
    polls without status; or fewer followed by an error status; or fewer
    followed by a line that is not JSON, or that is JSON but not an
    object. *)
Inductive never_ready : list (option helper_line) -> Prop :=
| ready_budget_spent lines :
    length lines = 20%nat -> Forall no_status_line lines -> never_ready lines
| error_reported lines data :
    (length lines < 20)%nat -> Forall no_status_line lines ->
    is_str (status_of_line data) "error" = true ->
    never_ready (lines ++ [Some (Json (VDict data))])
| not_json lines :
    (length lines < 20)%nat -> Forall no_status_line lines ->
    never_ready (lines ++ [Some NotJson])
| not_an_object lines v :
    (length lines < 20)%nat -> Forall no_status_line lines ->
    (forall data, v <> VDict data) ->
    never_ready (lines ++ [Some (Json v)]).

(** The answers [stop] can meet when the helper is still running: it exits
    within the two seconds [stop] waits, or it has to be terminated (and
    maybe killed). *)
Definition stop_answers_running {L : Type} (tail : list (answer L)) : bool :=
  match tail with
  | [Running true; Waited true]
  | [Running true; Waited false; Waited _] => true
  | _ => false
  end.

(** A backend without helper. *)
Definition dead_backend : WaylandInputBackend :=
  {| _process := None; _ready := false |}.

(** An input helper that never prints anything and has to be terminated. *)
Definition silent_input_helper : world helper_line payload :=
  world_of (Spawned true :: map Selected (repeat None 20)
              ++ [Running true; Waited false; Waited true] ++ []).

(** An input helper that crashes while starting (its output is at end of
    file, it has exited when it is to be stopped), a second one that does
    the same, and a third one that becomes ready and obeys the stop
    command. *)
Definition crashing_input_helpers : world helper_line payload :=
  world_of
    (Spawned true :: map Selected (repeat (Some Blank) 20) ++ [Running false]
     ++ Spawned true :: map Selected (repeat (Some Blank) 20) ++ [Running false]
     ++ [Spawned true; Selected (Some (Json (VDict {[ "status"%string := VStr "ready" ]})));
         Written true; Selected (Some Blank); Waited true]).

(** A helper of either kind that begins a line and never ends it. *)
Definition stalling_helper {L P : Type} : world L P :=
  world_of [Spawned true; Selected None; Stalled].

(** Two input helpers that print text that is not JSON; the first one has
    exited when it is to be stopped, the second one exits on its own. *)
Definition garbling_input_helpers : world helper_line payload :=
  world_of
    [Spawned true; Selected (Some NotJson); Running false;
     Spawned true; Selected (Some NotJson); Running true; Waited true].

(** ** Commands *)

(** The sensitivity the setter stores for a number [v]. *)
Definition clamp (v : Q) : Q := py_max (1 # 10) (py_min 5 v).

(** What [ws_screen] does with a control message of type [ty]. *)
Definition control_applied (ty : string) (msg : main.control)
    (before after : screen_capture.ScreenCapture) : Prop :=
  if String.eqb ty "set_quality" then
    exists q, msg = main.SetQuality q /\
      screen_capture.quality after = default (screen_capture.quality before) q /\
      screen_capture._adaptive_quality after = screen_capture.quality after /\
      screen_capture.fps after = screen_capture.fps before /\
      screen_capture._adaptive_fps after = screen_capture._adaptive_fps before /\
      screen_capture.monitor after = screen_capture.monitor before
  else if String.eqb ty "set_fps" then
    exists f, msg = main.SetFps f /\
      screen_capture.fps after = default (screen_capture.fps before) f /\
      screen_capture._adaptive_fps after = screen_capture.fps after /\
      screen_capture.quality after = screen_capture.quality before /\
      screen_capture._adaptive_quality after = screen_capture._adaptive_quality before /\
      screen_capture.monitor after = screen_capture.monitor before
  else
    exists m, msg = main.SetMonitor m /\
      screen_capture.monitor after = default (screen_capture.monitor before) m /\
      screen_capture.fps after = screen_capture.fps before /\
      screen_capture._adaptive_fps after = screen_capture._adaptive_fps before /\
      screen_capture.quality after = screen_capture.quality before /\
      screen_capture._adaptive_quality after = screen_capture._adaptive_quality before.

Definition mouse_up_command : gmap string pyval :=
  {[ "type"%string := VStr "mouse_up" ]}.

Definition set_sensitivity_command : gmap string pyval :=
  {[ "type"%string := VStr "set_sensitivity"; "value"%string := VInt 3 ]}.

Definition set_quality_command : gmap string pyval :=
  {[ "type"%string := VStr "set_quality"; "quality"%string := VInt 80 ]}.

Definition set_fps_command : gmap string pyval :=
  {[ "type"%string := VStr "set_fps"; "fps"%string := VInt 10 ]}.

Definition set_monitor_command : gmap string pyval :=
  {[ "type"%string := VStr "set_monitor"; "monitor"%string := VInt 1 ]}.

End InputVocabulary.



(* ===================================================================== *)
(** * Placeholder pictures and waits                                      *)
(* ===================================================================== *)

Section PacingVocabulary.
Import screen_capture.


End PacingVocabulary.

(** Seconds a log spent in [proc.wait(timeout=...)] at most: the sum of the
    timeouts. *)
Fixpoint seconds_waited {P : Type} (l : list (action P)) : Q :=
  match l with
  | [] => 0
  | Wait _ timeout :: l' => timeout + seconds_waited l'
  | _ :: l' => seconds_waited l'
  end.

(* ===================================================================== *)
(** * screen_capture.py: acquiring a picture                              *)
(* ===================================================================== *)

Module acquisition.
Import screen_capture.

(** What the file [_tmp_file] holds, if it exists: an encoded picture, or
    bytes that [Image.open] cannot read. *)
Inductive content : Type :=
| Picture (img : image)
| Garbage.

(** A command run by [subprocess.run(..., capture_output=True,
    timeout=...)]: it completes with a return code or raises
    ([TimeoutExpired], [FileNotFoundError], ...), and it may have written
    the temporary file ([wrote = None]: the file is as it was). *)
Record run : Type := {
  completed : result Z;
  wrote : option content
}.

(** Where [_capture_image] calls [_capture_mss]: in the body of its [try]
    or in the handler. *)
Inductive place : Type :=
| Body
| Handler.

(** What the display and the external commands do during one capture. *)
Record display : Type := {
  (* [sct.grab(sct.monitors[monitor])] and the conversion to a picture *)
  mss_grab : place -> Z -> result image;
  (* [grim], [gnome-screenshot] or [spectacle] writing to the temporary file *)
  tool_run : string -> run;
  (* [gst-launch-1.0 ... pipewiresrc path=<node> ... jpegenc quality=<q>] *)
  gst_run : Z -> Z -> run
}.

(** The session fields of [ScreenCapture] together with the temporary
    file. *)
Record Capture : Type := {
  session : PipeWireSession;
  _tmp_file : option content
}.

Definition set_session (v : PipeWireSession) (self : Capture) : Capture :=
  {| session := v; _tmp_file := _tmp_file self |}.

Definition set_tmp_file (v : option content) (self : Capture) : Capture :=
  {| session := session self; _tmp_file := v |}.

(** A method that acquires a picture. *)
Abbreviation C A := (M (O:=Capture) (L:=string) (P:=string) A).

(** Run a method of the helper session on the session fields. *)
Definition on_session {A : Type}
    (m : M (O:=PipeWireSession) (L:=string) (P:=string) A) : C A :=
  fun s =>
    match m (session (fst s), snd s) with
    | (r, (session', w')) => (r, (set_session session' (fst s), w'))
    end.

(** A call that returns or raises, inside a method. *)
Definition lift {A : Type} (r : result A) : C A :=
  match r with
  | Ok a => ret a
  | Raise e => raise e
  end.

(** [Image.open(tmp).convert("RGB")]: [FileNotFoundError] if the file does
    not exist, an [OSError] if it is not a picture. *)
Definition Image_open (file : option content) : result image :=
  match file with
  | None => Raise FileNotFoundError
  | Some (Picture img) => Ok img
  | Some Garbage => Raise PermissionError
  end.

(** [self._tmp_file.exists()]. *)
Definition exists_ (file : option content) : bool :=
  match file with
  | Some _ => true
  | None => false
  end.

(** [subprocess.run(cmd, ...)] as far as the temporary file and the caller
    are concerned. *)
Definition subprocess_run (r : run) : C Z :=
  modify_self (fun self =>
    match wrote r with
    | Some bytes => set_tmp_file (Some bytes) self
    | None => self
    end);;
  lift (completed r).

Section Acquire.

Variable py_int : string -> option Z.
Variable env : display.

(** [_capture_mss], for [self.monitor = monitor]. *)
Definition _capture_mss (where_ : place) (monitor : Z) : C image :=
  lift (mss_grab env where_ monitor).

(** [_capture_cli].  The return code of the tool is not looked at. *)
Definition _capture_cli (tool : string) : C image :=
  (if String.eqb tool "grim" then ret tt
   else if String.eqb tool "gnome-screenshot" then ret tt
   else if String.eqb tool "spectacle" then ret tt
   else raise RuntimeError);;
  subprocess_run (tool_run env tool);;
  self ← get_self;
  lift (Image_open (_tmp_file self)).

(** [_capture_pipewire]. *)
Definition _capture_pipewire : C image :=
  self ← get_self;
  (match _pw_node_id (session self) with
   | None => on_session (_start_pipewire_session py_int)
   | Some _ => ret tt
   end);;
  self ← get_self;
  match _pw_node_id (session self) with
  | None => raise RuntimeError
  | Some node =>
      modify_self (set_tmp_file None);;
      returncode ← subprocess_run (gst_run env node 95);
      self ← get_self;
      if negb (returncode =? 0) || negb (exists_ (_tmp_file self)) then
        on_session _stop_pipewire_session;;
        raise RuntimeError
      else
        lift (Image_open (_tmp_file self))
  end.

(** [_capture_pipewire_bytes]: the bytes of the file, whatever they are. *)
Definition _capture_pipewire_bytes (quality : Z) : C (option content) :=
  self ← get_self;
  (match _pw_node_id (session self) with
   | None => on_session (_start_pipewire_session py_int)
   | Some _ => ret tt
   end);;
  self ← get_self;
  match _pw_node_id (session self) with
  | None => ret None
  | Some node =>
      modify_self (set_tmp_file None);;
      returncode ← subprocess_run (gst_run env node quality);
      self ← get_self;
      if negb (returncode =? 0) || negb (exists_ (_tmp_file self)) then
        on_session _stop_pipewire_session;;
        ret None
      else
        match _tmp_file self with
        | Some bytes => ret (Some bytes)
        | None => raise FileNotFoundError
        end
  end.

(** [_capture_image], for [self._backend = backend] and
    [self.monitor = monitor]. *)
Definition _capture_image (backend : string) (monitor : Z) : C (option image) :=
  try_except
    (img ←
       (if String.eqb backend "pipewire" then _capture_pipewire
        else if String.eqb backend "mss" then _capture_mss Body monitor
        else if String.eqb backend "grim" || String.eqb backend "gnome-screenshot"
                || String.eqb backend "spectacle" then _capture_cli backend
        else _capture_mss Body monitor);
     ret (Some img))
    (fun _ =>
       if negb (String.eqb backend "mss") then
         try_except
           (img ← _capture_mss Handler monitor; ret (Some img))
           (fun _ => ret None)
       else ret None).

End Acquire.

End acquisition.

Section RouterVocabulary.
Import input_handler.

(** The sensitivity lies between 0.1 and 5. *)
Definition sensitivity_in_range (self : InputHandler) : Prop :=
  ((1 # 10) <= _sensitivity self <= 5)%Q.

(** A method of the handler that leaves the sensitivity in range, whether
    it returns or raises. *)
Definition keeps_range {A : Type} (m : H A) : Prop :=
  forall s, sensitivity_in_range (fst s) -> sensitivity_in_range (fst (snd (m s))).

End RouterVocabulary.

(* ===================================================================== *)
(** * Python strings                                                      *)
(* ===================================================================== *)

(** A [str] is modelled as a [string] whose characters are the code points
    0 to 255: what follows is exact for such text and says nothing about
    text with code points above 255. *)

Module str.

(** [ord(c)] for a character. *)
Definition ord (c : ascii) : Z := Z.of_N (N_of_ascii c).

(** [chr(n)] as a string of length 1, for [0 <= n < 256]. *)
Definition chr (n : Z) : string := String (ascii_of_N (Z.to_N n)) EmptyString.

(** [c.lower()]: the upper-case letters below 256 are [A] to [Z] and the
    code points 192 to 222 except 215; each is 32 below its lower-case
    letter. *)
Definition lower_char (c : ascii) : ascii :=
  let n := ord c in
  if ((65 <=? n) && (n <=? 90)) || ((192 <=? n) && (n <=? 222) && negb (n =? 215))
  then ascii_of_N (Z.to_N (n + 32))
  else c.

(** [s.lower()]. *)
Fixpoint lower (s : string) : string :=
  match s with
  | EmptyString => EmptyString
  | String c rest => String (lower_char c) (lower rest)
  end.

(** [len(s)]. *)
Definition len (s : string) : Z := Z.of_nat (String.length s).

(** [s.isascii()]. *)
Fixpoint isascii (s : string) : bool :=
  match s with
  | EmptyString => true
  | String c rest => (ord c <? 128) && isascii rest
  end.

(** [c.isspace()]. *)
Definition isspace (c : ascii) : bool :=
  let n := ord c in
  ((9 <=? n) && (n <=? 13)) || ((28 <=? n) && (n <=? 32)) || (n =? 133) || (n =? 160).

(** [s.lstrip()], [s.rstrip()] and [s.strip()]. *)
Fixpoint lstrip (s : string) : string :=
  match s with
  | EmptyString => EmptyString
  | String c rest => if isspace c then lstrip rest else s
  end.

Fixpoint rstrip (s : string) : string :=
  match s with
  | EmptyString => EmptyString
  | String c rest =>
      match rstrip rest with
      | EmptyString => if isspace c then EmptyString else String c EmptyString
      | kept => String c kept
      end
  end.

Definition strip (s : string) : string := rstrip (lstrip s).

(** [c in s] for a character [c]. *)
Fixpoint has_char (c : ascii) (s : string) : bool :=
  match s with
  | EmptyString => false
  | String a rest => Ascii.eqb a c || has_char c rest
  end.

(** [needle in s] for strings. *)
Fixpoint contains (needle s : string) : bool :=
  String.prefix needle s
  || match s with
     | EmptyString => false
     | String _ rest => contains needle rest
     end.

(** A line boundary of [splitlines], below 256. *)
Definition is_linebreak (c : ascii) : bool :=
  let n := ord c in
  ((10 <=? n) && (n <=? 13)) || ((28 <=? n) && (n <=? 30)) || (n =? 133).

(** [s.splitlines()]: the lines without their ends; a carriage return
    followed by a line feed is one line end. *)
Fixpoint splitlines (s : string) : list string :=
  match s with
  | EmptyString => []
  | String c rest =>
      if is_linebreak c then
        EmptyString ::
          match rest with
          | String d rest' =>
              if (ord c =? 13) && (ord d =? 10) then splitlines rest' else splitlines rest
          | EmptyString => []
          end
      else
        match splitlines rest with
        | [] => [String c EmptyString]
        | line :: lines => String c line :: lines
        end
  end.

(** The word that begins at the start of [s] (empty if [s] begins with
    white space) and the words after it. *)
Fixpoint words (s : string) : string * list string :=
  match s with
  | EmptyString => (EmptyString, [])
  | String c rest =>
      let '(word, others) := words rest in
      if isspace c then
        (EmptyString, match word with EmptyString => others | _ => word :: others end)
      else (String c word, others)
  end.

(** [s.split()]: the words between runs of white space. *)
Definition split (s : string) : list string :=
  let '(word, others) := words s in
  match word with
  | EmptyString => others
  | _ => word :: others
  end.

(** The characters of a string, each as a string of length 1:
    [for char in s]. *)
Fixpoint chars (s : string) : list string :=
  match s with
  | EmptyString => []
  | String c rest => String c EmptyString :: chars rest
  end.

(** [str(n)] for a natural number [n]. *)
Definition of_nat (n : nat) : string := NilEmpty.string_of_uint (Nat.to_uint n).

(** A dictionary display [{k1: v1, k2: v2, ...}] with string keys, as the
    list of its items: a later item replaces an earlier one with the same
    key. *)
Fixpoint get {V : Type} (items : list (string * V)) (key : string) : option V :=
  match items with
  | [] => None
  | (k, v) :: rest =>
      match get rest key with
      | Some v' => Some v'
      | None => if String.eqb k key then Some v else None
      end
  end.

End str.

(* ===================================================================== *)
(** * input_handler.py: the key names of X11InputBackend                  *)
(* ===================================================================== *)

Module X11InputBackend.
#[local] Open Scope string_scope.

Definition MODIFIER_MAP : list (string * string) :=
  [("ctrl", "ctrl"); ("control", "ctrl"); ("alt", "alt");
   ("shift", "shift"); ("super", "win"); ("win", "win");
   ("meta", "win"); ("cmd", "win")].

Definition SPECIAL_KEYS : list (string * string) :=
  ([("enter", "enter"); ("return", "enter"); ("tab", "tab");
    ("escape", "escape"); ("esc", "escape"); ("backspace", "backspace");
    ("delete", "delete"); ("space", "space");
    ("up", "up"); ("down", "down"); ("left", "left"); ("right", "right");
    ("home", "home"); ("end", "end"); ("pageup", "pageup"); ("pagedown", "pagedown");
    ("insert", "insert"); ("capslock", "capslock"); ("numlock", "numlock");
    ("printscreen", "printscreen"); ("scrolllock", "scrolllock"); ("pause", "pause")]
   ++ map (fun i => (String.append "f" (str.of_nat i), String.append "f" (str.of_nat i)))
        (seq 1 24))%list.

#[local] Close Scope string_scope.

(** [a or b] where [a] is [None] or a string. *)
Definition or_else (a : option string) (b : string) : string :=
  match a with
  | Some v => if String.eqb v ""%string then b else v
  | None => b
  end.

Definition _resolve_key (key : string) : string :=
  let k := str.lower key in
  or_else (str.get MODIFIER_MAP k)
    (or_else (str.get SPECIAL_KEYS k)
       (if (str.len key =? 1)%Z then key else k)).

Definition _resolve_modifier (mod_ : string) : string :=
  default (str.lower mod_) (str.get MODIFIER_MAP (str.lower mod_)).

End X11InputBackend.

(* ===================================================================== *)
(** * wayland_input.py: the input helper                                  *)
(* ===================================================================== *)

Module wayland_input.
#[local] Open Scope string_scope.

Definition BUTTON_MAP : list (string * Z) :=
  [("left", 0x110); ("right", 0x111); ("middle", 0x112)].

Definition KEYSYM_MAP : list (string * Z) :=
  (map (fun c => (str.chr c, c)) (map Z.of_nat (seq 97 26))
   ++ map (fun c => (str.chr c, c)) (map Z.of_nat (seq 65 26))
   ++ map (fun c => (str.chr c, c)) (map Z.of_nat (seq 48 10))
   ++ [("enter", 0xff0d); ("return", 0xff0d); ("tab", 0xff09);
       ("escape", 0xff1b); ("esc", 0xff1b); ("backspace", 0xff08);
       ("delete", 0xffff); ("space", 0x0020);
       ("up", 0xff52); ("down", 0xff54); ("left", 0xff51); ("right", 0xff53);
       ("home", 0xff50); ("end", 0xff57); ("pageup", 0xff55); ("pagedown", 0xff56);
       ("insert", 0xff63); ("capslock", 0xffe5); ("numlock", 0xff7f);
       ("printscreen", 0xff61); ("scrolllock", 0xff14); ("pause", 0xff13);
       ("ctrl", 0xffe3); ("control", 0xffe3); ("alt", 0xffe9); ("shift", 0xffe1);
       ("super", 0xffeb); ("win", 0xffeb); ("meta", 0xffeb); ("cmd", 0xffeb)]
   ++ map (fun i => (String.append "f" (str.of_nat i), 0xffbe + Z.of_nat i - 1)) (seq 1 24)
   ++ [(" ", 0x0020); ("!", 0x0021); (String (ascii_of_nat 34) "", 0x0022);
       ("#", 0x0023); ("$", 0x0024); ("%", 0x0025); ("&", 0x0026); ("'", 0x0027);
       ("(", 0x0028); (")", 0x0029); ("*", 0x002a); ("+", 0x002b); (",", 0x002c);
       ("-", 0x002d); (".", 0x002e); ("/", 0x002f); (":", 0x003a); (";", 0x003b);
       ("<", 0x003c); ("=", 0x003d); (">", 0x003e); ("?", 0x003f); ("@", 0x0040);
       ("[", 0x005b); ("\", 0x005c); ("]", 0x005d); ("^", 0x005e); ("_", 0x005f);
       ("`", 0x0060); ("{", 0x007b); ("|", 0x007c); ("}", 0x007d); ("~", 0x007e)])%list.

#[local] Close Scope string_scope.

(** [resolve_keysym] for a [str] argument. *)
Definition resolve_keysym (key : string) : Z :=
  let key_lower := str.lower key in
  match str.get KEYSYM_MAP key_lower with
  | Some keysym => keysym
  | None =>
      if (str.len key =? 1)%Z then
        match key with
        | String c _ => str.ord c
        | EmptyString => 0
        end
      else default 0 (str.get KEYSYM_MAP key)
  end.

(** What the helper does to the session, in order: calls of the
    RemoteDesktop session's D-Bus methods, and [time.sleep]. *)
Inductive step : Type :=
| NotifyPointerMotionRelative (dx dy : Q)
| NotifyPointerMotionAbsolute (stream : string) (x y : Q)
| NotifyPointerButton (button : Z) (state : bool)
| NotifyPointerAxisDiscrete (axis steps : Z)
| NotifyKeyboardKeysym (keysym : Z) (state : bool)
| sleep (seconds : Q).

(** The local functions of [main].  None of them looks at what a D-Bus call
    returns or handles an exception, so each is the list of the steps it
    takes when no call raises; when one raises, the steps up to that call
    are what happened. *)
Definition button_press (button_code : Z) (state : bool) : list step :=
  [NotifyPointerButton button_code state].

Definition click (button_code : Z) (count : nat) : list step :=
  concat (repeat (button_press button_code true ++ [sleep (2 # 100)]
                  ++ button_press button_code false ++ [sleep (2 # 100)]) count).

Definition scroll (dx dy : Z) : list step :=
  (if negb (dy =? 0)%Z then [NotifyPointerAxisDiscrete 0 dy] else [])
  ++ (if negb (dx =? 0)%Z then [NotifyPointerAxisDiscrete 1 dx] else []).

Definition key_event (keysym : Z) (state : bool) : list step :=
  [NotifyKeyboardKeysym keysym state].

Definition key_press (keysym : Z) : list step :=
  key_event keysym true ++ [sleep (2 # 100)] ++ key_event keysym false.

Definition type_text (text : string) : list step :=
  flat_map (fun char =>
              let ks := resolve_keysym char in
              if negb (ks =? 0)%Z then key_press ks ++ [sleep (2 # 100)] else [])
           (str.chars text).

(** [for ms in syms: if ms: key_event(ms, state)]. *)
Definition key_events (syms : list Z) (state : bool) : list step :=
  flat_map (fun ms => if negb (ms =? 0)%Z then key_event ms state else []) syms.

(** The branch [cmd_type == "key_press"] of the command loop, for a key
    name and a list of modifier names. *)
Definition key_press_command (key : string) (modifiers : list string) : list step :=
  let keysym := resolve_keysym key in
  match modifiers with
  | _ :: _ =>
      let mod_syms := map resolve_keysym modifiers in
      key_events mod_syms true
      ++ (if negb (keysym =? 0)%Z then key_press keysym else [])
      ++ key_events (rev mod_syms) false
  | [] => if negb (keysym =? 0)%Z then key_press keysym else []
  end.

(** The branch [cmd_type == "key_combo"], for a list of key names. *)
Definition key_combo_command (keys : list string) : list step :=
  let syms := map resolve_keysym keys in
  key_events syms true ++ [sleep (2 # 100)] ++ key_events (rev syms) false.

(** The steps that happened when the call number [failing] (counting the
    D-Bus calls and the sleeps from 0) raised: the steps before it and the
    call itself. *)
Definition until_failure (failing : nat) (steps : list step) : list step :=
  firstn (S failing) steps.

End wayland_input.

Section KeyVocabulary.
Import wayland_input.

(** How many times a list of steps sends the key [keysym] with the given
    state. *)
Definition key_count (keysym : Z) (state : bool) (steps : list step) : nat :=
  length (List.filter (fun s =>
                    match s with
                    | NotifyKeyboardKeysym k st => (k =? keysym) && Bool.eqb st state
                    | _ => false
                    end) steps).

(** A key that is down after the steps: pressed more often than released. *)
Definition left_down (keysym : Z) (steps : list step) : Prop :=
  (key_count keysym false steps < key_count keysym true steps)%nat.

End KeyVocabulary.

(* ===================================================================== *)
(** * auth.py                                                             *)
(* ===================================================================== *)

Module auth.

(** [config.max_login_attempts] and [config.lockout_duration_seconds]: the
    defaults of the dataclass, which [from_env] does not override. *)
Definition max_login_attempts : Z := 5.
Definition lockout_duration_seconds : Z := 300.

(** [_failed_attempts] maps a client address to the number of failures and
    the time of the last one. *)
Record AuthManager : Type := {
  _password_hash : string;
  _failed_attempts : gmap string (Z * Q)
}.

Definition set_failed_attempts (v : gmap string (Z * Q)) (self : AuthManager) : AuthManager :=
  {| _password_hash := _password_hash self; _failed_attempts := v |}.

Definition set_password_hash (v : string) (self : AuthManager) : AuthManager :=
  {| _password_hash := v; _failed_attempts := _failed_attempts self |}.

(** The property [is_password_set]. *)
Definition is_password_set (self : AuthManager) : bool :=
  negb (String.eqb (_password_hash self) "").

(** [_is_locked_out], where [now] is what [time.time()] returns at line
    145. *)
Definition _is_locked_out (client_ip : string) (now : Q) (self : AuthManager)
    : bool * AuthManager :=
  if String.eqb client_ip "" then (false, self)
  else
    match _failed_attempts self !! client_ip with
    | None => (false, self)
    | Some (count, last_time) =>
        if count >=? max_login_attempts then
          let elapsed := (now - last_time)%Q in
          if Qlt_bool elapsed (inject_Z lockout_duration_seconds) then (true, self)
          else (false, set_failed_attempts (delete client_ip (_failed_attempts self)) self)
        else (false, self)
    end.

(** [_record_failure], where [now] is what [time.time()] returns at line
    161 or 163. *)
Definition _record_failure (client_ip : string) (now : Q) (self : AuthManager) : AuthManager :=
  if String.eqb client_ip "" then self
  else
    match _failed_attempts self !! client_ip with
    | Some (count, _) =>
        set_failed_attempts (<[client_ip := (count + 1, now)]> (_failed_attempts self)) self
    | None =>
        set_failed_attempts (<[client_ip := (1, now)]> (_failed_attempts self)) self
    end.

(** [get_lockout_remaining], where [now] is what [time.time()] returns at
    line 172. *)
Definition get_lockout_remaining (client_ip : string) (now : Q) (self : AuthManager) : Z :=
  if String.eqb client_ip "" then 0
  else
    match _failed_attempts self !! client_ip with
    | None => 0
    | Some (count, last_time) =>
        if count >=? max_login_attempts then
          let elapsed := (now - last_time)%Q in
          let remaining := (inject_Z lockout_duration_seconds - elapsed)%Q in
          Z.max 0 (Qtruncate remaining)
        else 0
    end.

Section Bcrypt.

(** [bcrypt.checkpw(password, hash)]: [None] stands for an exception, which
    [verify_password] takes for a wrong password. *)
Variable checkpw : string -> string -> option bool.

(** [verify_password].  The clock is read once when the lockout is checked
    ([checked]) and once when a failure is recorded ([failed]). *)
Definition verify_password (plain_password client_ip : string) (checked failed : Q)
    (self : AuthManager) : bool * AuthManager :=
  if String.eqb (_password_hash self) "" then (false, self)
  else
    let '(locked, self) := _is_locked_out client_ip checked self in
    if locked then (false, self)
    else
      let is_valid := default false (checkpw plain_password (_password_hash self)) in
      if is_valid then
        (true, set_failed_attempts (delete client_ip (_failed_attempts self)) self)
      else (false, _record_failure client_ip failed self).

(** [create_token], where [token] is what [jwt.encode] makes of the
    payload. *)
Definition create_token (token : string) (plain_password client_ip : string)
    (checked failed : Q) (self : AuthManager) : option string * AuthManager :=
  let '(ok, self) := verify_password plain_password client_ip checked failed self in
  if ok then (Some token, self) else (None, self).

End Bcrypt.

(** [verify_token], where [decoded] is what [jwt.decode] returns for the
    token: the payload, or [None] for a [JWTError]. *)
Definition verify_token (decoded : option (gmap string pyval)) : bool :=
  match decoded with
  | Some payload => is_str (dict_get payload "sub" VNone) "remote_user"
  | None => false
  end.

End auth.

(* ===================================================================== *)
(** * main.py: logging in                                                 *)
(* ===================================================================== *)

Module login.
Import auth.

(** What [auth_login] reads of a request: the [X-Forwarded-For] header, the
    address of the peer, and the [password] field of the body. *)
Record Request : Type := {
  forwarded_for : option string;
  client_host : option string;
  password : string
}.

(** [get_client_ip]. *)
Definition get_client_ip (request : Request) : string :=
  match forwarded_for request with
  | Some forwarded =>
      if negb (String.eqb forwarded "") then
        str.strip (nth 0 (screen_capture.split_on "," forwarded) ""%string)
      else default "unknown"%string (client_host request)
  | None => default "unknown"%string (client_host request)
  end.

(** What a route does: it returns a body or raises [HTTPException]. *)
Inductive response : Type :=
| setup_required                (* [{"status": "setup_required", ...}] *)
| logged_in (token : string)    (* [{"status": "ok", "token": token}] *)
| HTTPException (status_code : Z).

Section Login.

Variable checkpw : string -> string -> option bool.

(** [auth_login].  The clock is read three times: by
    [get_lockout_remaining], by [_is_locked_out] and by
    [_record_failure]. *)
Definition auth_login (token : string) (request : Request) (asked checked failed : Q)
    (auth_manager : AuthManager) : response * AuthManager :=
  if negb (is_password_set auth_manager) then (setup_required, auth_manager)
  else
    let client_ip := get_client_ip request in
    let lockout := get_lockout_remaining client_ip asked auth_manager in
    if lockout >? 0 then (HTTPException 429, auth_manager)
    else
      match create_token checkpw token (password request) client_ip checked failed
              auth_manager with
      | (None, auth_manager) => (HTTPException 401, auth_manager)
      | (Some token, auth_manager) => (logged_in token, auth_manager)
      end.

End Login.

End login.

Section LoginVocabulary.
Import auth login.

(** A run of login attempts that all fail: each with the password tried and
    the two times at which the clock is read. *)
Definition failed_attempts (checkpw : string -> string -> option bool)
    (client_ip : string) (attempts : list (string * (Q * Q))) (self : AuthManager)
    : AuthManager :=
  fold_left
    (fun self attempt =>
       snd (verify_password checkpw (fst attempt) client_ip
              (fst (snd attempt)) (snd (snd attempt)) self))
    attempts self.

(** A password check that accepts [secret]. *)
Definition accepts_secret (plain hash : string) : option bool :=
  Some (String.eqb plain "secret").

(** A manager with a password and no failures on record. *)
Definition fresh_manager : AuthManager :=
  {| _password_hash := "$2b$12$hash"; _failed_attempts := ∅ |}.

(** Five wrong guesses, one a day. *)
Definition five_guesses : list (string * (Q * Q)) :=
  [("a", (0, 0)); ("b", (86400, 86400)); ("c", (172800, 172800));
   ("d", (259200, 259200)); ("e", (345600, 345600))]%string%Q.

(** A manager that has counted five failures of [10.0.0.7], the last one at
    time 1000. *)
Definition locked_manager : AuthManager :=
  {| _password_hash := "$2b$12$hash";
     _failed_attempts := {[ "10.0.0.7"%string := (5, 1000%Q) ]} |}.

End LoginVocabulary.

(* ===================================================================== *)
(** * main.py: the input channel                                          *)
(* ===================================================================== *)

Module input_channel.
Import input_handler.

(** What [websocket.send_text] does with a reply: it is delivered, or the
    call raises [WebSocketDisconnect] or a [RuntimeError]. *)
Inductive sending : Type :=
| delivered
| peer_gone
| send_error.

(** One pass of [while True]: [receive_text] raises [WebSocketDisconnect],
    or returns text, which [json.loads] parses to a value or rejects
    ([None]); and the fate of a reply, should one be sent in this pass. *)
Inductive frame : Type :=
| Disconnect
| Text (parsed : option pyval) (reply : sending).

(** What the server sends on the channel. *)
Inductive sent : Type :=
| invalid_json          (* [{"status": "error", "message": "Invalid JSON"}] *)
| data (v : pyval).     (* [json.dumps(data)], line 269 *)

(** How [ws_input] stands when the frames are used up. *)
Inductive ending : Type :=
| unauthorized          (* closed with code 4001 *)
| receiving             (* still in the loop, waiting for the next text *)
| disconnected          (* [WebSocketDisconnect] was caught: the route returned *)
| failed (e : exn).     (* [e] left [ws_input] *)

(** [verify_ws_token], where [decoded] is what [jwt.decode] makes of the
    token. *)
Definition verify_ws_token (token : string) (decoded : option (gmap string pyval)) : bool :=
  negb (String.eqb token "") && auth.verify_token decoded.

(** Run a method and look at how it ended. *)
Definition attempt {A : Type} (m : H A) : H (result A) :=
  fun s =>
    match m s with
    | (Done a, s') => (Done (Ok a), s')
    | (Thrown e, s') => (Done (Raise e), s')
    | (Unscripted, s') => (Unscripted, s')
    | (Blocked, s') => (Blocked, s')
    end.

(** [input_handler.process_command(command)] for a JSON value: a value
    that is not an object has no method [get]. *)
Definition process (depth : nat) (command : pyval) : H reply :=
  match command with
  | VDict command => process_command depth command
  | _ => raise AttributeError
  end.

(** [command.get("type") in ("get_cursor", "get_screen_size")], reached
    only if [command] is an object. *)
Definition asks_for_data (command : pyval) : bool :=
  match command with
  | VDict command =>
      is_str (dict_get command "type" VNone) "get_cursor"
      || is_str (dict_get command "type" VNone) "get_screen_size"
  | _ => false
  end.

(** The reply to text that is not JSON, lines 271-274. *)
Definition reply_invalid (how : sending) (rest : H (list sent * ending))
    : H (list sent * ending) :=
  match how with
  | delivered =>
      r ← rest; ret (invalid_json :: fst r, snd r)
  | peer_gone => ret ([], disconnected)
  | send_error => ret ([], failed RuntimeError)
  end.

(** The loop of [ws_input], lines 256-276.  [InputHandler] has no method
    [get_cursor_position] and no method [get_screen_size]: lines 266 and
    268 raise [AttributeError]. *)
Fixpoint serve (depth : nat) (frames : list frame) : H (list sent * ending) :=
  match frames with
  | [] => ret ([], receiving)
  | Disconnect :: _ => ret ([], disconnected)
  | Text None how :: rest => reply_invalid how (serve depth rest)
  | Text (Some command) how :: rest =>
      result ← attempt (process depth command);
      match result with
      | Raise JSONDecodeError => reply_invalid how (serve depth rest)
      | Raise e => ret ([], failed e)
      | Ok _ =>
          if asks_for_data command then ret ([], failed AttributeError)
          else serve depth rest
      end
  end.

(** [ws_input], where [password_set] is [auth_manager.is_password_set]. *)
Definition ws_input (depth : nat) (password_set : bool) (token : string)
    (decoded : option (gmap string pyval)) (frames : list frame)
    : H (list sent * ending) :=
  if password_set && negb (verify_ws_token token decoded) then ret ([], unauthorized)
  else serve depth frames.

End input_channel.

Section ChannelVocabulary.
Import input_handler input_channel.

(** A frame that carries a JSON object whose type is not one of the two
    for which [ws_input] wants to send data. *)
Definition plain_command (f : frame) : Prop :=
  match f with
  | Text (Some (VDict command)) _ => asks_for_data (VDict command) = false
  | _ => False
  end.

(** A method that, run on the direct backend, keeps that backend, raises
    nothing but [Exception]s and does not wait for ever. *)
Definition direct_safe {A : Type} (m : H A) : Prop :=
  forall s, _backend (fst s) = X11InputBackend ->
    _backend (fst (snd (m s))) = X11InputBackend /\
    (forall e, fst (m s) = Thrown e -> is_Exception e = true) /\
    fst (m s) <> Blocked.

End ChannelVocabulary.

(* ===================================================================== *)
(** * file_manager.py                                                     *)
(* ===================================================================== *)

Module file_manager.

(** [config.max_file_size_bytes]: the default of the dataclass, which
    [from_env] does not override. *)
Definition max_file_size_bytes : Z := 2 * 1024 * 1024 * 1024.

(** ** Pure paths *)

(** The components of [PurePosixPath(path)] without the root: the fields
    between slashes, except the empty ones and the single dots. *)
Definition components (path : string) : list string :=
  List.filter (fun c => negb (String.eqb c "" || String.eqb c "."))
    (screen_capture.split_on "/" path).

(** [PurePosixPath(path).name]: the last component, or the empty string. *)
Definition name (path : string) : string := List.last (components path) ""%string.

(** [s.rfind(c)]: the last position of [c], if it occurs. *)
Fixpoint rfind (c : ascii) (s : string) : option nat :=
  match s with
  | EmptyString => None
  | String a rest =>
      match rfind c rest with
      | Some i => Some (S i)
      | None => if Ascii.eqb a c then Some 0%nat else None
      end
  end.

(** [PurePosixPath.suffix] and [PurePosixPath.stem] of a name: the name is
    cut at its last dot, unless that is its first or its last character. *)
Definition suffix (name : string) : string :=
  match rfind "." name with
  | Some i =>
      if (0 <? i)%nat && (i <? String.length name - 1)%nat
      then String.substring i (String.length name - i) name
      else ""%string
  | None => ""%string
  end.

Definition stem (name : string) : string :=
  match rfind "." name with
  | Some i =>
      if (0 <? i)%nat && (i <? String.length name - 1)%nat
      then String.substring 0 i name
      else name
  | None => name
  end.

(** [str(directory / leaf)], for a directory written without a slash at its
    end. *)
Definition join (directory leaf : string) : string :=
  String.append directory (String.append "/" leaf).

(** ** The allowed directories *)

Section Allowed.

(** [str(Path(p).resolve())]: what the text of a path resolves to in the
    file system ([None] for a [ValueError] or an [OSError]). *)
Variable resolve : string -> option string.
Variable allowed_directories : list string.

(** [_is_path_allowed].  The generator inside [any] is consumed up to the
    first allowed directory that matches; an exception from resolving one
    of the directories before that makes the result [False]. *)
Fixpoint any_allowed (resolved : string) (directories : list string) : option bool :=
  match directories with
  | [] => Some false
  | d :: rest =>
      match resolve d with
      | None => None
      | Some d' => if String.prefix d' resolved then Some true else any_allowed resolved rest
      end
  end.

Definition _is_path_allowed (path : string) : bool :=
  match resolve path with
  | None => false
  | Some resolved => default false (any_allowed resolved allowed_directories)
  end.

(** [_sanitize_path]. *)
Definition _sanitize_path (path : string) : option string :=
  match resolve path with
  | None => None
  | Some resolved => if _is_path_allowed resolved then Some resolved else None
  end.

End Allowed.

(** ** Uploads *)

(** Why [validate_upload] refuses. *)
Inductive refusal : Type :=
| invalid_filename
| file_too_large.

Section Upload.

(** [config.upload_directory]; what [target_dir.mkdir(parents=True,
    exist_ok=True)] does, which is to return or to raise; and for each path
    what [Path(p).exists()] does: it answers, or lets through the [OSError]
    of [stat] (for a name that is too long, for one).  The file system does
    not change during the call. *)
Variable upload_directory : string.
Variable mkdir : result unit.
Variable exists_ : string -> result bool.

(** [while target.exists(): target = target_dir / f"{stem}_{counter}{suffix}";
    counter += 1], for at most [fuel] tests of the condition. *)
Fixpoint while_exists (fuel : nat) (stem suffix target : string) (counter : nat)
    : option (result string) :=
  match fuel with
  | O => None
  | S fuel' =>
      match exists_ target with
      | Raise e => Some (Raise e)
      | Ok true =>
          while_exists fuel' stem suffix
            (join upload_directory
               (String.append stem (String.append "_" (String.append (str.of_nat counter) suffix))))
            (S counter)
      | Ok false => Some (Ok target)
      end
  end.

(** [validate_upload]: [None] if the loop needs more than [fuel] tests,
    else an exception, or the target path or the reason of the refusal. *)
Definition validate_upload (fuel : nat) (filename : string) (file_size : Z)
    : option (result (string + refusal)) :=
  let safe_name := name filename in
  if String.eqb safe_name "" || String.prefix "." safe_name then
    Some (Ok (inr invalid_filename))
  else if file_size >? max_file_size_bytes then Some (Ok (inr file_too_large))
  else
    match mkdir with
    | Raise e => Some (Raise e)
    | Ok _ =>
        let target := join upload_directory safe_name in
        match exists_ target with
        | Raise e => Some (Raise e)
        | Ok true =>
            match while_exists fuel (stem safe_name) (suffix safe_name) target 1 with
            | None => None
            | Some (Raise e) => Some (Raise e)
            | Some (Ok found) => Some (Ok (inl found))
            end
        | Ok false => Some (Ok (inl target))
        end
    end.

End Upload.

End file_manager.

Section UploadVocabulary.

(** An upload directory in which a report and its first copy exist. *)
Definition reports_taken (path : string) : result bool :=
  Ok (existsb (String.eqb path)
        ["/srv/uploads/report.pdf"; "/srv/uploads/report_1.pdf"]%string).

(** A file system that refuses names of more than 255 characters with an
    [OSError], as [stat] does. *)
Definition long_names_refused (path : string) : result bool :=
  if (255 <? str.len (file_manager.name path)) then Raise PermissionError else Ok false.

End UploadVocabulary.

(* ===================================================================== *)
(** * screen_capture.py: the list of monitors                             *)
(* ===================================================================== *)

Module monitors.

(** An entry of the list [get_monitors] returns. *)
Record Monitor : Type := {
  index : Z;
  left : Z;
  top : Z;
  width : Z;
  height : Z;
  is_combined : bool
}.

(** Lines 174 and 195. *)
Definition combined (w h : Z) : Monitor :=
  {| index := 0; left := 0; top := 0; width := w; height := h; is_combined := true |}.

Section Monitors.

(** [int(text)] of Python; [None] stands for [ValueError]. *)
Variable py_int : string -> option Z.

(** The list comprehension of lines 155-163 over [sct.monitors], given as
    the [left], [top], [width] and [height] of each entry. *)
Fixpoint enumerate_monitors (i : Z) (ms : list (Z * Z * (Z * Z))) : list Monitor :=
  match ms with
  | [] => []
  | (l, t, (w, h)) :: rest =>
      {| index := i; left := l; top := t; width := w; height := h;
         is_combined := i =? 0 |} :: enumerate_monitors (i + 1) rest
  end.

(** The loop over the words of a line, lines 178-190: [None] is a
    [ValueError], [Some None] a line without a word that has both an [x]
    and a [+], [Some (Some (w, h))] the size in the first such word. *)
Fixpoint first_size (parts : list string) : option (option (Z * Z)) :=
  match parts with
  | [] => Some None
  | part :: rest =>
      if str.has_char "x" part && str.has_char "+" part then
        let dims := nth 0 (screen_capture.split_on "+" part) ""%string in
        match screen_capture.split_on "x" dims with
        | [w; h] =>
            match py_int w, py_int h with
            | Some w', Some h' => Some (Some (w', h'))
            | _, _ => None
            end
        | _ => None
        end
      else first_size rest
  end.

(** [monitors[0]["width"] = max(...)] and the same for the height. *)
Definition widen (w h : Z) (monitors : list Monitor) : list Monitor :=
  match monitors with
  | [] => []
  | first :: rest =>
      {| index := index first; left := left first; top := top first;
         width := Z.max (width first) w; height := Z.max (height first) h;
         is_combined := is_combined first |} :: rest
  end.

(** The loop over the lines, lines 176-190: [None] is a [ValueError]. *)
Fixpoint scan (lines : list string) (monitors : list Monitor) (idx : Z)
    : option (list Monitor) :=
  match lines with
  | [] => Some monitors
  | line :: rest =>
      if str.contains " connected " line then
        match first_size (str.split line) with
        | None => None
        | Some None => scan rest monitors idx
        | Some (Some (w, h)) =>
            scan rest
              (widen w h
                 (monitors ++ [{| index := idx; left := 0; top := 0; width := w;
                                  height := h; is_combined := false |}]))
              (idx + 1)
        end
      else scan rest monitors idx
  end.

(** [get_monitors], for [self._backend = backend].  [mss_monitors] is
    [sct.monitors], or [None] if importing or using [mss] raises; [xrandr]
    is the return code and the output of [xrandr --query], or [None] if
    running it raises. *)
Definition get_monitors (backend : string)
    (mss_monitors : option (list (Z * Z * (Z * Z)))) (xrandr : option (Z * string))
    : list Monitor :=
  match (if String.eqb backend "mss" then enumerate_monitors 0 <$> mss_monitors else None) with
  | Some monitors => monitors
  | None =>
      match xrandr with
      | Some (returncode, stdout) =>
          if returncode =? 0 then
            match scan (str.splitlines stdout) [combined 0 0] 1 with
            | Some monitors => monitors
            | None => [combined 1920 1080]
            end
          else [combined 1920 1080]
      | None => [combined 1920 1080]
      end
  end.

End Monitors.

End monitors.

Section MonitorVocabulary.
Import monitors.

(** Two screens side by side, as [xrandr --query] prints them. *)
Definition two_screens : string :=
  String.append "Screen 0: minimum 8 x 8, current 3840 x 1080"
  (String (ascii_of_nat 10)
  (String.append "eDP-1 connected primary 1920x1080+0+0 (normal left) 309mm x 174mm"
  (String (ascii_of_nat 10)
  (String.append "   1920x1080     60.00*+"
  (String (ascii_of_nat 10)
  (String.append "HDMI-1 connected 2560x1440+1920+0 (normal left) 597mm x 336mm"
  (String (ascii_of_nat 10) EmptyString))))))).

(** The list in the making, as the loop over the lines carries it: the
    combined entry, as wide and as high as the widest and the highest
    screen so far, then the screens found so far, numbered from 1; [idx] is
    the number of the next one. *)
Definition in_the_making (monitors : list Monitor) (idx : Z) : Prop :=
  exists first others,
    monitors = first :: others /\
    index first = 0 /\ is_combined first = true /\
    map index others = map Z.of_nat (seq 1 (length others)) /\
    Forall (fun m => is_combined m = false) others /\
    idx = Z.of_nat (S (length others)) /\
    width first = fold_right Z.max 0 (map width others) /\
    height first = fold_right Z.max 0 (map height others).

End MonitorVocabulary.

(* ===================================================================== *)
(** * Proof tools                                                         *)
(* ===================================================================== *)

(** Unfold the monad and the subprocess primitives and simplify. *)
Ltac run := repeat progress (unfold mbind, M_bind, bind, mret, M_ret, ret, try_except, raise,
  get_self, modify_self, select_readline, stdin_write, wait, terminate, kill,
  popen, poll_is_None, fresh_proc, emit, next_answer, unscripted; simpl).

(** One round of the same. *)
Ltac run_once := unfold mbind, M_bind, bind, mret, M_ret, ret, try_except, raise,
  get_self, modify_self, select_readline, stdin_write, wait, terminate, kill,
  popen, poll_is_None, fresh_proc, emit, next_answer, unscripted; simpl.

(** The same by controlled reduction, for goals that contain dictionaries. *)
Ltac run_lazy := repeat progress (
  cbv beta iota zeta delta [mbind M_bind bind mret M_ret ret try_except raise
    get_self modify_self select_readline stdin_write wait terminate kill
    popen poll_is_None fresh_proc emit next_answer unscripted
    input_handler.the_process];
  cbn [fst snd script log spawned input_handler._process input_handler._ready
       input_handler.set_ready input_handler.set_process is_Exception negb]).

(** Events without a frame satisfy every property of yielded frames. *)
Ltac quiet := repeat first [assumption | split | constructor].

(** Decide a comparison of a string with a literal. *)
Ltac literal := cbn [is_str String.eqb Ascii.eqb Bool.eqb andb].

(* ===================================================================== *)
(** * Arithmetic and logs                                                 *)
(* ===================================================================== *)

Lemma Qgt_bool_iff a b : Qgt_bool a b = true <-> (b < a)%Q.
Proof.
  unfold Qgt_bool. rewrite negb_true_iff. split.
  - intros H. apply Qnot_le_lt. intros Hle. apply Qle_bool_iff in Hle. congruence.
  - intros H. destruct (Qle_bool a b) eqn:E; [|reflexivity].
    apply Qle_bool_iff in E. exfalso. exact (Qlt_not_le _ _ H E).
Qed.

Lemma Qlt_bool_iff a b : Qlt_bool a b = true <-> (a < b)%Q.
Proof. apply (Qgt_bool_iff b a). Qed.

Lemma last_n_all {A} (n : nat) (xs : list A) : (length xs <= n)%nat -> last_n n xs = xs.
Proof. intros H. unfold last_n. replace (length xs - n)%nat with 0%nat by lia. reflexivity. Qed.

Lemma last_n_length {A} (n : nat) (xs : list A) : (length (last_n n xs) <= n)%nat.
Proof. unfold last_n. rewrite List.length_skipn. lia. Qed.

Lemma seconds_polled_app {P} (a b : list (action P)) :
  (seconds_polled (a ++ b) == seconds_polled a + seconds_polled b)%Q.
Proof.
  induction a as [|x a IH]; simpl.
  - ring.
  - destruct x; simpl; rewrite IH; ring.
Qed.

Lemma seconds_polled_repeat {P} proc t n :
  (seconds_polled (repeat (@Select P proc t) n) == inject_Z (Z.of_nat n) * t)%Q.
Proof.
  induction n as [|n IH].
  - simpl. ring.
  - cbn [repeat seconds_polled]. rewrite IH.
    rewrite Nat2Z.inj_succ. unfold Z.succ. rewrite inject_Z_plus. ring.
Qed.

Lemma started_app {P} (a b : list (action P)) : started (a ++ b) = started a ++ started b.
Proof. unfold started. apply omap_app. Qed.

Lemma started_popen {P} proc (l : list (action P)) :
  started (Popen proc :: l) = proc :: started l.
Proof. reflexivity. Qed.

Lemma started_selects {P} proc t n : started (repeat (@Select P proc t) n) = [].
Proof. induction n; simpl; auto. Qed.

Lemma bind_thrown {O L P A B} (m : M (O:=O) (L:=L) (P:=P) A) (k : A -> M B) s e s' :
  m s = (Thrown e, s') -> (m ≫= k) s = (Thrown e, s').
Proof. intros H. unfold mbind, M_bind, bind. rewrite H. reflexivity. Qed.

(* ===================================================================== *)
(** * The capture session                                                 *)
(* ===================================================================== *)

Section CaptureSession.
Import screen_capture.

#[local] Arguments float.truediv_int : simpl never.
#[local] Arguments float.literal : simpl never.
#[local] Arguments float.sum : simpl never.
#[local] Arguments float.mul : simpl never.
#[local] Arguments float.sub : simpl never.
#[local] Arguments float.max : simpl never.
#[local] Arguments float.gt : simpl never.
#[local] Arguments float.lt : simpl never.

(** ** Rate adaptation *)

(** Rate adaptation leaves the configuration and the running flag alone. *)
Lemma update_keeps_config t s :
  quality (snd (_update_adaptive t s)) = quality s /\
  fps (snd (_update_adaptive t s)) = fps s /\
  _running (snd (_update_adaptive t s)) = _running s.
Proof.
  unfold _update_adaptive.
  repeat case_match; simpl; auto.
Qed.

(** Rate adaptation either leaves the adaptive quality alone or sets it to the
    configured quality. *)
Lemma update_adaptive_quality t s :
  _adaptive_quality (snd (_update_adaptive t s)) = _adaptive_quality s \/
  _adaptive_quality (snd (_update_adaptive t s)) = quality s.
Proof.
  unfold _update_adaptive.
  repeat case_match; simpl; auto.
Qed.

Lemma update_fps_bounds t s :
  3 <= fps s -> 3 <= _adaptive_fps s <= fps s ->
  3 <= _adaptive_fps (snd (_update_adaptive t s)) <= fps s.
Proof.
  unfold _update_adaptive.
  repeat case_match; simpl; lia.
Qed.

(** The small integers are doubles. *)
Lemma of_int_small (n : nat) :
  (n <= 30)%nat -> exists x, float.of_int (Z.of_nat n) = Ok x.
Proof.
  intros H.
  assert (Hall : Forall (fun n => exists x, float.of_int (Z.of_nat n) = Ok x) (seq 0 31)).
  { repeat constructor; eexists; vm_compute; reflexivity. }
  rewrite List.Forall_forall in Hall. apply Hall. apply in_seq. lia.
Qed.

(** The average of a window of 1 to 30 samples is computed without an
    exception. *)
Lemma average_defined (xs : list float.t) :
  (0 < length xs <= 30)%nat -> exists avg_time, average xs = Ok avg_time.
Proof.
  intros [Hpos Hle]. unfold average, float.truediv_int.
  destruct (Z.eqb_spec (Z.of_nat (length xs)) 0) as [Hz|_]; [lia|].
  destruct (of_int_small (length xs) Hle) as [x ->]. eauto.
Qed.

(** When [1.0 / rate] raises. *)
Lemma interval_raises (a : float.t) (rate : Z) (e : exn) :
  float.truediv_int a rate = Raise e ->
  no_interval rate /\ (e = ZeroDivisionError \/ e = OverflowError).
Proof.
  unfold float.truediv_int, no_interval.
  destruct (Z.eqb_spec rate 0) as [Hz|Hz].
  - intros [= <-]. auto.
  - unfold float.of_int. destruct (float.nearest rate); try discriminate.
    intros [= <-]. auto.
Qed.

Lemma no_interval_raises (a : float.t) (rate : Z) :
  no_interval rate -> exists e, float.truediv_int a rate = Raise e.
Proof.
  unfold float.truediv_int. intros [-> | H].
  - eexists. reflexivity.
  - destruct (rate =? 0); [eauto|]. rewrite H. eauto.
Qed.

(** [_update_adaptive] in the vocabulary of the specification. *)
Lemma update_adaptive_unfold (frame_time : float.t) (self : ScreenCapture) :
  _update_adaptive frame_time self =
  let times := window self frame_time in
  let self' := set_frame_times times self in
  if (length times <? 5)%nat then (Ok tt, self')
  else
    match average times with
    | Raise e => (Raise e, self')
    | Ok avg_time =>
        match target self with
        | Raise e => (Raise e, self')
        | Ok target_time =>
            (Ok tt,
             set_adaptive_quality (quality self)
               (if float.gt avg_time (float.mul target_time (float.literal 15 10)) then
                  set_adaptive_fps (Z.max 3 (_adaptive_fps self - 1)) self'
                else if float.lt avg_time (float.mul target_time (float.literal 5 10)) then
                  set_adaptive_fps (Z.min (fps self) (_adaptive_fps self + 1)) self'
                else self'))
        end
    end.
Proof.
  unfold _update_adaptive, window, average, target. cbv zeta.
  destruct (Nat.ltb_spec 30 (length (_frame_times self ++ [frame_time]))) as [H|H].
  - cbn [fps set_frame_times _adaptive_fps quality]. repeat case_match; reflexivity.
  - rewrite (last_n_all 30 _ H). cbn [fps set_frame_times _adaptive_fps quality].
    repeat case_match; reflexivity.
Qed.

Lemma window_bounds (frame_time : float.t) (self : ScreenCapture) :
  (0 < length (window self frame_time) <= 30)%nat.
Proof.
  unfold window. split; [|apply last_n_length].
  unfold last_n. rewrite List.length_skipn, length_app. cbn [length]. lia.
Qed.


(** ** An invariant of the capture object holds at every yielded frame *)

Section Invariant.
Variable I : ScreenCapture -> Prop.
Hypothesis I_update : forall t s, I s -> I (snd (_update_adaptive t s)).

Lemma loop_iteration_invariant it s ec :
  preserved_by I it -> I s ->
  Forall (yielded_under I) (fst (loop_iteration it s ec)) /\
  I (fst (snd (snd (loop_iteration it s ec)))).
Proof.
  intros Hit Hs. unfold loop_iteration, loop_try.
  destruct it as [|e|img t c]; simpl.
  - destruct (ec + 1 >? 10); simpl; quiet.
  - destruct (is_Exception e); simpl; [|quiet].
    destruct (ec + 1 >? 10); simpl; quiet.
  - pose proof (I_update t s Hs) as Hu.
    destruct (_update_adaptive t s) as [[[]|e] s'] eqn:E; simpl in *.
    + assert (Hy : forall d, jpeg_quality d = _adaptive_quality s -> yielded_under I (Yield d s')).
      { intros d Hd. split; [assumption|]. exists t, s. rewrite E. auto. }
      destruct c as [between|]; simpl.
      * specialize (Hit _ Hu).
        destruct (float.truediv_int _ (_adaptive_fps (between s'))) as [interval|e'];
          simpl; [|destruct (is_Exception e'); simpl]; (split; [|assumption]);
          (constructor; [apply Hy; reflexivity | repeat constructor]).
      * split; [|assumption].
        constructor; [apply Hy; reflexivity | constructor].
    + destruct (is_Exception e); simpl; quiet.
Qed.

Lemma while_running_invariant its : forall s ec,
  Forall (preserved_by I) its -> I s ->
  Forall (yielded_under I) (events_of (while_running its s ec)).
Proof.
  induction its as [|it its IH]; intros s ec Hits Hs; simpl.
  - destruct (_running s); constructor.
  - destruct (_running s); simpl; [|constructor].
    inversion Hits as [|? ? Hit Hits']; subst.
    destruct (loop_iteration_invariant it s ec Hit Hs) as [Hev Hs'].
    destruct (loop_iteration it s ec) as [evs [[[]|e] [s' ec']]]; simpl in *; auto.
    specialize (IH s' ec' Hits' Hs').
    destruct (while_running its s' ec') as [[evs' st] s'']. unfold events_of in *; simpl in *.
    apply List.Forall_app; auto.
Qed.


Lemma stream_frames_invariant its s :
  Forall (preserved_by I) its ->
  I (set_adaptive_fps (fps s) (set_adaptive_quality (quality s) (set_running true s))) ->
  Forall (yielded_under I) (events_of (stream_frames its s)).
Proof.
  intros Hits Hs. unfold stream_frames.
  pose proof (while_running_invariant its _ 0 Hits Hs) as H.
  simpl in *.
  destruct (while_running _ _ _) as [[evs st] s']. destruct st; exact H.
Qed.

End Invariant.

Lemma control_keeps_quality msg s :
  _adaptive_quality s = quality s ->
  _adaptive_quality (main.handle_control msg s) = quality (main.handle_control msg s).
Proof. destruct msg; simpl; auto. Qed.

Lemma control_keeps_fps_bounds msg s :
  match msg with main.SetFps (Some f) => 3 <= f | _ => True end ->
  3 <= fps s /\ 3 <= _adaptive_fps s <= fps s ->
  3 <= fps (main.handle_control msg s) /\
  3 <= _adaptive_fps (main.handle_control msg s) <= fps (main.handle_control msg s).
Proof. destruct msg as [q|[f|]|m|]; simpl; lia. Qed.

(** ** The error counter *)










(** ** Backend detection *)

Lemma cmd_exists_handled env tool :
  (forall e, which env tool = Raise e -> e = CalledProcessError \/ e = FileNotFoundError) ->
  _cmd_exists env tool = Ok (succeeded (which env tool)).
Proof.
  intros H. unfold _cmd_exists, check_returncode, succeeded.
  destruct (which env tool) as [rc|e].
  - destruct (rc =? 0); reflexivity.
  - destruct (H e eq_refl) as [-> | ->]; reflexivity.
Qed.

Lemma first_tool_handled env tools :
  (forall tool e, In tool tools -> which env tool = Raise e ->
     e = CalledProcessError \/ e = FileNotFoundError) ->
  first_tool env tools = Ok (find (fun tool => succeeded (which env tool)) tools).
Proof.
  induction tools as [|tool tools IH]; intros H; simpl.
  - reflexivity.
  - rewrite cmd_exists_handled by (intros e; apply H; left; reflexivity).
    destruct (succeeded (which env tool)); [reflexivity|].
    apply IH. intros t e Ht. apply H. right. assumption.
Qed.

Lemma first_tool_same env env' tools :
  (forall tool, In tool tools -> which env tool = which env' tool) ->
  first_tool env' tools = first_tool env tools.
Proof.
  induction tools as [|tool tools IH]; intros H; simpl.
  - reflexivity.
  - unfold _cmd_exists. rewrite <- (H tool) by (left; reflexivity).
    rewrite IH by (intros t Ht; apply H; right; assumption). reflexivity.
Qed.

(** ** The claims *)

(** C1.  In every run of the frame loop under [ws_screen], whatever the
    capture latencies and the control messages, every yielded frame finds
    the adaptive quality equal to the configured quality, and its payload
    was encoded at that quality.  Rate adaptation never changes the
    configured quality, and the adaptive quality it leaves is the old one or
    the configured one. *)
Theorem quality_never_throttled (steps : list main.step) (capture : ScreenCapture) :
  Forall at_configured_quality (events_of (main.ws_screen steps capture)) /\
  (forall frame_time self,
     quality (snd (_update_adaptive frame_time self)) = quality self /\
     (_adaptive_quality (snd (_update_adaptive frame_time self)) = _adaptive_quality self \/
      _adaptive_quality (snd (_update_adaptive frame_time self)) = quality self)).
Proof.
  split.
  - unfold main.ws_screen.
    set (I := fun s => _adaptive_quality s = quality s).
    assert (Hupd : forall t s, I s -> I (snd (_update_adaptive t s))).
    { intros t s Hs. unfold I in *.
      destruct (update_keeps_config t s) as [Hq _].
      destruct (update_adaptive_quality t s) as [H|H]; congruence. }
    assert (Hsteps : Forall (preserved_by I) (map main.drive steps)).
    { apply List.Forall_map. apply List.Forall_forall. intros [| e | img t [| | msg]] _; simpl; auto.
      intros s. apply control_keeps_quality. }
    pose proof (stream_frames_invariant I Hupd _ capture Hsteps eq_refl) as H.
    eapply List.Forall_impl; [|exact H].
    intros [d snap|]; simpl; auto.
    intros [Hsnap (t & before & Hb & -> & Hd)]. split; [exact Hsnap|].
    destruct (update_keeps_config t before) as [Hq _]. unfold I in *. congruence.
  - intros t s. split; [apply update_keeps_config | apply update_adaptive_quality].
Qed.

(** C2, as stated, fails: the constructor accepts [fps=2], and the first
    frame is yielded at an adaptive rate of 2, below 3. *)
Lemma low_fps_breaks_bounds :
  __init__ default_config x11_session (Some 2) None None =
    Ok (capture_with default_config (Some 2) None) /\
  ~ Forall fps_within_bounds
      (events_of (main.ws_screen [main.Captured full_hd (float.literal 1 100) main.Quiet]
                    (capture_with default_config (Some 2) None))).
Proof.
  split; [reflexivity|].
  intros H. inversion H as [|ev evs Hy _]. subst. simpl in Hy. lia.
Qed.

(** C2, amended.  If the configured rate is at least 3, and no [set_fps]
    message asks for less than 3, then every yielded frame finds
    [3 <= adaptive_fps <= configured_fps]: the adaptive rate starts at the
    configured one, and rate adaptation keeps it within these bounds. *)
Theorem adaptive_fps_bounds (steps : list main.step) (capture : ScreenCapture) :
  3 <= fps capture ->
  Forall asks_at_least_3 steps ->
  Forall fps_within_bounds (events_of (main.ws_screen steps capture)) /\
  _adaptive_fps (entered capture) = fps capture /\
  (forall frame_time self,
     3 <= fps self -> 3 <= _adaptive_fps self <= fps self ->
     3 <= _adaptive_fps (snd (_update_adaptive frame_time self)) <= fps self).
Proof.
  intros Hfps Hsteps. split; [|split; [reflexivity | exact update_fps_bounds]].
  unfold main.ws_screen.
  set (I := fun s => 3 <= fps s /\ 3 <= _adaptive_fps s <= fps s).
  assert (Hupd : forall t s, I s -> I (snd (_update_adaptive t s))).
  { intros t s [H1 H2]. unfold I.
    destruct (update_keeps_config t s) as (_ & Hf & _). rewrite Hf.
    split; [assumption|]. apply update_fps_bounds; assumption. }
  assert (Hdrive : Forall (preserved_by I) (map main.drive steps)).
  { apply List.Forall_map. eapply List.Forall_impl; [|exact Hsteps].
    intros [| e | img t [| | msg]] Hs; simpl; auto.
    intros s. apply control_keeps_fps_bounds. destruct msg as [|[]| |]; simpl in *; auto. }
  assert (H0 : I (entered capture)).
  { unfold I; simpl. lia. }
  pose proof (stream_frames_invariant I Hupd _ capture Hdrive H0) as H.
  eapply List.Forall_impl; [|exact H].
  intros [d snap|]; simpl; auto. intros [[? ?] _]. assumption.
Qed.

(** The amended C2 at a stream with a [set_fps] message, failures and slow
    frames. *)
Lemma adaptive_fps_bounds_witness :
  3 <= fps (capture_with default_config None None) /\
  Forall asks_at_least_3 busy_stream /\
  Forall fps_within_bounds
    (events_of (main.ws_screen busy_stream (capture_with default_config None None))).
Proof.
  assert (H1 : 3 <= fps (capture_with default_config None None)) by (simpl; lia).
  assert (H2 : Forall asks_at_least_3 busy_stream) by (repeat constructor; simpl; lia).
  exact (conj H1 (conj H2 (proj1 (adaptive_fps_bounds busy_stream _ H1 H2)))).
Defined.

(** C3, as stated, fails.  At the bounds: with five fast samples at the
    configured rate the adaptive rate is not incremented, and with five slow
    samples at rate 3 it is not decremented.  And between the bounds, where
    rounding decides: at 15 frames per second five samples of the double
    [0.1] have an average above 1.5 times a fifteenth of a second, but the
    code compares the rounded average with the rounded threshold, which are
    the same double, and leaves the adaptive rate of 15 alone. *)
Lemma no_step_at_the_bounds :
  ((5 <= length (window warmed_up (float.literal 1 100)))%nat /\
   (exact_average (window warmed_up (float.literal 1 100))
      < 1 / inject_Z (fps warmed_up) * (1 # 2))%Q /\
   _adaptive_fps (snd (_update_adaptive (float.literal 1 100) warmed_up))
     <> _adaptive_fps warmed_up + 1) /\
  ((5 <= length (window at_floor (float.literal 1 1)))%nat /\
   (1 / inject_Z (fps at_floor) * (3 # 2)
      < exact_average (window at_floor (float.literal 1 1)))%Q /\
   _adaptive_fps (snd (_update_adaptive (float.literal 1 1) at_floor))
     <> _adaptive_fps at_floor - 1) /\
  ((5 <= length (window on_the_threshold (float.literal 1 10)))%nat /\
   (1 / inject_Z (fps on_the_threshold) * (3 # 2)
      < exact_average (window on_the_threshold (float.literal 1 10)))%Q /\
   3 < _adaptive_fps on_the_threshold /\
   _adaptive_fps (snd (_update_adaptive (float.literal 1 10) on_the_threshold))
     = _adaptive_fps on_the_threshold).
Proof.
  repeat split; try (vm_compute; reflexivity); try (vm_compute; lia);
    try (vm_compute; discriminate).
Qed.

(** C3, amended.  The window is the last 30 samples.  With fewer than 5
    samples nothing but the window changes.  Otherwise the code computes
    the average [sum(times) / len(times)] of the window in double precision,
    which always succeeds, and the target [1.0 / configured_fps], which
    raises exactly if the configured rate is zero or too large for a float,
    and then nothing but the window has changed.  With the target computed:
    if the average is greater than the double [target * 1.5] the adaptive
    rate becomes [max(3, adaptive_fps - 1)]; else if it is less than the
    double [target * 0.5] the adaptive rate becomes
    [min(configured_fps, adaptive_fps + 1)]; else it stays. *)
Theorem rate_adaptation (frame_time : float.t) (self : ScreenCapture) :
  let times := window self frame_time in
  let after := snd (_update_adaptive frame_time self) in
  _frame_times after = times /\
  (length times <= 30)%nat /\
  (exists dropped, (_frame_times self ++ [frame_time])%list = (dropped ++ times)%list) /\
  ((length times < 5)%nat ->
     _update_adaptive frame_time self = (Ok tt, set_frame_times times self)) /\
  ((5 <= length times)%nat ->
     exists avg_time, average times = Ok avg_time /\
       (forall e, target self = Raise e ->
          _update_adaptive frame_time self = (Raise e, set_frame_times times self)) /\
       (forall target_time, target self = Ok target_time ->
          fst (_update_adaptive frame_time self) = Ok tt /\
          (float.gt avg_time (float.mul target_time (float.literal 15 10)) = true ->
             _adaptive_fps after = Z.max 3 (_adaptive_fps self - 1)) /\
          (float.gt avg_time (float.mul target_time (float.literal 15 10)) = false ->
           float.lt avg_time (float.mul target_time (float.literal 5 10)) = true ->
             _adaptive_fps after = Z.min (fps self) (_adaptive_fps self + 1)) /\
          (float.gt avg_time (float.mul target_time (float.literal 15 10)) = false ->
           float.lt avg_time (float.mul target_time (float.literal 5 10)) = false ->
             _adaptive_fps after = _adaptive_fps self))) /\
  (no_interval (fps self) <-> exists e, target self = Raise e).
Proof.
  intros times after. subst after. rewrite update_adaptive_unfold. fold times. cbv zeta.
  split; [|split; [|split; [|split; [|split]]]].
  - repeat case_match; reflexivity.
  - apply last_n_length.
  - exists (firstn (length (_frame_times self ++ [frame_time]) - 30) (_frame_times self ++ [frame_time])).
    symmetry. apply firstn_skipn.
  - intros H. apply Nat.ltb_lt in H. rewrite H. reflexivity.
  - intros H. apply Nat.ltb_ge in H. rewrite H.
    destruct (average_defined times (window_bounds frame_time self)) as [avg Havg].
    rewrite Havg. exists avg. split; [reflexivity|]. split.
    + intros e He. rewrite He. reflexivity.
    + intros target_time Ht. rewrite Ht. cbn [fst snd].
      split; [reflexivity|]. split; [|split].
      * intros ->. reflexivity.
      * intros -> ->. reflexivity.
      * intros -> ->. reflexivity.
  - split.
    + apply no_interval_raises.
    + intros [e He]. exact (proj1 (interval_raises _ _ _ He)).
Qed.

(** The amended C3 at a session at the floor and at one at the ceiling. *)
Lemma rate_adaptation_witness :
  _adaptive_fps (snd (_update_adaptive (float.literal 1 1) at_floor)) =
    Z.max 3 (_adaptive_fps at_floor - 1) /\
  _adaptive_fps (snd (_update_adaptive (float.literal 1 100) warmed_up)) =
    Z.min (fps warmed_up) (_adaptive_fps warmed_up + 1).
Proof.
  split.
  - pose proof (rate_adaptation (float.literal 1 1) at_floor) as H. cbv zeta in H.
    destruct H as (_ & _ & _ & _ & H & _).
    assert (H5 : (5 <= length (window at_floor (float.literal 1 1)))%nat)
      by (vm_compute; lia).
    destruct (H H5) as (avg & Havg & _ & Hok).
    assert (Hv : Ok avg = Ok (float.literal 1 1)) by (rewrite <- Havg; vm_compute; reflexivity).
    injection Hv as ->.
    destruct (Hok (float.literal 1 3) ltac:(vm_compute; reflexivity)) as (_ & Hdec & _).
    apply Hdec. vm_compute. reflexivity.
  - pose proof (rate_adaptation (float.literal 1 100) warmed_up) as H. cbv zeta in H.
    destruct H as (_ & _ & _ & _ & H & _).
    assert (H5 : (5 <= length (window warmed_up (float.literal 1 100)))%nat)
      by (vm_compute; lia).
    destruct (H H5) as (avg & Havg & _ & Hok).
    assert (Hv : Ok avg = Ok (float.literal 1 100)) by (rewrite <- Havg; vm_compute; reflexivity).
    injection Hv as ->.
    destruct (Hok (float.literal 1 15) ltac:(vm_compute; reflexivity)) as (_ & _ & Hinc & _).
    apply Hinc; vm_compute; reflexivity.
Defined.



(** A configured rate that is too large for a float: the first frame is
    yielded, then [1.0 / self._adaptive_fps] raises [OverflowError], which
    the handler of the loop counts as a failure. *)
Lemma huge_rate_is_counted :
  no_interval huge_rate /\
  float.truediv_int (float.literal 1 1) huge_rate = Raise OverflowError /\
  status_of (stream_frames [Frame full_hd (float.literal 1 100) (Resume (fun s => s))]
               (capture_with default_config (Some huge_rate) None)) = Suspended 1.
Proof. split; [right|split]; vm_compute; reflexivity. Qed.

(** Rounding can also raise the rate: at 10 frames per second and an
    adaptive rate of 9, six samples of the double [0.05], which is a little
    more than a twentieth, have an average that is not below half the
    target; their rounded sum divided by 6 is the double below [0.05], and
    the adaptive rate becomes 10. *)
Lemma rounding_raises_the_rate :
  let self :=
    set_adaptive_fps 9
      (set_frame_times (repeat (float.literal 5 100) 5)
         (capture_with default_config (Some 10) None)) in
  (1 / inject_Z (fps self) * (1 # 2)
     <= exact_average (window self (float.literal 5 100)))%Q /\
  _adaptive_fps (snd (_update_adaptive (float.literal 5 100) self)) = 10.
Proof. split; vm_compute; [discriminate|reflexivity]. Qed.

(** C5, as stated, fails: a probe exception that the [except] clause does
    not list leaves detection, and the constructor, without a backend. *)
Lemma unhandled_probe_exception :
  _detect_backend gdbus_not_executable = Raise PermissionError /\
  (forall backend, _detect_backend gdbus_not_executable <> Ok backend) /\
  __init__ default_config gdbus_not_executable None None None = Raise PermissionError.
Proof. repeat split; try reflexivity. intros b H. discriminate H. Qed.

(** When the probe of a tool raises, and when it says "not available". *)
Lemma cmd_exists_raises env tool e :
  _cmd_exists env tool = Raise e <->
  which env tool = Raise e /\ caught [CalledProcessError; FileNotFoundError] e = false.
Proof.
  unfold _cmd_exists, check_returncode.
  destruct (which env tool) as [rc|e'].
  - destruct (rc =? 0); cbn; split; [discriminate| intros [H _]; discriminate H
                                     |discriminate| intros [H _]; discriminate H].
  - destruct (caught _ e') eqn:E; split.
    + discriminate.
    + intros [[= ->] H]. congruence.
    + intros [= ->]. auto.
    + intros [[= ->] _]. reflexivity.
Qed.

Lemma cmd_exists_unavailable env tool :
  _cmd_exists env tool = Ok false <-> unavailable (which env tool).
Proof.
  unfold _cmd_exists, check_returncode, unavailable.
  destruct (which env tool) as [rc|e'].
  - destruct (Z.eqb_spec rc 0); cbn; split; try discriminate; try congruence; auto.
  - destruct (caught _ e'); split; try discriminate; auto.
Qed.

(** The loop over the tools raises exactly what the first probe that does
    not answer raises. *)
Lemma first_tool_raises env e tools :
  first_tool env tools = Raise e <->
  exists before tool after,
    tools = (before ++ tool :: after)%list /\
    Forall (fun t => unavailable (which env t)) before /\
    which env tool = Raise e /\
    caught [CalledProcessError; FileNotFoundError] e = false.
Proof.
  induction tools as [|tool tools IH]; cbn [first_tool].
  - split; [discriminate|]. intros (before & t & after & H & _). destruct before; discriminate H.
  - destruct (_cmd_exists env tool) as [[|]|e'] eqn:E.
    + split; [discriminate|]. intros (before & t & after & H & Hb & Hr & Hc).
      destruct before as [|b before]; cbn [app] in H.
      * injection H as <- <-.
        assert (Hx : _cmd_exists env tool = Raise e) by (apply cmd_exists_raises; auto).
        congruence.
      * injection H as <- ->.
        inversion Hb as [|? ? Hu _]; subst. apply cmd_exists_unavailable in Hu. congruence.
    + apply cmd_exists_unavailable in E. rewrite IH. split.
      * intros (before & t & after & -> & Hb & Hr & Hc).
        exists (tool :: before), t, after. auto.
      * intros (before & t & after & H & Hb & Hr & Hc).
        destruct before as [|b before]; cbn [app] in H.
        -- injection H as <- <-. exfalso. unfold unavailable in E. rewrite Hr in E. congruence.
        -- injection H as <- ->. inversion Hb; subst. exists before, t, after. auto.
    + split.
      * intros [= ->]. apply cmd_exists_raises in E. exists [], tool, tools. auto.
      * intros (before & t & after & H & Hb & Hr & Hc).
        destruct before as [|b before]; cbn [app] in H.
        -- injection H as <- <-. apply cmd_exists_raises in E. destruct E as [E _]. congruence.
        -- injection H as <- ->.
           inversion Hb as [|? ? Hu _]; subst. apply cmd_exists_unavailable in Hu. congruence.
Qed.

(** C5, amended.  If no probe raises anything but what its [except] clause
    lists, detection returns the backend of the selection rule, which is of
    exactly one kind: direct outside a compositor session; under one,
    compositor if the introspection probe succeeded, else the first of grim,
    gnome-screenshot and spectacle whose probe succeeded, else fallback.
    Detection raises exactly the exceptions that escape: those a probe it
    runs raises and the [except] clause of the probe does not list; they
    leave the constructor too.  Detection in an environment with the same
    probe outcomes gives the same result. *)
Theorem backend_detection (env env' : probes) :
  same_probes env env' ->
  (probes_handled env ->
     _detect_backend env = Ok (selected_backend env) /\
     kind_of (selected_backend env) = Some (selected_kind env)) /\
  (forall e, _detect_backend env = Raise e <-> escapes env e) /\
  (forall e config fps quality monitor,
     escapes env e -> __init__ config env fps quality monitor = Raise e) /\
  _detect_backend env' = _detect_backend env.
Proof.
  intros (Hsw & Hsg & Hst).
  assert (Hraise : forall e, _detect_backend env = Raise e <-> escapes env e).
  { intros e. unfold _detect_backend, escapes, not_introspected.
    destruct (is_wayland env); [|split; [discriminate|intros [H _]; discriminate H]].
    pose proof (first_tool_raises env e cli_tools) as Hf. unfold cli_tools in Hf at 1.
    destruct (gdbus_introspect env) as [rc|e'].
    - destruct (Z.eqb_spec rc 0) as [Hz|Hz].
      + split; [discriminate|]. intros [_ [[H _]|[H _]]]; [discriminate H|contradiction].
      + destruct (first_tool env _) as [[tool|]|e''] eqn:Ef.
        * split; [discriminate|]. intros [_ [[H _]|[_ H]]]; [discriminate H|].
          apply Hf in H. discriminate H.
        * split; [discriminate|]. intros [_ [[H _]|[_ H]]]; [discriminate H|].
          apply Hf in H. discriminate H.
        * split.
          -- intros [= ->]. split; [reflexivity|]. right. split; [assumption|].
             apply Hf. reflexivity.
          -- intros [_ [[H _]|[_ H]]]; [discriminate H|]. apply Hf in H.
             injection H as ->. reflexivity.
    - destruct (caught [TimeoutExpired; FileNotFoundError] e') eqn:Ec.
      + destruct (first_tool env _) as [[tool|]|e''] eqn:Ef.
        * split; [discriminate|]. intros [_ [[[= ->] H]|[_ H]]]; [congruence|].
          apply Hf in H. discriminate H.
        * split; [discriminate|]. intros [_ [[[= ->] H]|[_ H]]]; [congruence|].
          apply Hf in H. discriminate H.
        * split.
          -- intros [= ->]. split; [reflexivity|]. right. split; [reflexivity|].
             apply Hf. reflexivity.
          -- intros [_ [[[= ->] H]|[_ H]]]; [congruence|]. apply Hf in H.
             injection H as ->. reflexivity.
      + split.
        * intros [= ->]. split; [reflexivity|]. left. auto.
        * intros [_ [[[= ->] _]|[H _]]]; [reflexivity|congruence]. }
  split; [|split; [exact Hraise|split]].
  - intros [Hg Hw]. split.
    + unfold _detect_backend, selected_backend.
      destruct (is_wayland env); [|reflexivity].
      pose proof (first_tool_handled env cli_tools Hw) as Hf.
      unfold cli_tools in *. rewrite Hf. clear Hf.
      set (found := find _ _).
      destruct (gdbus_introspect env) as [rc|e]; cbn [succeeded].
      * destruct (rc =? 0); [reflexivity|].
        destruct found; reflexivity.
      * destruct (Hg e eq_refl) as [-> | ->]; simpl;
          destruct found; reflexivity.
    + unfold selected_backend, selected_kind.
      destruct (is_wayland env); [|reflexivity].
      destruct (succeeded (gdbus_introspect env)); [reflexivity|].
      unfold cli_tools. simpl.
      destruct (succeeded (which env "grim")); [reflexivity|].
      destruct (succeeded (which env "gnome-screenshot")); [reflexivity|].
      destruct (succeeded (which env "spectacle")); reflexivity.
  - intros e config fps_arg quality_arg monitor_arg He. apply Hraise in He.
    unfold __init__. rewrite He. reflexivity.
  - unfold _detect_backend. rewrite <- Hsw, <- Hsg.
    pose proof (first_tool_same env env' cli_tools Hst) as Hf.
    unfold cli_tools in Hf. rewrite Hf. reflexivity.
Qed.

(** The amended C5 in a session where only [gnome-screenshot] is
    installed, and in one where [which] may not be executed. *)
Lemma backend_detection_witness :
  same_probes gnome_screenshot_only gnome_screenshot_only /\
  probes_handled gnome_screenshot_only /\
  _detect_backend gnome_screenshot_only = Ok "gnome-screenshot"%string /\
  kind_of "gnome-screenshot" = Some cli_tool /\
  same_probes which_not_executable which_not_executable /\
  escapes which_not_executable PermissionError /\
  _detect_backend which_not_executable = Raise PermissionError.
Proof.
  assert (H1 : probes_handled gnome_screenshot_only).
  { split.
    - intros e H. discriminate H.
    - intros tool e _ H. simpl in H. destruct (String.eqb tool "gnome-screenshot"); discriminate H. }
  assert (H2 : same_probes gnome_screenshot_only gnome_screenshot_only)
    by (repeat split; reflexivity).
  assert (H3 : same_probes which_not_executable which_not_executable)
    by (repeat split; reflexivity).
  assert (H4 : escapes which_not_executable PermissionError).
  { split; [reflexivity|]. right. split; [cbn; discriminate|].
    exists [], "grim"%string, ["gnome-screenshot"; "spectacle"]%string.
    repeat split; constructor. }
  destruct (backend_detection gnome_screenshot_only gnome_screenshot_only H2)
    as (Hsel & _).
  destruct (Hsel H1) as (Ha & Hb).
  destruct (backend_detection which_not_executable which_not_executable H3)
    as (_ & Hesc & _).
  exact (conj H2 (conj H1 (conj Ha (conj Hb (conj H3 (conj H4 (proj2 (Hesc _) H4))))))).
Defined.

(** C10, as stated, fails: with the defaults set to 0 by the environment, a
    caller who passes 0 obtains a rate and a quality of 0, and frames
    encoded at quality 0. *)
Lemma zero_from_configuration :
  __init__ zero_config x11_session (Some 0) (Some 0) None =
    Ok (capture_with zero_config (Some 0) (Some 0)) /\
  fps (capture_with zero_config (Some 0) (Some 0)) = 0 /\
  quality (capture_with zero_config (Some 0) (Some 0)) = 0 /\
  jpeg_quality (capture_frame (capture_with zero_config (Some 0) (Some 0))
                              (Some full_hd) (Some 0) None None) = 0.
Proof. repeat split; reflexivity. Qed.

(** C10, amended.  Passing 0 for [fps] and [quality] to the constructor, or
    for [quality] to [capture_frame], is the same as passing nothing: the
    constructor takes the configured defaults and [capture_frame] encodes at
    the adaptive quality.  Hence the constructor yields a non-zero rate
    (quality) whenever the configured default rate (quality) is non-zero,
    and [capture_frame] encodes at a non-zero quality whenever the adaptive
    quality is non-zero. *)
Theorem zero_is_unspecified (config : ServerConfig) (env : probes) (monitor : option Z)
    (self : ScreenCapture) (captured : option image) (m max_width : option Z) :
  __init__ config env (Some 0) (Some 0) monitor = __init__ config env None None monitor /\
  (forall made, __init__ config env None None monitor = Ok made ->
     fps made = capture_fps config /\ quality made = capture_quality config /\
     _adaptive_fps made = capture_fps config /\
     _adaptive_quality made = capture_quality config) /\
  capture_frame self captured (Some 0) m max_width =
    capture_frame self captured None m max_width /\
  jpeg_quality (capture_frame self captured None m max_width) = _adaptive_quality self /\
  (forall fps_arg quality_arg made,
     __init__ config env fps_arg quality_arg monitor = Ok made ->
     (capture_fps config <> 0 -> fps made <> 0 /\ _adaptive_fps made <> 0) /\
     (capture_quality config <> 0 -> quality made <> 0 /\ _adaptive_quality made <> 0)) /\
  (forall q, _adaptive_quality self <> 0 ->
     jpeg_quality (capture_frame self captured q m max_width) <> 0).
Proof.
  split; [reflexivity|]. split; [|split; [reflexivity|split; [reflexivity|split]]].
  - intros made. unfold __init__. destruct (_detect_backend env); [|discriminate].
    intros H; inversion H; subst; simpl. auto.
  - intros fps_arg quality_arg made. unfold __init__.
    destruct (_detect_backend env); [|discriminate].
    intros H; inversion H; subst; simpl.
    unfold int_or. split; intros Hne.
    + destruct fps_arg as [v|]; [destruct (Z.eqb_spec v 0)|]; auto.
    + destruct quality_arg as [v|]; [destruct (Z.eqb_spec v 0)|]; auto.
  - intros q Hne. unfold capture_frame, int_or; simpl.
    destruct q as [v|]; [destruct (Z.eqb_spec v 0)|]; auto.
Qed.

(** The amended C10 at the default configuration. *)
Lemma zero_is_unspecified_witness :
  __init__ default_config x11_session (Some 0) (Some 0) None =
    Ok (capture_with default_config None None) /\
  fps (capture_with default_config None None) <> 0 /\
  jpeg_quality (capture_frame (capture_with default_config None None)
                              (Some full_hd) (Some 0) None None) <> 0.
Proof.
  destruct (zero_is_unspecified default_config x11_session None
              (capture_with default_config None None) (Some full_hd) None None)
    as (_ & _ & _ & _ & Hmade & Hq).
  assert (H0 : __init__ default_config x11_session (Some 0) (Some 0) None =
               Ok (capture_with default_config None None)) by reflexivity.
  assert (Hf : capture_fps default_config <> 0) by (vm_compute; discriminate).
  assert (Ha : _adaptive_quality (capture_with default_config None None) <> 0)
    by (vm_compute; discriminate).
  destruct (Hmade (Some 0) (Some 0) _ H0) as [Hfps _].
  exact (conj H0 (conj (proj1 (Hfps Hf)) (Hq (Some 0) Ha))).
Defined.

End CaptureSession.

(* ===================================================================== *)
(** * The capture-session helper                                          *)
(* ===================================================================== *)

Section CaptureHelper.
Import screen_capture.

(** Polls without status use up the loop. *)
Lemma await_node_quiet py_int proc lines : forall s rest lg k,
  Forall no_status_text lines ->
  await_node py_int (length lines) proc
    (s, {| script := map Selected lines ++ rest; log := lg; spawned := k |}) =
  (Done false,
   (s, {| script := rest;
          log := lg ++ repeat (Select proc (1 # 2)) (length lines);
          spawned := k |})).
Proof.
  induction lines as [|line lines IH]; intros s rest lg k Hq; simpl.
  - rewrite app_nil_r. reflexivity.
  - inversion Hq as [|? ? [Hn He] Hq']; subst.
    run_once. rewrite Hn, He.
    rewrite (IH s rest _ k Hq'). rewrite <- app_assoc. reflexivity.
Qed.

Lemma await_node_more py_int proc lines : forall extra s rest lg k,
  Forall no_status_text lines ->
  await_node py_int (length lines + extra) proc
    (s, {| script := map Selected lines ++ rest; log := lg; spawned := k |}) =
  await_node py_int extra proc
    (s, {| script := rest;
          log := lg ++ repeat (Select proc (1 # 2)) (length lines);
          spawned := k |}).
Proof.
  induction lines as [|line lines IH]; intros extra s rest lg k Hq; simpl.
  - rewrite app_nil_r. reflexivity.
  - inversion Hq as [|? ? [Hn He] Hq']; subst.
    run_once. rewrite Hn, He.
    rewrite (IH extra s rest _ k Hq'). rewrite <- app_assoc. reflexivity.
Qed.

Lemma error_line_prefix reason :
  String.prefix "NODE:" ("ERROR:" ++ reason) = false /\
  String.prefix "ERROR:" ("ERROR:" ++ reason) = true.
Proof.
  split; [reflexivity|]. simpl.
  destruct reason; reflexivity.
Qed.

(** Stopping a session whose helper answers in one of the ways of
    [stop_answers] ends with the session dead and the helper told to stop or
    terminated. *)
Lemma stop_session_scripted proc node tail rest lg k :
  stop_answers tail = true ->
  exists did,
    _stop_pipewire_session
      ({| _pw_node_id := node; _pw_session_proc := Some proc |},
       {| script := tail ++ rest; log := lg; spawned := k |}) =
    (Done tt, (dead_session, {| script := rest; log := lg ++ did; spawned := k |})) /\
    seconds_polled did = 0%Q /\
    started did = [] /\
    (In (Write proc "stop"%string) did \/ In (Terminate proc) did).
Proof.
  intros H.
  destruct tail as [|[| |?|[]| | | |] [|[| | | |[]| | |] [|[| | | |[]| | |] [|]]]]; try discriminate H;
    unfold _stop_pipewire_session; run_once; rewrite <- ?app_assoc; simpl;
    eexists; (split; [reflexivity|]); simpl; auto 10.
Qed.

#[local] Arguments await_node : simpl never.
#[local] Arguments String.prefix : simpl never.
#[local] Arguments _stop_pipewire_session : simpl never.

(** The start protocol of the capture-session helper when no node id is
    announced. *)
Lemma capture_start_unannounced py_int lines tail rest (w : world string string) :
  never_announced py_int lines ->
  stop_answers tail = true ->
  script w = Spawned true :: map Selected lines ++ tail ++ rest ->
  exists did,
    _start_pipewire_session py_int (dead_session, w) =
    (Done tt,
     (dead_session,
      {| script := rest; log := log w ++ did; spawned := S (spawned w) |})) /\
    (seconds_polled did == inject_Z (Z.of_nat (length lines)) * (1 # 2))%Q /\
    (length lines <= 10)%nat /\
    started did = [spawned w] /\
    (In (Write (spawned w) "stop"%string) did \/ In (Terminate (spawned w)) did).
Proof.
  intros Hlines Htail Hscript. destruct w as [sc lg k]. simpl in *. subst sc.
  unfold _start_pipewire_session. run_once.
  destruct Hlines as [lines Hlen Hq | lines reason Hlen Hq | lines text Hlen Hq Hnode Hint].
  - replace (await_node py_int 10) with (await_node py_int (length lines))
      by (rewrite Hlen; reflexivity).
    rewrite (await_node_quiet py_int k lines _ (tail ++ rest) _ (S k) Hq). simpl.
    destruct (stop_session_scripted k None tail rest
                ((lg ++ [Popen k]) ++ repeat (Select k (1 # 2)) (length lines)) (S k) Htail)
      as (did & Hrun & Hsec & Hst & Hsig).
    rewrite Hrun. exists ((Popen k :: repeat (Select k (1 # 2)) (length lines)) ++ did).
    split; [|split; [|split; [|split]]].
    + rewrite <- ?app_assoc; simpl; rewrite <- ?app_assoc; reflexivity.
    + rewrite seconds_polled_app. cbn [seconds_polled].
      rewrite seconds_polled_repeat, Hsec. ring.
    + lia.
    + rewrite started_app, started_popen, started_selects, Hst. reflexivity.
    + rewrite !in_app_iff. tauto.
  - replace 10%nat with (length lines + S (9 - length lines))%nat by lia.
    rewrite map_app, <- app_assoc.
    rewrite (await_node_more py_int k lines _ _ _ _ (S k) Hq).
    cbn [map app]. unfold await_node; fold (await_node py_int). run_once.
    destruct (error_line_prefix reason) as [Hn He]. rewrite ?Hn, He.
    destruct (stop_session_scripted k None tail rest
                (((lg ++ [Popen k]) ++ repeat (Select k (1 # 2)) (length lines)) ++ [Select k (1 # 2)]) (S k) Htail)
      as (did & Hrun & Hsec & Hst & Hsig).
    rewrite Hrun.
    exists ((Popen k :: repeat (Select k (1 # 2)) (length lines) ++ [Select k (1 # 2)]) ++ did).
    split; [|split; [|split; [|split]]].
    + rewrite <- ?app_assoc; simpl; rewrite <- ?app_assoc; reflexivity.
    + rewrite seconds_polled_app. cbn [seconds_polled].
      rewrite seconds_polled_app, seconds_polled_repeat, Hsec. cbn [seconds_polled].
      rewrite length_app. cbn [length]. rewrite Nat2Z.inj_add, inject_Z_plus. 
      change (inject_Z (Z.of_nat 1)) with 1%Q. ring.
    + rewrite length_app. simpl. lia.
    + rewrite started_app, started_popen, started_app, started_selects, Hst. reflexivity.
    + rewrite !in_app_iff. tauto.
  - replace 10%nat with (length lines + S (9 - length lines))%nat by lia.
    rewrite map_app, <- app_assoc.
    rewrite (await_node_more py_int k lines _ _ _ _ (S k) Hq).
    cbn [map app]. unfold await_node; fold (await_node py_int). run_once.
    rewrite Hnode, Hint. cbn [is_Exception].
    destruct (stop_session_scripted k None tail rest
                (((lg ++ [Popen k]) ++ repeat (Select k (1 # 2)) (length lines)) ++ [Select k (1 # 2)]) (S k) Htail)
      as (did & Hrun & Hsec & Hst & Hsig).
    rewrite Hrun.
    exists ((Popen k :: repeat (Select k (1 # 2)) (length lines) ++ [Select k (1 # 2)]) ++ did).
    split; [|split; [|split; [|split]]].
    + rewrite <- ?app_assoc; simpl; rewrite <- ?app_assoc; reflexivity.
    + rewrite seconds_polled_app. cbn [seconds_polled].
      rewrite seconds_polled_app, seconds_polled_repeat, Hsec. cbn [seconds_polled].
      rewrite length_app. cbn [length]. rewrite Nat2Z.inj_add, inject_Z_plus.
      change (inject_Z (Z.of_nat 1)) with 1%Q. ring.
    + rewrite length_app. simpl. lia.
    + rewrite started_app, started_popen, started_app, started_selects, Hst. reflexivity.
    + rewrite !in_app_iff. tauto.
Qed.

(** A read that stalls before a node id was announced: the start never
    returns. *)
Lemma capture_start_stalls py_int lines rest (w : world string string) :
  Forall no_status_text lines ->
  (length lines < 10)%nat ->
  script w = Spawned true :: map Selected lines ++ Stalled :: rest ->
  _start_pipewire_session py_int (dead_session, w) =
  (Blocked,
   ({| _pw_node_id := None; _pw_session_proc := Some (spawned w) |},
    {| script := rest;
       log := log w ++ Popen (spawned w)
                :: repeat (Select (spawned w) (1 # 2)) (S (length lines));
       spawned := S (spawned w) |})).
Proof.
  intros Hq Hlen Hscript. destruct w as [sc lg k]. simpl in *. subst sc.
  unfold _start_pipewire_session. run_once.
  replace 10%nat with (length lines + S (9 - length lines))%nat by lia.
  rewrite (await_node_more py_int k lines _ _ _ _ (S k) Hq).
  unfold await_node; fold (await_node py_int). run_once.
  rewrite <- !app_assoc. cbn [app].
  replace (repeat (@Select string k (1 # 2)) (length lines) ++ [Select k (1 # 2)])
    with (repeat (@Select string k (1 # 2)) (S (length lines)))
    by (rewrite <- repeat_cons; reflexivity).
  reflexivity.
Qed.

End CaptureHelper.

(* ===================================================================== *)
(** * The input helper                                                    *)
(* ===================================================================== *)

Section InputHelper.
Import input_handler.

#[local] Arguments await_ready : simpl never.
#[local] Arguments start : simpl never.
#[local] Arguments dict_get : simpl never.

Lemma start_unfold depth :
  start (S depth) = start_calling (stop depth).
Proof. reflexivity. Qed.

Lemma await_ready_more proc lines : forall extra s rest lg k,
  Forall no_status_line lines ->
  await_ready (length lines + extra) proc
    (s, {| script := map Selected lines ++ rest; log := lg; spawned := k |}) =
  await_ready extra proc
    (s, {| script := rest;
          log := lg ++ repeat (Select proc (1 # 2)) (length lines);
          spawned := k |}).
Proof.
  induction lines as [|line lines IH]; intros extra s rest lg k Hq; simpl.
  - rewrite app_nil_r. reflexivity.
  - inversion Hq as [|? ? Hl Hq']; subst.
    unfold await_ready; fold await_ready. run.
    destruct line as [[| |[]]|]; simpl in Hl; try contradiction;
      try (rewrite (IH extra s rest _ k Hq'), <- app_assoc; reflexivity).
    destruct Hl as [Hr He]. unfold status_of_line in *. rewrite Hr, He.
    rewrite (IH extra s rest _ k Hq'), <- app_assoc; reflexivity.
Qed.

Lemma error_is_not_ready data :
  is_str (status_of_line data) "error" = true ->
  is_str (status_of_line data) "ready" = false.
Proof.
  unfold is_str. destruct (status_of_line data) as [| | | |s| |]; try discriminate.
  intros H. apply String.eqb_eq in H. subst. reflexivity.
Qed.

(** Stopping a backend whose helper is still running ends with the backend
    dead; the helper exited on its own or was terminated. *)
Lemma stop_running_helper depth proc tail rest lg k :
  stop_answers_running tail = true ->
  exists did,
    stop (S depth)
      ({| _process := Some proc; _ready := false |},
       {| script := tail ++ rest; log := lg; spawned := k |}) =
    (Done tt, (dead_backend, {| script := rest; log := lg ++ did; spawned := k |})) /\
    seconds_polled did = 0%Q /\
    started did = [] /\
    (tail = [Running true; Waited true] \/ In (Terminate proc) did).
Proof.
  intros H.
  destruct tail as [|[|[]| | | | | |] [|[| | | |[]| | |] [|[| | | |[]| | |] [|]]]]; try discriminate H;
    unfold stop, stop_calling, _send, _send_calling; simpl; unfold start_calling, the_process; run;
    rewrite <- ?app_assoc; simpl;
    eexists; (split; [reflexivity|]); simpl; auto 10.
Qed.

#[local] Arguments stop : simpl never.

(** A line that is not JSON, or that is JSON but not an object, raises
    inside the polling loop. *)
Lemma await_ready_malformed n proc (line : helper_line) s rest lg k :
  line = NotJson \/ (exists v, line = Json v /\ forall data, v <> VDict data) ->
  await_ready (S n) proc
    (s, {| script := Selected (Some line) :: rest; log := lg; spawned := k |}) =
  (Thrown match line with NotJson => JSONDecodeError | _ => AttributeError end,
   (s, {| script := rest; log := lg ++ [Select proc (1 # 2)]; spawned := k |})).
Proof.
  intros [-> | (v & -> & Hv)]; unfold await_ready; fold await_ready; run.
  - reflexivity.
  - destruct v; try reflexivity. exfalso. exact (Hv _ eq_refl).
Qed.

(** The start protocol of the input helper when a line is malformed and
    the helper is still running when it is to be stopped. *)
Lemma input_start_malformed depth lines (line : helper_line) tail rest
    (w : world helper_line payload) :
  (length lines < 20)%nat -> Forall no_status_line lines ->
  line = NotJson \/ (exists v, line = Json v /\ forall data, v <> VDict data) ->
  stop_answers_running tail = true ->
  script w = Spawned true :: map Selected (lines ++ [Some line]) ++ tail ++ rest ->
  exists did,
    start (S (S depth)) (dead_backend, w) =
    (Done tt,
     (dead_backend,
      {| script := rest; log := log w ++ did; spawned := S (spawned w) |})) /\
    (seconds_polled did == inject_Z (Z.of_nat (length (lines ++ [Some line]))) * (1 # 2))%Q /\
    (length (lines ++ [Some line]) <= 20)%nat /\
    started did = [spawned w] /\
    (tail = [Running true; Waited true] \/ In (Terminate (spawned w)) did).
Proof.
  intros Hlen Hq Hline Htail Hscript. destruct w as [sc lg k].
  cbn [script log spawned] in *. subst sc.
  rewrite start_unfold. unfold start_calling. run.
  replace (await_ready 20) with (await_ready (length lines + S (19 - length lines)))
    by (f_equal; lia).
  rewrite map_app, <- app_assoc.
  rewrite (await_ready_more k lines _ _ _ _ (S k) Hq).
  cbn [map app]. rewrite (await_ready_malformed _ _ _ _ _ _ _ Hline).
  assert (He : is_Exception match line with NotJson => JSONDecodeError | _ => AttributeError end
               = true) by (destruct line; reflexivity).
  rewrite He.
  destruct (stop_running_helper depth k tail rest
              (((lg ++ [Popen k]) ++ repeat (Select k (1 # 2)) (length lines)) ++ [Select k (1 # 2)]) (S k) Htail)
    as (did & Hrun & Hsec & Hst & Hsig).
  unfold set_process. simpl. rewrite Hrun.
  exists ((Popen k :: repeat (Select k (1 # 2)) (length lines) ++ [Select k (1 # 2)]) ++ did).
  split; [|split; [|split; [|split]]].
  + rewrite <- ?app_assoc; simpl; rewrite <- ?app_assoc; reflexivity.
  + rewrite seconds_polled_app. cbn [seconds_polled].
    rewrite seconds_polled_app, seconds_polled_repeat, Hsec. cbn [seconds_polled].
    rewrite length_app. cbn [length]. rewrite Nat2Z.inj_add, inject_Z_plus.
    change (inject_Z (Z.of_nat 1)) with 1%Q. ring.
  + rewrite length_app. simpl. lia.
  + rewrite started_app, started_popen, started_app, started_selects, Hst. reflexivity.
  + destruct Hsig as [Hsig|Hsig]; [left; exact Hsig|right].
    rewrite !in_app_iff. tauto.
Qed.

(** The start protocol of the input helper when it never reports ready and
    is still running when it is to be stopped. *)
Lemma input_start_unready depth lines tail rest (w : world helper_line payload) :
  never_ready lines ->
  stop_answers_running tail = true ->
  script w = Spawned true :: map Selected lines ++ tail ++ rest ->
  exists did,
    start (S (S depth)) (dead_backend, w) =
    (Done tt,
     (dead_backend,
      {| script := rest; log := log w ++ did; spawned := S (spawned w) |})) /\
    (seconds_polled did == inject_Z (Z.of_nat (length lines)) * (1 # 2))%Q /\
    (length lines <= 20)%nat /\
    started did = [spawned w] /\
    (tail = [Running true; Waited true] \/ In (Terminate (spawned w)) did).
Proof.
  intros Hlines Htail Hscript.
  destruct Hlines as [lines Hlen Hq | lines data Hlen Hq Herr | lines Hlen Hq
                     | lines v Hlen Hq Hv];
    [ | | eapply input_start_malformed; eauto | eapply input_start_malformed; eauto ];
    destruct w as [sc lg k]; cbn [script log spawned] in *; subst sc;
    rewrite start_unfold; unfold start_calling; run.
  - replace (await_ready 20) with (await_ready (length lines + 0))
      by (rewrite Hlen; reflexivity).
    rewrite (await_ready_more k lines 0 _ (tail ++ rest) _ (S k) Hq).
    unfold await_ready. run.
    destruct (stop_running_helper depth k tail rest
                ((lg ++ [Popen k]) ++ repeat (Select k (1 # 2)) (length lines)) (S k) Htail)
      as (did & Hrun & Hsec & Hst & Hsig).
    unfold set_process. simpl. rewrite Hrun.
    exists ((Popen k :: repeat (Select k (1 # 2)) (length lines)) ++ did).
    split; [|split; [|split; [|split]]].
    + rewrite <- ?app_assoc; simpl; rewrite <- ?app_assoc; reflexivity.
    + rewrite seconds_polled_app. cbn [seconds_polled].
      rewrite seconds_polled_repeat, Hsec. ring.
    + lia.
    + rewrite started_app, started_popen, started_selects, Hst. reflexivity.
    + destruct Hsig as [Hsig|Hsig]; [left; exact Hsig|right].
      rewrite !in_app_iff. tauto.
  - replace (await_ready 20) with (await_ready (length lines + S (19 - length lines)))
      by (f_equal; lia).
    rewrite map_app, <- app_assoc.
    rewrite (await_ready_more k lines _ _ _ _ (S k) Hq).
    cbn [map app]. unfold await_ready; fold await_ready. run.
    fold (status_of_line data). rewrite (error_is_not_ready data Herr), Herr.
    destruct (stop_running_helper depth k tail rest
                (((lg ++ [Popen k]) ++ repeat (Select k (1 # 2)) (length lines)) ++ [Select k (1 # 2)]) (S k) Htail)
      as (did & Hrun & Hsec & Hst & Hsig).
    unfold set_process. simpl. rewrite Hrun.
    exists ((Popen k :: repeat (Select k (1 # 2)) (length lines) ++ [Select k (1 # 2)]) ++ did).
    split; [|split; [|split; [|split]]].
    + rewrite <- ?app_assoc; simpl; rewrite <- ?app_assoc; reflexivity.
    + rewrite seconds_polled_app. cbn [seconds_polled].
      rewrite seconds_polled_app, seconds_polled_repeat, Hsec. cbn [seconds_polled].
      rewrite length_app. cbn [length]. rewrite Nat2Z.inj_add, inject_Z_plus.
      change (inject_Z (Z.of_nat 1)) with 1%Q. ring.
    + rewrite length_app. simpl. lia.
    + rewrite started_app, started_popen, started_app, started_selects, Hst. reflexivity.
    + destruct Hsig as [Hsig|Hsig]; [left; exact Hsig|right].
      rewrite !in_app_iff. tauto.
Qed.

(** [start] when the helper cannot be spawned. *)
Lemma start_spawn_fails depth (w : world helper_line payload) self rest :
  _process self = None ->
  script w = Spawned false :: rest ->
  start (S depth) (self, w) =
  (Thrown PermissionError, (self, {| script := rest; log := log w; spawned := spawned w |})).
Proof.
  intros Hp Hs. destruct w as [sc lg k]; destruct self as [p r]; simpl in *; subst.
  rewrite start_unfold. unfold start_calling. run_lazy. reflexivity.
Qed.

(** A usable helper that does not answer within two seconds: the call is
    assumed to have succeeded. *)
Lemma send_no_response depth command proc (w : world helper_line payload) line rest :
  script w = Running true :: Written true :: Selected line :: rest ->
  line = None \/ line = Some Blank ->
  _send depth command ({| _process := Some proc; _ready := true |}, w) =
  (Done status_ok,
   ({| _process := Some proc; _ready := true |},
    {| script := rest;
       log := log w ++ [Write proc (JsonLine command); Select proc 2];
       spawned := spawned w |})).
Proof.
  intros Hs Hl. destruct w as [sc lg k]; simpl in *; subst.
  unfold _send, _send_calling, the_process. run_lazy.
  rewrite <- app_assoc. destruct Hl as [-> | ->]; reflexivity.
Qed.

(** A call on a backend that is not ready runs [start] first; if [start]
    returns and the backend is still not ready, the call reports that the
    backend is not available. *)
Lemma send_when_restart_fails (start : W unit) command self w self' w' :
  _ready self = false ->
  start (set_ready false self, w) = (Done tt, (self', w')) ->
  _ready self' = false ->
  _send_calling start command (self, w) =
  (Done (status_error (Text "Input backend not available")), (self', w')).
Proof.
  intros Hdead Hstart Hstill. unfold _send_calling. run_lazy.
  rewrite Hdead. run_lazy. rewrite Hstart. run_lazy. rewrite Hstill. reflexivity.
Qed.

(** A helper that stays silent is restarted by the next call, found
    unusable after ten seconds and terminated; the call reports that the
    backend is not available. *)
Lemma send_restart_failed :
  _send 2 mouse_up_command (dead_backend, silent_input_helper) =
  (Done (status_error (Text "Input backend not available")),
   (dead_backend,
    {| script := [];
       log := Popen 0 :: repeat (Select 0 (1 # 2)) 20 ++ [Wait 0 2; Terminate 0; Wait 0 1];
       spawned := 1 |})).
Proof. vm_compute. reflexivity. Qed.

(** A helper that has exited when [start] gives up on it is not just
    dropped: [stop] calls [_send], which calls [start] again, which spawns
    the next helper.  Here one call spawns three helpers, stops the third
    one although it was ready, and reports that the backend is not
    available. *)
Lemma exited_helper_is_respawned :
  let run := _send 3 mouse_up_command (dead_backend, crashing_input_helpers) in
  fst run = Done (status_error (Text "Input backend not available")) /\
  fst (snd run) = dead_backend /\
  started (log (snd (snd run))) = [0; 1; 2]%nat /\
  script (snd (snd run)) = [].
Proof. vm_compute. repeat split; reflexivity. Qed.

(** ** The claims *)

(** C6, at the failing input: the helper is dead and cannot be spawned.
    The exception of [Popen] leaves [start], which has no handler around the
    spawn, and then [_send], which calls [start] outside its [try]. *)
Theorem send_raises_when_spawn_fails :
  forall depth command,
    _send (S depth) command (dead_backend, world_of [Spawned false]) =
    (Thrown PermissionError, (dead_backend, world_of [])).
Proof.
  intros depth command.
  unfold _send, _send_calling, dead_backend, world_of. run_lazy.
  rewrite (start_spawn_fails depth
             {| script := [Spawned false]; log := []; spawned := 0 |}
             (set_ready false {| _process := None; _ready := false |}) []
             eq_refl eq_refl).
  reflexivity.
Qed.

(** A second way for [_send] to raise: two helpers print text that is not
    JSON and the first has exited when it is to be stopped.  The inner
    [stop] clears [self._process], the outer one then fails on it, inside the
    exception handler of [start]. *)
Lemma send_raises_after_nested_stop :
  fst (_send 3 mouse_up_command (dead_backend, garbling_input_helpers)) =
  Thrown AttributeError.
Proof. vm_compute. reflexivity. Qed.

(** A read that stalls before the helper reported ready: the start never
    returns. *)
Lemma input_start_stalls depth lines rest (w : world helper_line payload) :
  Forall no_status_line lines ->
  (length lines < 20)%nat ->
  script w = Spawned true :: map Selected lines ++ Stalled :: rest ->
  start (S depth) (dead_backend, w) =
  (Blocked,
   ({| _process := Some (spawned w); _ready := false |},
    {| script := rest;
       log := log w ++ Popen (spawned w)
                :: repeat (Select (spawned w) (1 # 2)) (S (length lines));
       spawned := S (spawned w) |})).
Proof.
  intros Hq Hlen Hscript. destruct w as [sc lg k].
  cbn [script log spawned] in *. subst sc.
  rewrite start_unfold. unfold start_calling. run.
  replace (await_ready 20) with (await_ready (length lines + S (19 - length lines)))
    by (f_equal; lia).
  rewrite (await_ready_more k lines _ _ _ _ (S k) Hq).
  unfold await_ready; fold await_ready. run.
  rewrite <- !app_assoc. cbn [app].
  replace (repeat (@Select payload k (1 # 2)) (length lines) ++ [Select k (1 # 2)])
    with (repeat (@Select payload k (1 # 2)) (S (length lines)))
    by (rewrite <- repeat_cons; reflexivity).
  reflexivity.
Qed.

(** C7, as stated, fails in three ways.  A capture-session helper that
    stays silent is given up on after 5 seconds of polling, not 10, while
    the input helper is polled for 10 seconds.  An input helper that has
    exited when the start gives up on it is not treated as dead: the start
    spawns the next helper, and here a third one, polls for more than 20
    seconds and terminates none of them.  And a helper of either kind that
    begins a line and does not end it blocks the start for good, in
    [readline], which has no timeout. *)
Lemma start_protocol_falls_short :
  let capture := screen_capture._start_pipewire_session decimal
                   (dead_session, silent_capture_helper) in
  let input := start 2 (dead_backend, silent_input_helper) in
  let respawning := start 3 (dead_backend, crashing_input_helpers) in
  (fst capture = Done tt /\
   fst (snd capture) = dead_session /\
   (seconds_polled (log (snd (snd capture))) == 5)%Q /\
   ~ (seconds_polled (log (snd (snd capture))) == 10)%Q /\
   fst input = Done tt /\
   fst (snd input) = dead_backend /\
   (seconds_polled (log (snd (snd input))) == 10)%Q) /\
  (fst respawning = Done tt /\
   started (log (snd (snd respawning))) = [0; 1; 2]%nat /\
   (20 < seconds_polled (log (snd (snd respawning))))%Q /\
   signalled (log (snd (snd respawning))) = []) /\
  (fst (screen_capture._start_pipewire_session decimal (dead_session, stalling_helper))
     = Blocked /\
   fst (start 2 (dead_backend, stalling_helper)) = Blocked).
Proof.
  cbv zeta. split; [|split].
  - repeat split; try (vm_compute; reflexivity). vm_compute. discriminate.
  - repeat split; vm_compute; reflexivity.
  - split; vm_compute; reflexivity.
Qed.

(** C7, amended.  The capture-session helper is polled at most 10 times
    for half a second, about 5 seconds, the input helper at most 20 times,
    about 10 seconds.  Suppose every line the helpers begin they also end,
    so that no read stalls.  If the capture-session helper announces no
    node id in that time (it stays silent, reports an error, or prints a
    node line whose id is not a number), it is sent the stop line or
    terminated, and the session is dead.  If the input helper does not
    report ready in that time (it stays silent, reports an error, or prints
    a line that is not a JSON object) and is still running when it is to be
    stopped, it exits by itself or is terminated, and the backend is dead.
    Both starts return.  A read that stalls within the budget blocks the
    start: it never returns. *)
Theorem start_protocol_budget (py_int : string -> option Z) (depth : nat)
    (texts : list (option string)) (lines : list (option helper_line))
    (capture_tail capture_rest : list (answer string))
    (input_tail input_rest : list (answer helper_line))
    (cw : world string string) (iw : world helper_line payload) :
  never_announced py_int texts ->
  stop_answers capture_tail = true ->
  script cw = Spawned true :: map Selected texts ++ capture_tail ++ capture_rest ->
  never_ready lines ->
  stop_answers_running input_tail = true ->
  script iw = Spawned true :: map Selected lines ++ input_tail ++ input_rest ->
  (exists did,
     screen_capture._start_pipewire_session py_int (dead_session, cw) =
     (Done tt,
      (dead_session,
       {| script := capture_rest; log := log cw ++ did; spawned := S (spawned cw) |})) /\
     (seconds_polled did == inject_Z (Z.of_nat (length texts)) * (1 # 2))%Q /\
     (length texts <= 10)%nat /\
     started did = [spawned cw] /\
     (In (Write (spawned cw) "stop"%string) did \/ In (Terminate (spawned cw)) did)) /\
  (exists did,
     start (S (S depth)) (dead_backend, iw) =
     (Done tt,
      (dead_backend,
       {| script := input_rest; log := log iw ++ did; spawned := S (spawned iw) |})) /\
     (seconds_polled did == inject_Z (Z.of_nat (length lines)) * (1 # 2))%Q /\
     (length lines <= 20)%nat /\
     started did = [spawned iw] /\
     (input_tail = [Running true; Waited true] \/ In (Terminate (spawned iw)) did)) /\
  (forall quiet rest (w : world string string),
     Forall no_status_text quiet -> (length quiet < 10)%nat ->
     script w = Spawned true :: map Selected quiet ++ Stalled :: rest ->
     fst (screen_capture._start_pipewire_session py_int (dead_session, w)) = Blocked) /\
  (forall quiet rest (w : world helper_line payload),
     Forall no_status_line quiet -> (length quiet < 20)%nat ->
     script w = Spawned true :: map Selected quiet ++ Stalled :: rest ->
     fst (start (S (S depth)) (dead_backend, w)) = Blocked).
Proof.
  intros Ht Hct Hcw Hl Hit Hiw. split; [|split; [|split]].
  - exact (capture_start_unannounced py_int texts capture_tail capture_rest cw Ht Hct Hcw).
  - exact (input_start_unready depth lines input_tail input_rest iw Hl Hit Hiw).
  - intros quiet rest w Hq Hlen Hw.
    rewrite (capture_start_stalls py_int quiet rest w Hq Hlen Hw). reflexivity.
  - intros quiet rest w Hq Hlen Hw.
    rewrite (input_start_stalls (S depth) quiet rest w Hq Hlen Hw). reflexivity.
Qed.

(** The amended C7 at two helpers that stay silent, and at two that
    stall. *)
Lemma start_protocol_budget_witness :
  never_announced decimal (repeat None 10) /\
  never_ready (repeat None 20) /\
  fst (screen_capture._start_pipewire_session decimal (dead_session, silent_capture_helper))
    = Done tt /\
  fst (start 2 (dead_backend, silent_input_helper)) = Done tt /\
  fst (screen_capture._start_pipewire_session decimal (dead_session, stalling_helper))
    = Blocked /\
  fst (start 2 (dead_backend, stalling_helper)) = Blocked.
Proof.
  assert (Ht : never_announced decimal (repeat None 10)).
  { apply node_budget_spent; [reflexivity|]. repeat constructor. }
  assert (Hl : never_ready (repeat None 20)).
  { apply ready_budget_spent; [reflexivity|]. repeat constructor. }
  destruct (start_protocol_budget decimal 0 (repeat None 10) (repeat None 20)
              [Written true; Waited true] [] [Running true; Waited false; Waited true] []
              silent_capture_helper silent_input_helper
              Ht eq_refl eq_refl Hl eq_refl eq_refl)
    as [(did & Hc & _) [(did' & Hi & _) [Hsc Hsi]]].
  refine (conj Ht (conj Hl (conj _ (conj _ (conj _ _))))).
  - rewrite Hc. reflexivity.
  - rewrite Hi. reflexivity.
  - apply (Hsc [None] []); [repeat constructor|simpl; lia|reflexivity].
  - apply (Hsi [None] []); [repeat constructor|simpl; lia|reflexivity].
Defined.

End InputHelper.

(* ===================================================================== *)
(** * The command router                                                  *)
(* ===================================================================== *)

Section Router.
Import input_handler.

#[local] Arguments start : simpl never.
#[local] Arguments dict_get : simpl never.

(** [set_sensitivity] with a number. *)
Lemma sensitivity_command_handled depth (command : gmap string pyval) s v :
  dict_get command "type" (VStr "") = VStr "set_sensitivity" ->
  as_number (dict_get command "value" (VFloat 1)) = Some v ->
  process_command depth command s =
  and_then (ensure_started depth s)
    (fun _ s' => (Done status_ok, (set_sensitivity (clamp v) (fst s'), snd s'))).
Proof.
  intros Hty Hv. unfold process_command. rewrite Hty. literal.
  unfold sensitivity_setter. rewrite Hv.
  unfold and_then. run_lazy.
  destruct (ensure_started depth s) as [[[]|e| |] s']; reflexivity.
Qed.

(** The three configuration commands of the streaming channel are unknown to
    the router. *)
Lemma configuration_command_unknown depth (command : gmap string pyval) s ty :
  dict_get command "type" (VStr "") = VStr ty ->
  In ty ["set_quality"; "set_fps"; "set_monitor"]%string ->
  process_command depth command s =
  and_then (ensure_started depth s)
    (fun _ s' => (Done (status_error (UnknownCommand (VStr ty))), s')).
Proof.
  intros Hty Hin. unfold process_command. rewrite Hty.
  destruct Hin as [<-|[<-|[<-|[]]]]; literal; unfold and_then; run_lazy;
    destruct (ensure_started depth s) as [[[]|e| |] s']; reflexivity.
Qed.

Lemma type_present (data : gmap string pyval) ty :
  dict_get data "type" (VStr "") = VStr ty -> ty <> ""%string ->
  dict_get data "type" VNone = VStr ty.
Proof.
  unfold dict_get. destruct (data !! "type"%string) as [v|]; simpl.
  - auto.
  - intros H; inversion H; subst. congruence.
Qed.

(** [process_command] is [ensure_started] followed by a [try] whose handler
    returns the error envelope. *)
Lemma process_command_shape depth command :
  exists body : H reply,
    forall s,
      process_command depth command s =
      and_then (ensure_started depth s)
        (fun _ => try_except body (fun e => ret (status_error (StrOf e)))).
Proof.
  eexists. intros s. unfold process_command.
  unfold mbind at 1. unfold M_bind, bind, and_then.
  destruct (ensure_started depth s) as [[[]|e| |] s']; reflexivity.
Qed.

(** An exception leaves [process_command] only if it left [ensure_started]
    or is not an [Exception]. *)
Lemma process_command_escape depth command s e s' :
  process_command depth command s = (Thrown e, s') ->
  ensure_started depth s = (Thrown e, s') \/ is_Exception e = false.
Proof.
  destruct (process_command_shape depth command) as [body Hshape].
  rewrite Hshape. unfold and_then, try_except.
  destruct (ensure_started depth s) as [[[]|e0| |] s0]; try discriminate.
  - destruct (body s0) as [[r|e1| |] s1]; try discriminate.
    destruct (is_Exception e1) eqn:E; [discriminate|].
    intros Heq; inversion Heq; subst. right. assumption.
  - intros Heq; inversion Heq; subst. left. reflexivity.
Qed.

(** On the direct backend no [Exception] leaves [process_command]. *)
Lemma x11_never_raises depth command w e s' :
  process_command depth command (__init__ false, w) = (Thrown e, s') ->
  is_Exception e = false.
Proof.
  intros Heq. destruct (process_command_escape _ _ _ _ _ Heq) as [Hen|Hex]; [|exact Hex].
  discriminate Hen.
Qed.

(** ** The claims *)

(** C8, as stated, fails: [set_quality], [set_fps] and [set_monitor] are
    not commands of the router; it answers with the unknown-command error
    and changes nothing. *)
Lemma configuration_commands_unknown_to_router :
  process_command 1 set_quality_command (__init__ false, world_of []) =
    (Done (status_error (UnknownCommand (VStr "set_quality"))),
     (__init__ false, world_of [])) /\
  process_command 1 set_fps_command (__init__ false, world_of []) =
    (Done (status_error (UnknownCommand (VStr "set_fps"))),
     (__init__ false, world_of [])) /\
  process_command 1 set_monitor_command (__init__ false, world_of []) =
    (Done (status_error (UnknownCommand (VStr "set_monitor"))),
     (__init__ false, world_of [])).
Proof. repeat split; vm_compute; reflexivity. Qed.

(** C8, amended.  After [ensure_started], the router handles
    [set_sensitivity] with a numeric value by storing the value clamped to
    [0.1, 5.0], without touching the world, and returns the success
    envelope.  [set_quality], [set_fps] and [set_monitor] it answers with the
    unknown-command error, changing nothing.  These three are handled by
    [ws_screen], which sets the quality and the adaptive quality, the rate
    and the adaptive rate, or the monitor of the capture session, and
    nothing else. *)
Theorem configuration_commands depth (command other : gmap string pyval)
    (s : InputHandler * world helper_line payload) (v : Q) (ty : string)
    (msg : main.control) (capture : screen_capture.ScreenCapture) :
  dict_get command "type" (VStr "") = VStr "set_sensitivity" ->
  as_number (dict_get command "value" (VFloat 1)) = Some v ->
  dict_get other "type" (VStr "") = VStr ty ->
  In ty ["set_quality"; "set_fps"; "set_monitor"]%string ->
  main.decode_control other = Some msg ->
  process_command depth command s =
    and_then (ensure_started depth s)
      (fun _ s' => (Done status_ok, (set_sensitivity (clamp v) (fst s'), snd s'))) /\
  process_command depth other s =
    and_then (ensure_started depth s)
      (fun _ s' => (Done (status_error (UnknownCommand (VStr ty))), s')) /\
  control_applied ty msg capture (main.handle_control msg capture).
Proof.
  intros Hty Hv Hother Hin Hmsg.
  split; [exact (sensitivity_command_handled depth command s v Hty Hv)|].
  split; [exact (configuration_command_unknown depth other s ty Hother Hin)|].
  assert (Hne : ty <> ""%string) by (destruct Hin as [<-|[<-|[<-|[]]]]; discriminate).
  unfold main.decode_control in Hmsg. rewrite (type_present other ty Hother Hne) in Hmsg.
  unfold control_applied.
  destruct Hin as [<-|[<-|[<-|[]]]]; cbn [is_str String.eqb Ascii.eqb Bool.eqb andb] in *.
  - destruct (main.int_field other "quality") as [q|]; [|discriminate].
    inversion Hmsg; subst. exists q. simpl. auto 10.
  - destruct (main.int_field other "fps") as [f|]; [|discriminate].
    inversion Hmsg; subst. exists f. simpl. auto 10.
  - destruct (main.int_field other "monitor") as [m|]; [|discriminate].
    inversion Hmsg; subst. exists m. simpl. auto 10.
Qed.

(** The amended C8 at a [set_sensitivity] and a [set_quality] command. *)
Lemma configuration_commands_witness :
  process_command 1 set_sensitivity_command (__init__ false, world_of []) =
    (Done status_ok, (set_sensitivity (clamp 3) (__init__ false), world_of [])) /\
  screen_capture.quality
    (main.handle_control (main.SetQuality (Some 80))
       (capture_with default_config None None)) = 80.
Proof.
  assert (H1 : dict_get set_sensitivity_command "type" (VStr "") = VStr "set_sensitivity")
    by (vm_compute; reflexivity).
  assert (H2 : as_number (dict_get set_sensitivity_command "value" (VFloat 1)) = Some 3%Q)
    by (vm_compute; reflexivity).
  assert (H3 : dict_get set_quality_command "type" (VStr "") = VStr "set_quality")
    by (vm_compute; reflexivity).
  assert (H4 : In "set_quality"%string ["set_quality"; "set_fps"; "set_monitor"]%string)
    by (simpl; auto).
  assert (H5 : main.decode_control set_quality_command = Some (main.SetQuality (Some 80)))
    by (vm_compute; reflexivity).
  destruct (configuration_commands 1 set_sensitivity_command set_quality_command
              (__init__ false, world_of []) 3%Q "set_quality"
              (main.SetQuality (Some 80)) (capture_with default_config None None)
              H1 H2 H3 H4 H5) as (Ha & _ & Hc).
  split.
  - rewrite Ha. reflexivity.
  - destruct Hc as (q & Hq & Hquality & _). inversion Hq; subst. exact Hquality.
Defined.

(** C9, at the failing input: the compositor backend has no helper yet and
    the helper cannot be spawned.  [ensure_started] runs before the [try]
    of [process_command], so the exception of [Popen] reaches the caller,
    whatever the command. *)
Theorem process_command_raises :
  forall depth command,
    process_command (S depth) command (__init__ true, world_of [Spawned false]) =
    (Thrown PermissionError, (__init__ true, world_of [])).
Proof.
  intros depth command. unfold process_command.
  apply bind_thrown.
  unfold ensure_started, on_backend, __init__, world_of. run_lazy.
  cbn [_backend _ready negb fst snd].
  rewrite (start_spawn_fails depth
             {| script := [Spawned false]; log := []; spawned := 0 |}
             {| _process := None; _ready := false |} [] eq_refl eq_refl).
  reflexivity.
Qed.

End Router.

(* ===================================================================== *)
(** * Single frames and the life of the capture helper                    *)
(* ===================================================================== *)

Section CaptureLife.
Import screen_capture.




(** ** Stopping the helper session *)

(** X5.  [_stop_pipewire_session] never raises, whatever the helper and the
    operating system do; when it returns, the session has no helper and no
    node id (it is left as it was if it had no helper), at most five
    seconds were spent waiting for the helper to exit, the helper is killed
    only after it was asked to terminate, and a second call does
    nothing. *)
Theorem stop_session_never_raises (self : PipeWireSession) (w : world string string) :
  (forall e, fst (_stop_pipewire_session (self, w)) <> Thrown e) /\
  (fst (_stop_pipewire_session (self, w)) = Done tt ->
   fst (snd (_stop_pipewire_session (self, w))) =
     match _pw_session_proc self with Some _ => dead_session | None => self end /\
   spawned (snd (snd (_stop_pipewire_session (self, w)))) = spawned w /\
   (exists did,
      log (snd (snd (_stop_pipewire_session (self, w)))) = log w ++ did /\
      (seconds_waited did <= 5)%Q /\
      started did = [] /\
      (forall proc, In (Kill proc) did -> In (Terminate proc) did)) /\
   _stop_pipewire_session (snd (_stop_pipewire_session (self, w))) =
     (Done tt, snd (_stop_pipewire_session (self, w)))).
Proof.
  destruct self as [node [proc|]]; destruct w as [sc lg k];
    unfold _stop_pipewire_session; run_once.
  2: { split; [discriminate|]. intros _. split; [reflexivity|]. split; [reflexivity|].
       split; [|reflexivity]. exists []. rewrite app_nil_r.
       repeat split; auto; try discriminate; try (intros ? []). }
  destruct sc as [|[| | |[]| | | |] [|[| | | |[]| | |] [|[| | | |[]| | |] sc]]]; simpl.
  all: split; [discriminate|]; intros Hd; try discriminate Hd.
  all: split; [reflexivity|]; split; [reflexivity|]; split; [|reflexivity].
  all: eexists; rewrite <- ?app_assoc; simpl; (split; [reflexivity|]).
  all: simpl; (split; [discriminate|]); (split; [reflexivity|]); intros p; simpl; intuition congruence.
Qed.

(** X5 at a helper that ignores the stop line and the termination signal. *)
Lemma stop_session_never_raises_witness :
  fst (_stop_pipewire_session
         ({| _pw_node_id := Some 42; _pw_session_proc := Some 0%nat |},
          world_of [Written true; Waited false; Waited false])) = Done tt /\
  log (snd (snd (_stop_pipewire_session
         ({| _pw_node_id := Some 42; _pw_session_proc := Some 0%nat |},
          world_of [Written true; Waited false; Waited false])))) =
    [Write 0%nat "stop"%string; Wait 0%nat 3; Terminate 0%nat; Wait 0%nat 2; Kill 0%nat] /\
  fst (snd (_stop_pipewire_session
         ({| _pw_node_id := Some 42; _pw_session_proc := Some 0%nat |},
          world_of [Written true; Waited false; Waited false]))) = dead_session.
Proof.
  assert (H : fst (_stop_pipewire_session
         ({| _pw_node_id := Some 42; _pw_session_proc := Some 0%nat |},
          world_of [Written true; Waited false; Waited false])) = Done tt) by reflexivity.
  refine (conj H (conj eq_refl _)).
  exact (proj1 (proj2 (stop_session_never_raises _ _) H)).
Defined.

(** ** Starting the helper session *)

(** Inversion of a sequence that raised. *)
Lemma bind_thrown_inv {O L P A B} (m : M (O:=O) (L:=L) (P:=P) A) (k : A -> M B) s e s' :
  (m ≫= k) s = (Thrown e, s') ->
  m s = (Thrown e, s') \/ exists a s1, m s = (Done a, s1) /\ k a s1 = (Thrown e, s').
Proof.
  unfold mbind, M_bind, bind. destruct (m s) as [[a|e1| |] s1]; intros H.
  - right. eauto.
  - left. injection H as -> ->. reflexivity.
  - discriminate.
  - discriminate.
Qed.

(** A handler that does not raise makes a [try] statement that lets only
    what is not an [Exception] through. *)
Lemma try_except_thrown {O L P A} (body : M (O:=O) (L:=L) (P:=P) A) handler s e s' :
  (forall e1 s1 e2, fst (handler e1 s1) <> Thrown e2) ->
  try_except body handler s = (Thrown e, s') ->
  body s = (Thrown e, s') /\ is_Exception e = false.
Proof.
  intros Hh. unfold try_except. destruct (body s) as [[a|e1| |] s1] eqn:E; try discriminate.
  destruct (is_Exception e1) eqn:Ee.
  - intros H. exfalso. apply (Hh e1 s1 e). rewrite H. reflexivity.
  - intros [= <- <-]. auto.
Qed.

Lemma stop_session_not_thrown s e : fst (_stop_pipewire_session s) <> Thrown e.
Proof.
  destruct s as [[node [proc|]] [sc lg k]]; unfold _stop_pipewire_session; run_once;
    [|discriminate].
  destruct sc as [|[| | |[]| | | |] [|[| | | |[]| | |] [|[| | | |[]| | |] sc]]]; simpl; discriminate.
Qed.

(** The polling loop raises only for a node line whose id is not a number. *)
Lemma await_node_thrown py_int proc polls : forall s e s',
  await_node py_int polls proc s = (Thrown e, s') -> e = ValueError.
Proof.
  induction polls as [|polls IH]; intros [self [sc lg k]] e s'; simpl.
  - discriminate.
  - run_once. destruct sc as [|[| |line| | | | |] sc]; simpl; try discriminate.
    destruct (String.prefix "NODE:" (default ""%string line)).
    + destruct (py_int _); simpl; [discriminate|]. intros [= <- _]. reflexivity.
    + destruct (String.prefix "ERROR:" (default ""%string line)).
      * pose proof (stop_session_not_thrown
          (self, {| script := sc; log := lg ++ [Select proc (1 # 2)]; spawned := k |})) as Hs.
        destruct (_stop_pipewire_session _) as [[[]|e1| |] s1]; simpl; try discriminate.
        exfalso. apply (Hs e1). reflexivity.
      * apply IH.
Qed.

#[local] Arguments await_node : simpl never.
#[local] Arguments String.prefix : simpl never.
#[local] Arguments _stop_pipewire_session : simpl never.

Lemma start_session_spawned py_int old sc lg k :
  _start_pipewire_session py_int
    ({| _pw_node_id := old; _pw_session_proc := None |},
     {| script := Spawned true :: sc; log := lg; spawned := k |}) =
  try_except
    (returned ← await_node py_int 10 k;
     if returned : bool then ret tt
     else
       self ← get_self;
       match _pw_node_id self with
       | None => _stop_pipewire_session
       | Some _ => ret tt
       end)
    (fun _ => _stop_pipewire_session)
    ({| _pw_node_id := old; _pw_session_proc := Some k |},
     {| script := sc; log := lg ++ [Popen k]; spawned := S k |}).
Proof. reflexivity. Qed.

(** X6.  A session start announces its node.  When the helper can be
    spawned and prints, after fewer than ten polls without status, a line
    that starts with [NODE:] and whose second colon-separated field is a
    number, the session holds that node id and the helper; the helper was
    polled once per line, half a second each at most, and nothing else was
    done to it.  A session that has a helper already is left alone. *)
Theorem capture_start_announced (py_int : string -> option Z)
    (self : PipeWireSession) (w : world string string)
    (lines : list (option string)) (line : string) (node : Z) (rest : list (answer string)) :
  Forall no_status_text lines ->
  (length lines < 10)%nat ->
  String.prefix "NODE:" line = true ->
  py_int (nth 1 (split_on ":" line) ""%string) = Some node ->
  script w = Spawned true :: map Selected lines ++ Selected (Some line) :: rest ->
  (_pw_session_proc self = None ->
   _start_pipewire_session py_int (self, w) =
     (Done tt,
      ({| _pw_node_id := Some node; _pw_session_proc := Some (spawned w) |},
       {| script := rest;
          log := log w ++ Popen (spawned w)
                   :: repeat (Select (spawned w) (1 # 2)) (S (length lines));
          spawned := S (spawned w) |}))) /\
  (_pw_session_proc self <> None ->
   _start_pipewire_session py_int (self, w) = (Done tt, (self, w))).
Proof.
  intros Hq Hlen Hprefix Hint Hscript. destruct w as [sc lg k]. simpl in *. subst sc.
  destruct self as [old [proc|]]; split; intros Hp; simpl in Hp; try congruence.
  - unfold _start_pipewire_session. run_once. reflexivity.
  - unfold _start_pipewire_session. run_once.
    replace 10%nat with (length lines + S (9 - length lines))%nat by lia.
    rewrite (await_node_more py_int k lines _ _ _ _ (S k) Hq).
    unfold await_node; fold (await_node py_int). run_once.
    rewrite Hprefix, Hint. simpl.
    rewrite <- !app_assoc. simpl.
    replace (repeat (Select k (1 # 2)) (length lines) ++ [Select k (1 # 2)])
      with (repeat (@Select string k (1 # 2)) (S (length lines))).
    + reflexivity.
    + change (S (length lines)) with (1 + length lines)%nat.
      rewrite Nat.add_comm, repeat_app. reflexivity.
Qed.

(** X6 at a helper that prints [NODE:42] when it is polled for the third
    time. *)
Lemma capture_start_announced_witness :
  _start_pipewire_session decimal
    (dead_session,
     world_of [Spawned true; Selected None; Selected (Some ""%string);
               Selected (Some "NODE:42"%string); Selected (Some "SESSION:/s"%string)]) =
  (Done tt,
   ({| _pw_node_id := Some 42; _pw_session_proc := Some 0%nat |},
    {| script := [Selected (Some "SESSION:/s"%string)];
       log := [Popen 0%nat; Select 0%nat (1 # 2); Select 0%nat (1 # 2); Select 0%nat (1 # 2)];
       spawned := 1 |})).
Proof.
  assert (H1 : Forall no_status_text [None; Some ""%string]) by (repeat constructor).
  assert (H2 : (length [@None string; Some ""%string] < 10)%nat) by (simpl; lia).
  exact (proj1 (capture_start_announced decimal dead_session
                  (world_of [Spawned true; Selected None; Selected (Some ""%string);
                             Selected (Some "NODE:42"%string);
                             Selected (Some "SESSION:/s"%string)])
                  [None; Some ""%string] "NODE:42" 42 [Selected (Some "SESSION:/s"%string)]
                  H1 H2 eq_refl eq_refl eq_refl) eq_refl).
Defined.

(** X7.  Starting the session raises only if the helper cannot be spawned.
    Everything that goes wrong after the spawn (a node line whose id is not
    a number, a helper that cannot be written to or does not exit) is
    handled inside; when the spawn fails the session is left without
    helper and nothing was done. *)
Theorem capture_start_raises_only_on_spawn (py_int : string -> option Z)
    (self : PipeWireSession) (w : world string string) (e : exn) :
  fst (_start_pipewire_session py_int (self, w)) = Thrown e ->
  e = PermissionError /\
  _pw_session_proc self = None /\
  (exists rest, script w = Spawned false :: rest) /\
  fst (snd (_start_pipewire_session py_int (self, w))) = self /\
  log (snd (snd (_start_pipewire_session py_int (self, w)))) = log w.
Proof.
  destruct self as [old [proc|]]; destruct w as [sc lg k].
  { unfold _start_pipewire_session; run_once. discriminate. }
  destruct sc as [|[[]| | | | | | |] sc];
    try (unfold _start_pipewire_session; run_once; discriminate).
  - rewrite start_session_spawned. intros H. exfalso.
    match type of H with fst (try_except ?b ?h ?s) = _ =>
      destruct (try_except b h s) as [r s'] eqn:E end.
    simpl in H. subst r.
    apply try_except_thrown in E.
    + destruct E as [E Hne].
      apply bind_thrown_inv in E. destruct E as [E|(returned & s1 & _ & E)].
      * apply await_node_thrown in E. subst e. discriminate.
      * destruct returned; [discriminate|].
        apply bind_thrown_inv in E. destruct E as [E|(self1 & s2 & E1 & E)]; [discriminate|].
        injection E1 as <- <-.
        destruct (_pw_node_id (fst s1)); [discriminate|].
        apply (stop_session_not_thrown s1 e). rewrite E. reflexivity.
    + intros ? ? ?. apply stop_session_not_thrown.
  - unfold _start_pipewire_session; run_once. intros [= <-]. repeat split; eauto.
Qed.

(** X7 where [/usr/bin/python3] cannot be executed. *)
Lemma capture_start_raises_only_on_spawn_witness :
  fst (_start_pipewire_session decimal (dead_session, world_of [Spawned false]))
    = Thrown PermissionError /\
  log (snd (snd (_start_pipewire_session decimal (dead_session, world_of [Spawned false]))))
    = [].
Proof.
  assert (H : fst (_start_pipewire_session decimal (dead_session, world_of [Spawned false]))
                = Thrown PermissionError) by reflexivity.
  exact (conj H (proj2 (proj2 (proj2 (proj2
           (capture_start_raises_only_on_spawn decimal _ _ _ H)))))).
Defined.

End CaptureLife.

(* ===================================================================== *)
(** * Acquiring a picture                                                 *)
(* ===================================================================== *)

Section Acquisition.
Import screen_capture acquisition.

Lemma bind_done_inv {O L P A B} (m : M (O:=O) (L:=L) (P:=P) A) (k : A -> M B) s b s' :
  (m ≫= k) s = (Done b, s') ->
  exists a s1, m s = (Done a, s1) /\ k a s1 = (Done b, s').
Proof.
  unfold mbind, M_bind, bind. destruct (m s) as [[a|e1| |] s1]; intros H;
    [eauto|discriminate|discriminate|discriminate].
Qed.

(** The handler of [_capture_image] lets only what is not an [Exception]
    through, and gives no picture only if the direct grab raised. *)
Lemma capture_image_handler env backend monitor (s : Capture * world string string) :
  let handler :=
    (if negb (String.eqb backend "mss") then
       try_except
         (img ← _capture_mss env Handler monitor; ret (Some img))
         (fun _ => ret None)
     else ret None) : C (option image) in
  snd (handler s) = s /\
  (forall e, fst (handler s) = Thrown e -> is_Exception e = false) /\
  fst (handler s) <> Unscripted /\
  (fst (handler s) = Done None -> String.eqb backend "mss" = false ->
   exists e, mss_grab env Handler monitor = Raise e /\ is_Exception e = true).
Proof.
  cbv zeta. destruct (String.eqb backend "mss"); cbn [negb].
  - repeat split; try discriminate.
  - unfold _capture_mss, lift. run_once.
    destruct (mss_grab env Handler monitor) as [img|e]; simpl.
    + repeat split; try discriminate.
    + destruct (is_Exception e) eqn:E; simpl; repeat split; try discriminate; eauto.
      intros ? [= <-]. assumption.
Qed.

(** X8.  [_capture_image] lets no [Exception] out, whatever the backend,
    the helper, the external commands and the display do; and it gives no
    picture only if a direct grab raised: the grab of the direct backend,
    or the one every other backend falls back to. *)
Theorem capture_image_never_raises (py_int : string -> option Z) (env : display)
    (backend : string) (monitor : Z) (s : Capture * world string string) :
  (forall e, fst (_capture_image py_int env backend monitor s) = Thrown e ->
     is_Exception e = false) /\
  (fst (_capture_image py_int env backend monitor s) = Done None ->
   exists where_ e, mss_grab env where_ monitor = Raise e /\ is_Exception e = true).
Proof.
  unfold _capture_image.
  set (body := (img ← _ ; ret (Some img)) : C (option image)).
  set (handler := (if negb (String.eqb backend "mss") then _ else _) : C (option image)).
  unfold try_except.
  destruct (body s) as [[v|e1| |] s1] eqn:Eb.
  - split; [discriminate|]. simpl. intros [= ->].
    apply bind_done_inv in Eb. destruct Eb as (img & s2 & _ & Eb). discriminate Eb.
  - destruct (is_Exception e1) eqn:E1.
    + destruct (capture_image_handler env backend monitor s1) as (_ & Hthrown & _ & Hnone).
      fold handler in Hthrown, Hnone. split; [exact Hthrown|].
      intros Hd. destruct (String.eqb backend "mss") eqn:Em.
      * exists Body, e1. split; [|assumption].
        subst body. revert Eb. rewrite ?Em.
        assert (Hp : String.eqb backend "pipewire" = false).
        { apply String.eqb_eq in Em. subst backend. reflexivity. }
        rewrite Hp. unfold _capture_mss, lift. run_once.
        destruct (mss_grab env Body monitor); simpl; [discriminate|]. intros [= -> _].
        reflexivity.
      * destruct (Hnone Hd eq_refl) as (e & He & Hex). eauto.
    + split; [|discriminate]. simpl. intros ? [= <-]. assumption.
  - split; discriminate.
  - split; discriminate.
Qed.

(** X8 at a screenshot tool that cannot be run, with a display that the
    direct grab cannot open either. *)
Lemma capture_image_never_raises_witness :
  fst (_capture_image decimal
         {| mss_grab := fun _ _ => Raise RuntimeError;
            tool_run := fun _ => {| completed := Raise FileNotFoundError; wrote := None |};
            gst_run := fun _ _ => {| completed := Raise FileNotFoundError; wrote := None |} |}
         "grim" 0 ({| session := dead_session; _tmp_file := None |}, world_of [])) =
    Done None /\
  exists where_ e,
    mss_grab
      {| mss_grab := fun _ _ => Raise RuntimeError;
         tool_run := fun _ => {| completed := Raise FileNotFoundError; wrote := None |};
         gst_run := fun _ _ => {| completed := Raise FileNotFoundError; wrote := None |} |}
      where_ 0 = Raise e /\ is_Exception e = true.
Proof.
  assert (H : fst (_capture_image decimal
         {| mss_grab := fun _ _ => Raise RuntimeError;
            tool_run := fun _ => {| completed := Raise FileNotFoundError; wrote := None |};
            gst_run := fun _ _ => {| completed := Raise FileNotFoundError; wrote := None |} |}
         "grim" 0 ({| session := dead_session; _tmp_file := None |}, world_of [])) =
    Done None) by reflexivity.
  exact (conj H (proj2 (capture_image_never_raises decimal _ "grim" 0 _) H)).
Defined.

(** X9.  A screenshot tool that fails is not noticed.  [_capture_cli] does
    not look at the return code of the tool and does not remove the
    temporary file first: when the tool exits, with whatever code, without
    writing the file, the picture an earlier capture left there is returned
    as the new one, by [_capture_cli] and so by [_capture_image]. *)
Theorem cli_capture_repeats_old_picture (py_int : string -> option Z) (env : display)
    (tool : string) (monitor returncode : Z) (old : image)
    (self : Capture) (w : world string string) :
  In tool cli_tools ->
  tool_run env tool = {| completed := Ok returncode; wrote := None |} ->
  _tmp_file self = Some (Picture old) ->
  _capture_cli env tool (self, w) = (Done old, (self, w)) /\
  _capture_image py_int env tool monitor (self, w) = (Done (Some old), (self, w)).
Proof.
  intros Htool Hrun Hfile. destruct self as [sess file]. simpl in Hfile. subst file.
  assert (Hcli : _capture_cli env tool
                   ({| session := sess; _tmp_file := Some (Picture old) |}, w) =
                 (Done old, ({| session := sess; _tmp_file := Some (Picture old) |}, w))).
  { unfold _capture_cli, subprocess_run. rewrite Hrun.
    destruct Htool as [<-|[<-|[<-|[]]]]; reflexivity. }
  split; [exact Hcli|].
  unfold _capture_image.
  destruct Htool as [<-|[<-|[<-|[]]]]; cbn [String.eqb Ascii.eqb Bool.eqb andb orb];
    unfold try_except, mbind, M_bind, bind; rewrite Hcli; reflexivity.
Qed.

(** X9 at [grim] exiting with code 1 over a full-HD picture of an earlier
    capture. *)
Lemma cli_capture_repeats_old_picture_witness :
  _capture_image decimal
    {| mss_grab := fun _ _ => Raise RuntimeError;
       tool_run := fun _ => {| completed := Ok 1; wrote := None |};
       gst_run := fun _ _ => {| completed := Raise FileNotFoundError; wrote := None |} |}
    "grim" 0
    ({| session := dead_session; _tmp_file := Some (Picture full_hd) |}, world_of []) =
  (Done (Some full_hd),
   ({| session := dead_session; _tmp_file := Some (Picture full_hd) |}, world_of [])).
Proof.
  exact (proj2 (cli_capture_repeats_old_picture decimal
    {| mss_grab := fun _ _ => Raise RuntimeError;
       tool_run := fun _ => {| completed := Ok 1; wrote := None |};
       gst_run := fun _ _ => {| completed := Raise FileNotFoundError; wrote := None |} |}
    "grim" 0 1 full_hd
    {| session := dead_session; _tmp_file := Some (Picture full_hd) |} (world_of [])
    (or_introl eq_refl) eq_refl eq_refl)).
Defined.

(** The part of [_capture_pipewire] and [_capture_pipewire_bytes] after the
    session was looked at, when there is a node id. *)
Lemma capture_pipewire_with_node py_int env node proc file (w : world string string) :
  _capture_pipewire py_int env
    ({| session := {| _pw_node_id := Some node; _pw_session_proc := proc |};
        _tmp_file := file |}, w) =
  let r := gst_run env node 95 in
  let self' := {| session := {| _pw_node_id := Some node; _pw_session_proc := proc |};
                  _tmp_file := wrote r |} in
  match completed r with
  | Raise e => (Thrown e, (self', w))
  | Ok returncode =>
      if negb (returncode =? 0) || negb (exists_ (wrote r)) then
        (on_session _stop_pipewire_session;; raise RuntimeError) (self', w)
      else lift (Image_open (wrote r)) (self', w)
  end.
Proof.
  unfold _capture_pipewire, subprocess_run. run_once.
  destruct (gst_run env node 95) as [[rc|e] [bytes|]]; simpl;
    try destruct (rc =? 0); reflexivity.
Qed.

Lemma capture_pipewire_bytes_with_node py_int env quality node proc file
    (w : world string string) :
  _capture_pipewire_bytes py_int env quality
    ({| session := {| _pw_node_id := Some node; _pw_session_proc := proc |};
        _tmp_file := file |}, w) =
  let r := gst_run env node quality in
  let self' := {| session := {| _pw_node_id := Some node; _pw_session_proc := proc |};
                  _tmp_file := wrote r |} in
  match completed r with
  | Raise e => (Thrown e, (self', w))
  | Ok returncode =>
      if negb (returncode =? 0) || negb (exists_ (wrote r)) then
        (on_session _stop_pipewire_session;; ret None) (self', w)
      else (Done (wrote r), (self', w))
  end.
Proof.
  unfold _capture_pipewire_bytes, subprocess_run. run_once.
  destruct (gst_run env node quality) as [[rc|e] [bytes|]]; simpl;
    try destruct (rc =? 0); reflexivity.
Qed.

(** The same without node id: the session is started first. *)
Lemma capture_pipewire_without_node py_int env self (w : world string string) :
  _pw_node_id (session self) = None ->
  _capture_pipewire py_int env (self, w) =
  match on_session (_start_pipewire_session py_int) (self, w) with
  | (Done _, (self1, w1)) =>
      match _pw_node_id (session self1) with
      | None => (Thrown RuntimeError, (self1, w1))
      | Some _ => _capture_pipewire py_int env (self1, w1)
      end
  | (Thrown e, s1) => (Thrown e, s1)
  | (Unscripted, s1) => (Unscripted, s1)
  | (Blocked, s1) => (Blocked, s1)
  end.
Proof.
  intros Hnone. unfold _capture_pipewire at 1.
  unfold mbind, M_bind, bind, get_self. cbn [fst snd]. rewrite Hnone.
  destruct (on_session (_start_pipewire_session py_int) (self, w))
    as [[[]|e| |] [[[[node1|] proc1] file1] w1]]; reflexivity.
Qed.

Lemma capture_pipewire_bytes_without_node py_int env quality self (w : world string string) :
  _pw_node_id (session self) = None ->
  _capture_pipewire_bytes py_int env quality (self, w) =
  match on_session (_start_pipewire_session py_int) (self, w) with
  | (Done _, (self1, w1)) =>
      match _pw_node_id (session self1) with
      | None => (Done None, (self1, w1))
      | Some _ => _capture_pipewire_bytes py_int env quality (self1, w1)
      end
  | (Thrown e, s1) => (Thrown e, s1)
  | (Unscripted, s1) => (Unscripted, s1)
  | (Blocked, s1) => (Blocked, s1)
  end.
Proof.
  intros Hnone. unfold _capture_pipewire_bytes at 1.
  unfold mbind, M_bind, bind, get_self. cbn [fst snd]. rewrite Hnone.
  destruct (on_session (_start_pipewire_session py_int) (self, w))
    as [[[]|e| |] [[[[node1|] proc1] file1] w1]]; reflexivity.
Qed.

(** Stopping the session inside a capture does not raise. *)
Lemma on_session_stop_not_thrown (s : Capture * world string string) e :
  fst (on_session _stop_pipewire_session s) <> Thrown e.
Proof.
  unfold on_session.
  pose proof (stop_session_not_thrown (session (fst s), snd s) e) as H.
  destruct (_stop_pipewire_session (session (fst s), snd s)) as [r [sess' w']].
  exact H.
Qed.

(** X10.  A picture from [_capture_pipewire] is a new one.  Whenever
    [_capture_pipewire] returns a picture, the session has a node id,
    GStreamer was run for that node, exited with code 0 and wrote this
    picture to the temporary file. *)
Theorem pipewire_capture_is_fresh (py_int : string -> option Z) (env : display)
    (s : Capture * world string string) (img : image) :
  fst (_capture_pipewire py_int env s) = Done img ->
  exists node,
    _pw_node_id (session (fst (snd (_capture_pipewire py_int env s)))) = Some node /\
    completed (gst_run env node 95) = Ok 0 /\
    wrote (gst_run env node 95) = Some (Picture img) /\
    _tmp_file (fst (snd (_capture_pipewire py_int env s))) = Some (Picture img).
Proof.
  assert (Hnode : forall node proc file w,
    fst (_capture_pipewire py_int env
           ({| session := {| _pw_node_id := Some node; _pw_session_proc := proc |};
               _tmp_file := file |}, w)) = Done img ->
    exists node',
      _pw_node_id (session (fst (snd (_capture_pipewire py_int env
           ({| session := {| _pw_node_id := Some node; _pw_session_proc := proc |};
               _tmp_file := file |}, w))))) = Some node' /\
      completed (gst_run env node' 95) = Ok 0 /\
      wrote (gst_run env node' 95) = Some (Picture img) /\
      _tmp_file (fst (snd (_capture_pipewire py_int env
           ({| session := {| _pw_node_id := Some node; _pw_session_proc := proc |};
               _tmp_file := file |}, w)))) = Some (Picture img)).
  { intros node proc file w. rewrite capture_pipewire_with_node. cbv zeta.
    destruct (gst_run env node 95) as [[rc|e] bytes] eqn:Eg; cbn [completed wrote];
      [|discriminate].
    destruct (Z.eqb_spec rc 0) as [->|Hrc]; cbn [negb orb].
    - destruct bytes as [[pic|]|]; cbn [exists_ negb].
      + simpl. intros [= ->]. exists node. rewrite Eg. auto.
      + discriminate.
      + unfold mbind, M_bind, bind.
        destruct (on_session _stop_pipewire_session _) as [[[]|?| |] ?]; discriminate.
    - unfold mbind, M_bind, bind.
      destruct (on_session _stop_pipewire_session _) as [[[]|?| |] ?]; discriminate. }
  destruct s as [[[[node|] proc] file] w].
  - apply Hnode.
  - rewrite capture_pipewire_without_node by reflexivity.
    destruct (on_session (_start_pipewire_session py_int) _)
      as [[[]|e| |] [[[[node|] proc1] file1] w1]]; try discriminate.
    apply Hnode.
Qed.

(** X10 at a session that is running already. *)
Lemma pipewire_capture_is_fresh_witness :
  fst (_capture_pipewire decimal
         {| mss_grab := fun _ _ => Raise RuntimeError;
            tool_run := fun _ => {| completed := Ok 1; wrote := None |};
            gst_run := fun _ _ => {| completed := Ok 0; wrote := Some (Picture full_hd) |} |}
         ({| session := {| _pw_node_id := Some 42; _pw_session_proc := Some 0%nat |};
             _tmp_file := Some Garbage |}, world_of [])) = Done full_hd /\
  exists node,
    completed (gst_run
      {| mss_grab := fun _ _ => Raise RuntimeError;
         tool_run := fun _ => {| completed := Ok 1; wrote := None |};
         gst_run := fun _ _ => {| completed := Ok 0; wrote := Some (Picture full_hd) |} |}
      node 95) = Ok 0.
Proof.
  split; [reflexivity |].
  destruct (pipewire_capture_is_fresh decimal
    {| mss_grab := fun _ _ => Raise RuntimeError;
       tool_run := fun _ => {| completed := Ok 1; wrote := None |};
       gst_run := fun _ _ => {| completed := Ok 0; wrote := Some (Picture full_hd) |} |}
    ({| session := {| _pw_node_id := Some 42; _pw_session_proc := Some 0%nat |};
        _tmp_file := Some Garbage |}, world_of []) full_hd eq_refl)
    as (node & _ & H & _).
  exists node. exact H.
Defined.

(** X11.  The two copies of the GStreamer capture agree.  From the same
    state, [_capture_pipewire_bytes(quality=95)] and [_capture_pipewire]
    leave the same state behind; the first returns [None] exactly where the
    second raises [RuntimeError], it returns the bytes of the file where
    the second returns the picture they hold (and where the second raises
    because the bytes are no picture), and both let the same exceptions
    through. *)
Theorem pipewire_captures_agree (py_int : string -> option Z) (env : display)
    (s : Capture * world string string) :
  snd (_capture_pipewire_bytes py_int env 95 s) = snd (_capture_pipewire py_int env s) /\
  match fst (_capture_pipewire_bytes py_int env 95 s) with
  | Done None => fst (_capture_pipewire py_int env s) = Thrown RuntimeError
  | Done (Some (Picture img)) => fst (_capture_pipewire py_int env s) = Done img
  | Done (Some Garbage) => fst (_capture_pipewire py_int env s) = Thrown PermissionError
  | Thrown e => fst (_capture_pipewire py_int env s) = Thrown e
  | Unscripted => fst (_capture_pipewire py_int env s) = Unscripted
  | Blocked => fst (_capture_pipewire py_int env s) = Blocked
  end.
Proof.
  assert (Hnode : forall node proc file w,
    let s := ({| session := {| _pw_node_id := Some node; _pw_session_proc := proc |};
                 _tmp_file := file |}, w) in
    snd (_capture_pipewire_bytes py_int env 95 s) = snd (_capture_pipewire py_int env s) /\
    match fst (_capture_pipewire_bytes py_int env 95 s) with
    | Done None => fst (_capture_pipewire py_int env s) = Thrown RuntimeError
    | Done (Some (Picture img)) => fst (_capture_pipewire py_int env s) = Done img
    | Done (Some Garbage) => fst (_capture_pipewire py_int env s) = Thrown PermissionError
    | Thrown e => fst (_capture_pipewire py_int env s) = Thrown e
    | Unscripted => fst (_capture_pipewire py_int env s) = Unscripted
    | Blocked => fst (_capture_pipewire py_int env s) = Blocked
    end).
  { intros node proc file w. cbv zeta.
    rewrite capture_pipewire_with_node, capture_pipewire_bytes_with_node. cbv zeta.
    destruct (gst_run env node 95) as [[rc|e] bytes]; cbn [completed wrote];
      [|split; reflexivity].
    destruct (negb (rc =? 0) || negb (exists_ bytes)) eqn:Ec.
    - unfold mbind, M_bind, bind.
      pose proof (on_session_stop_not_thrown
        ({| session := {| _pw_node_id := Some node; _pw_session_proc := proc |};
            _tmp_file := bytes |}, w)) as Hs.
      destruct (on_session _stop_pipewire_session _) as [[[]|e| |] s1]; simpl; auto.
    - destruct bytes as [[pic|]|]; simpl; auto.
      destruct (rc =? 0); discriminate. }
  destruct s as [[[[node|] proc] file] w].
  - apply Hnode.
  - rewrite capture_pipewire_without_node, capture_pipewire_bytes_without_node by reflexivity.
    destruct (on_session (_start_pipewire_session py_int) _)
      as [[[]|e| |] [[[[node|] proc1] file1] w1]]; try (split; reflexivity).
    apply Hnode.
Qed.

(** X12.  One failed GStreamer run ends the session.  On the compositor
    backend, with a session that has a node id and a helper, a GStreamer
    run that exits with a non-zero code or without writing the file makes
    [_capture_image] stop the helper (the stop line is written or the
    helper is terminated), clear the session, and return what the direct
    grab of the handler gives: its picture, or [None] if it raises. *)
Theorem gst_failure_ends_session (py_int : string -> option Z) (env : display)
    (monitor node returncode : Z) (proc : nat) (file : option content)
    (tail rest : list (answer string)) (lg : list (action string)) (k : nat) :
  completed (gst_run env node 95) = Ok returncode ->
  returncode <> 0 \/ wrote (gst_run env node 95) = None ->
  stop_answers tail = true ->
  exists did,
    _capture_image py_int env "pipewire" monitor
      ({| session := {| _pw_node_id := Some node; _pw_session_proc := Some proc |};
          _tmp_file := file |},
       {| script := tail ++ rest; log := lg; spawned := k |}) =
    (match mss_grab env Handler monitor with
     | Ok img => Done (Some img)
     | Raise e => if is_Exception e then Done None else Thrown e
     end,
     ({| session := dead_session; _tmp_file := wrote (gst_run env node 95) |},
      {| script := rest; log := lg ++ did; spawned := k |})) /\
    (In (Write proc "stop"%string) did \/ In (Terminate proc) did).
Proof.
  intros Hrc Hfail Htail.
  destruct (stop_session_scripted proc (Some node) tail rest lg k Htail)
    as (did & Hstop & _ & _ & Hsig).
  exists did. split; [|exact Hsig].
  unfold _capture_image. cbn [String.eqb Ascii.eqb Bool.eqb andb negb].
  unfold try_except at 1. unfold mbind at 1, M_bind at 1, bind at 1.
  rewrite capture_pipewire_with_node. cbv zeta. rewrite Hrc.
  assert (Hc : negb (returncode =? 0) || negb (exists_ (wrote (gst_run env node 95))) = true).
  { destruct Hfail as [Hne|Hnone].
    - destruct (Z.eqb_spec returncode 0); [contradiction|reflexivity].
    - rewrite Hnone. apply orb_true_r. }
  rewrite Hc. unfold mbind, M_bind, bind, on_session. cbn [fst snd session].
  rewrite Hstop. cbn [raise is_Exception set_session fst snd session _tmp_file].
  unfold _capture_mss, lift, try_except.
  destruct (mss_grab env Handler monitor) as [img|e]; cbn [ret raise].
  - reflexivity.
  - destruct (is_Exception e); reflexivity.
Qed.

(** X12 at a GStreamer that exits with code 1, a helper that obeys the
    stop line, and a direct grab that cannot open the display. *)
Lemma gst_failure_ends_session_witness :
  exists did,
    _capture_image decimal
      {| mss_grab := fun _ _ => Raise RuntimeError;
         tool_run := fun _ => {| completed := Ok 1; wrote := None |};
         gst_run := fun _ _ => {| completed := Ok 1; wrote := None |} |}
      "pipewire" 0
      ({| session := {| _pw_node_id := Some 42; _pw_session_proc := Some 0%nat |};
          _tmp_file := Some (Picture full_hd) |},
       {| script := [Written true; Waited true] ++ []; log := []; spawned := 1 |}) =
    (Done None,
     ({| session := dead_session; _tmp_file := None |},
      {| script := []; log := [] ++ did; spawned := 1 |})).
Proof.
  pose proof (gst_failure_ends_session decimal
      {| mss_grab := fun _ _ => Raise RuntimeError;
         tool_run := fun _ => {| completed := Ok 1; wrote := None |};
         gst_run := fun _ _ => {| completed := Ok 1; wrote := None |} |}
      0 42 1 0%nat (Some (Picture full_hd)) [Written true; Waited true] [] [] 1%nat) as H.
  assert (H1 : (1 : Z) <> 0) by discriminate.
  specialize (H eq_refl (or_introl H1) eq_refl).
  destruct H as (did & H & _).
  exists did. exact H.
Defined.

End Acquisition.

(* ===================================================================== *)
(** * The input helper over several calls                                 *)
(* ===================================================================== *)

Section InputLife.
Import input_handler.

#[local] Arguments await_ready : simpl never.
#[local] Arguments start : simpl never.
#[local] Arguments dict_get : simpl never.

(** [start] leaves a helper that is still running alone, ready or not. *)
Lemma start_already_running depth proc ready rest lg k :
  start (S depth)
    ({| _process := Some proc; _ready := ready |},
     {| script := Running true :: rest; log := lg; spawned := k |}) =
  (Done tt,
   ({| _process := Some proc; _ready := ready |},
    {| script := rest; log := lg; spawned := k |})).
Proof. rewrite start_unfold. unfold start_calling. run_lazy. reflexivity. Qed.

(** A call on a backend whose helper is running but not ready. *)
Lemma send_on_unready_helper depth command proc rest lg k :
  _send (S depth) command
    ({| _process := Some proc; _ready := false |},
     {| script := Running true :: rest; log := lg; spawned := k |}) =
  (Done (status_error (Text "Input backend not available")),
   ({| _process := Some proc; _ready := false |},
    {| script := rest; log := lg; spawned := k |})).
Proof.
  unfold _send.
  apply send_when_restart_fails; [reflexivity| |reflexivity].
  apply start_already_running.
Qed.

(** X13.  One reply that is not JSON disables the compositor backend for
    as long as the helper keeps running.  The reply makes [_send] clear the
    ready flag and keep the helper; from then on every call finds the
    backend not ready, runs [start], which returns at once because the
    helper is running, and reports that the backend is not available:
    nothing is written to the helper, no helper is spawned, and the backend
    is as before, so the next call fares the same. *)
Theorem garbled_reply_disables_backend (depth : nat) (command later : gmap string pyval)
    (proc : nat) (rest : list (answer helper_line)) (lg : list (action payload)) (k : nat) :
  _send depth command
    ({| _process := Some proc; _ready := true |},
     {| script := Running true :: Written true :: Selected (Some NotJson) :: rest;
        log := lg; spawned := k |}) =
  (Done (status_error (StrOf JSONDecodeError)),
   ({| _process := Some proc; _ready := false |},
    {| script := rest;
       log := lg ++ [Write proc (JsonLine command); Select proc 2];
       spawned := k |})) /\
  _send (S depth) later
    ({| _process := Some proc; _ready := false |},
     {| script := Running true :: rest; log := lg; spawned := k |}) =
  (Done (status_error (Text "Input backend not available")),
   ({| _process := Some proc; _ready := false |},
    {| script := rest; log := lg; spawned := k |})).
Proof.
  split.
  - unfold _send, _send_calling, the_process. run_lazy.
    rewrite <- app_assoc. reflexivity.
  - apply send_on_unready_helper.
Qed.

(** X14.  On the compositor backend a command that was not delivered is
    answered with success.  With a helper that is running but not ready,
    [process_command] finds the backend unavailable twice (in
    [ensure_started] and in [_send]), writes nothing to the helper, and
    still returns [{"status": "ok"}], because the methods of the backend
    drop what [_send] returns; [mouse_down] and [mouse_up] set and clear
    the drag flag as if the button had moved. *)
Theorem undelivered_command_reported_ok (depth : nat) (command : gmap string pyval)
    (ty : string) (sens : Q) (drag : bool) (proc : nat)
    (rest : list (answer helper_line)) (lg : list (action payload)) (k : nat) :
  dict_get command "type" (VStr "") = VStr ty ->
  In ty ["mouse_scroll"; "mouse_down"; "mouse_up"; "key_press"; "key_combo";
         "type_text"]%string ->
  process_command (S depth) command
    ({| _sensitivity := sens; _drag_active := drag;
        _backend := Wayland {| _process := Some proc; _ready := false |} |},
     {| script := Running true :: Running true :: rest; log := lg; spawned := k |}) =
  (Done status_ok,
   ({| _sensitivity := sens;
       _drag_active :=
         if String.eqb ty "mouse_down" then true
         else if String.eqb ty "mouse_up" then false
         else drag;
       _backend := Wayland {| _process := Some proc; _ready := false |} |},
    {| script := rest; log := lg; spawned := k |})).
Proof.
  intros Hty Hin. unfold process_command. rewrite Hty.
  unfold ensure_started at 1. unfold mbind at 1, M_bind at 1, bind at 1.
  unfold mbind at 1, M_bind at 1, bind at 1, get_self at 1.
  cbn [fst snd _backend _ready negb]. unfold on_backend at 1. cbn [fst snd].
  rewrite start_already_running. cbn [fst snd set_backend _sensitivity _drag_active].
  destruct Hin as [<-|[<-|[<-|[<-|[<-|[<-|[]]]]]]]; literal;
    unfold backend_call, wayland, try_except, mbind, M_bind, bind, get_self, on_backend;
    cbn [fst snd _backend set_backend _sensitivity _drag_active];
    rewrite send_on_unready_helper; reflexivity.
Qed.

(** X14 at a [mouse_down] for the left button. *)
Lemma undelivered_command_reported_ok_witness :
  fst (process_command 1 {[ "type"%string := VStr "mouse_down" ]}
         ({| _sensitivity := 1; _drag_active := false;
             _backend := Wayland {| _process := Some 0%nat; _ready := false |} |},
          {| script := [Running true; Running true]; log := []; spawned := 1 |})) =
  Done status_ok.
Proof.
  exact (f_equal fst
    (undelivered_command_reported_ok 0 {[ "type"%string := VStr "mouse_down" ]}
       "mouse_down" 1 false 0%nat [] [] 1%nat eq_refl
       (or_intror (or_introl eq_refl)))).
Defined.

(** X15.  The input helper becomes ready.  When the helper can be spawned
    and prints, after fewer than twenty polls without status, an object
    whose status is [ready], [start] returns with the ready flag set and
    the helper kept; the helper was polled once per line and nothing was
    written to it.  A helper that is still running is left alone, whether
    the backend is ready or not: only the run state of the process is
    looked at. *)
Theorem input_start_ready (depth : nat) (lines : list (option helper_line))
    (data : gmap string pyval) (rest : list (answer helper_line))
    (lg : list (action payload)) (k : nat) :
  Forall no_status_line lines ->
  (length lines < 20)%nat ->
  is_str (status_of_line data) "ready" = true ->
  start (S depth)
    (dead_backend,
     {| script := Spawned true :: map Selected lines
                    ++ Selected (Some (Json (VDict data))) :: rest;
        log := lg; spawned := k |}) =
  (Done tt,
   ({| _process := Some k; _ready := true |},
    {| script := rest;
       log := lg ++ Popen k :: repeat (Select k (1 # 2)) (S (length lines));
       spawned := S k |})) /\
  forall proc ready,
    start (S depth)
      ({| _process := Some proc; _ready := ready |},
       {| script := Running true :: rest; log := lg; spawned := k |}) =
    (Done tt,
     ({| _process := Some proc; _ready := ready |},
      {| script := rest; log := lg; spawned := k |})).
Proof.
  intros Hq Hlen Hready. split; [|intros; apply start_already_running].
  rewrite start_unfold. unfold start_calling, dead_backend. run_lazy.
  replace (await_ready 20) with (await_ready (length lines + S (19 - length lines)))
    by (f_equal; lia).
  rewrite (await_ready_more k lines _ _ _ _ (S k) Hq).
  unfold await_ready; fold await_ready. run_lazy.
  fold (status_of_line data). rewrite Hready. run_lazy.
  rewrite <- !app_assoc. cbn [app].
  replace (repeat (Select k (1 # 2)) (length lines) ++ [Select k (1 # 2)])
    with (repeat (@Select payload k (1 # 2)) (S (length lines))).
  - reflexivity.
  - change (S (length lines)) with (1 + length lines)%nat.
    rewrite Nat.add_comm, repeat_app. reflexivity.
Qed.

(** X15 at a helper that prints its ready line when polled for the second
    time. *)
Lemma input_start_ready_witness :
  start 1
    (dead_backend,
     {| script := Spawned true :: map Selected [None]
          ++ Selected (Some (Json (VDict {[ "status"%string := VStr "ready" ]}))) :: [];
        log := []; spawned := 0 |}) =
  (Done tt,
   ({| _process := Some 0%nat; _ready := true |},
    {| script := [];
       log := [] ++ Popen 0%nat :: repeat (Select 0%nat (1 # 2)) (S (length [@None helper_line]));
       spawned := 1 |})).
Proof.
  assert (H1 : Forall no_status_line [None]) by (repeat constructor).
  assert (H2 : (length [@None helper_line] < 20)%nat) by (simpl; lia).
  exact (proj1 (input_start_ready 0 [None] {[ "status"%string := VStr "ready" ]} [] [] 0%nat
                  H1 H2 eq_refl)).
Defined.

End InputLife.

(* ===================================================================== *)
(** * The sensitivity                                                     *)
(* ===================================================================== *)

Section Sensitivity.
Import input_handler.

#[local] Arguments start : simpl never.
#[local] Arguments dict_get : simpl never.

Lemma keeps_range_bind {A B} (m : H A) (k : A -> H B) :
  keeps_range m -> (forall a, keeps_range (k a)) -> keeps_range (m ≫= k).
Proof.
  intros Hm Hk s Hs. unfold mbind, M_bind, bind.
  specialize (Hm s Hs). destruct (m s) as [[a|e| |] s1]; simpl in *; auto.
  apply Hk. assumption.
Qed.

Lemma keeps_range_try {A} (body : H A) handler :
  keeps_range body -> (forall e, keeps_range (handler e)) ->
  keeps_range (try_except body handler).
Proof.
  intros Hb Hh s Hs. unfold try_except.
  specialize (Hb s Hs). destruct (body s) as [[a|e| |] s1]; simpl in *; auto.
  destruct (is_Exception e); simpl; auto. apply Hh. assumption.
Qed.

Lemma keeps_range_ret {A} (a : A) : keeps_range (ret a).
Proof. intros s Hs. exact Hs. Qed.

Lemma keeps_range_on_backend {A} b (m : W A) : keeps_range (on_backend b m).
Proof.
  intros s Hs. unfold on_backend. destruct (m (b, snd s)) as [r [b' w']]. exact Hs.
Qed.

Lemma keeps_range_external p : keeps_range (external p).
Proof.
  intros [self [sc lg k]] Hs. unfold external. run_once.
  destruct sc as [|[| | | | |[]| |] sc]; exact Hs.
Qed.

Lemma keeps_range_backend_call depth c : keeps_range (backend_call depth c).
Proof.
  intros s Hs. unfold backend_call. unfold mbind, M_bind, bind, get_self. cbn [fst snd].
  destruct (_backend (fst s)).
  - destruct c; apply keeps_range_external; exact Hs.
  - apply keeps_range_on_backend. exact Hs.
Qed.

Lemma keeps_range_ensure_started depth : keeps_range (ensure_started depth).
Proof.
  intros s Hs. unfold ensure_started. unfold mbind, M_bind, bind, get_self. cbn [fst snd].
  destruct (_backend (fst s)) as [|b]; [exact Hs|].
  destruct (negb (_ready b)); [|exact Hs].
  apply keeps_range_on_backend. exact Hs.
Qed.

Lemma keeps_range_scaled x : keeps_range (scaled x).
Proof.
  intros s Hs. unfold scaled. unfold mbind, M_bind, bind, get_self. cbn [fst snd].
  destruct (as_number x); [exact Hs|]. destruct x; exact Hs.
Qed.

Lemma keeps_range_set_drag v : keeps_range (modify_self (set_drag_active v)).
Proof. intros s Hs. exact Hs. Qed.

(** What the setter stores is in range. *)
Lemma clamp_in_range v : ((1 # 10) <= clamp v <= 5)%Q.
Proof.
  unfold clamp, py_max, py_min.
  destruct (Qlt_bool v 5) eqn:E5.
  - apply Qlt_bool_iff in E5.
    destruct (Qlt_bool (1 # 10) v) eqn:E1.
    + apply Qlt_bool_iff in E1. split; apply Qlt_le_weak; assumption.
    + split; [apply Qle_refl|discriminate].
  - destruct (Qlt_bool (1 # 10) 5) eqn:E1; split; try apply Qle_refl; discriminate.
Qed.

Lemma keeps_range_setter value : keeps_range (sensitivity_setter value).
Proof.
  intros s Hs. unfold sensitivity_setter.
  destruct (as_number value) as [v|]; [|exact Hs].
  apply clamp_in_range.
Qed.

Lemma keeps_range_clipboard command : keeps_range (_handle_clipboard command).
Proof.
  unfold _handle_clipboard. apply keeps_range_try; [|intros; apply keeps_range_ret].
  destruct (is_str _ _).
  - apply keeps_range_bind; [apply keeps_range_external|intros; apply keeps_range_ret].
  - intros [self [sc lg k]] Hs. run_once.
    destruct sc as [|[| | | | |[]| |] sc]; exact Hs.
Qed.

(** X16.  The sensitivity stays between 0.1 and 5.  It is 1 after
    construction, and no command, whatever it contains and whatever the
    backend and the helper do, whether [process_command] returns or raises,
    takes it out of that range. *)
Theorem sensitivity_stays_in_range (depth : nat) (command : gmap string pyval)
    (s : InputHandler * world helper_line payload) :
  sensitivity_in_range (fst s) ->
  sensitivity_in_range (fst (snd (process_command depth command s))).
Proof.
  revert s. change (keeps_range (process_command depth command)).
  unfold process_command.
  apply keeps_range_bind; [apply keeps_range_ensure_started|intros _].
  apply keeps_range_try; [|intros; apply keeps_range_ret].
  repeat match goal with
  | |- keeps_range (if ?c then _ else _) => destruct c
  | |- keeps_range (_ ≫= _) => apply keeps_range_bind; [|intros]
  | |- keeps_range (ret _) => apply keeps_range_ret
  | |- keeps_range (mret _) => apply keeps_range_ret
  | |- keeps_range (backend_call _ _) => apply keeps_range_backend_call
  | |- keeps_range (scaled _) => apply keeps_range_scaled
  | |- keeps_range (modify_self (set_drag_active _)) => apply keeps_range_set_drag
  | |- keeps_range (sensitivity_setter _) => apply keeps_range_setter
  | |- keeps_range (_handle_clipboard _) => apply keeps_range_clipboard
  end.
Qed.

(** X16 from construction on, at a command that asks for a sensitivity of
    3. *)
Lemma sensitivity_stays_in_range_witness :
  sensitivity_in_range (fst (__init__ false, @world_of helper_line payload [])) /\
  sensitivity_in_range
    (fst (snd (process_command 1 set_sensitivity_command (__init__ false, world_of [])))).
Proof.
  assert (H : sensitivity_in_range (fst (__init__ false, @world_of helper_line payload [])))
    by (split; discriminate).
  exact (conj H (sensitivity_stays_in_range 1 set_sensitivity_command _ H)).
Defined.

End Sensitivity.

(* ===================================================================== *)
(** * Key names                                                           *)
(* ===================================================================== *)

Section KeyNames.
Import X11InputBackend wayland_input.

Lemma lower_char_idempotent c : str.lower_char (str.lower_char c) = str.lower_char c.
Proof. destruct c as [[] [] [] [] [] [] [] []]; reflexivity. Qed.

Lemma lower_idempotent s : str.lower (str.lower s) = str.lower s.
Proof.
  induction s as [|c s IH]; [reflexivity|].
  cbn [str.lower]. rewrite lower_char_idempotent, IH. reflexivity.
Qed.

Lemma lower_length s : String.length (str.lower s) = String.length s.
Proof. induction s as [|c s IH]; [reflexivity|]. cbn [str.lower String.length]. lia. Qed.

Lemma len_lower s : str.len (str.lower s) = str.len s.
Proof. unfold str.len. rewrite lower_length. reflexivity. Qed.

(** A key that [get] finds is a key of an item. *)
Lemma get_In {V} (items : list (string * V)) key v :
  str.get items key = Some v -> In (key, v) items.
Proof.
  induction items as [|[k w] items IH]; [discriminate|].
  cbn [str.get]. destruct (str.get items key) as [v'|].
  - intros [= ->]. right. apply IH. reflexivity.
  - destruct (String.eqb_spec k key) as [->|_]; [|discriminate].
    intros [= ->]. left. reflexivity.
Qed.

(** A property of all items holds of what [get] finds. *)
Lemma get_forallb {V} (p : string * V -> bool) (items : list (string * V)) key v :
  forallb p items = true -> str.get items key = Some v -> p (key, v) = true.
Proof.
  intros Hall Hget. apply get_In in Hget.
  rewrite forallb_forall in Hall. apply Hall. assumption.
Qed.

Lemma or_else_some v b : v <> ""%string -> or_else (Some v) b = v.
Proof.
  intros Hv. unfold or_else. destruct (String.eqb_spec v ""); [contradiction|reflexivity].
Qed.

(** The keys of the two tables of the direct backend are longer than one
    character, and their values are not empty and resolve to
    themselves. *)
Lemma x11_tables_canonical :
  forallb (fun item : string * string =>
             negb (str.len (fst item) =? 1) && negb (String.eqb (snd item) "")
             && String.eqb (_resolve_key (snd item)) (snd item))
          (MODIFIER_MAP ++ SPECIAL_KEYS) = true.
Proof. vm_compute. reflexivity. Qed.

Lemma x11_table_item key v :
  str.get MODIFIER_MAP key = Some v \/ str.get SPECIAL_KEYS key = Some v ->
  str.len key <> 1 /\ v <> ""%string /\ _resolve_key v = v.
Proof.
  intros H.
  assert (Hin : In (key, v) (MODIFIER_MAP ++ SPECIAL_KEYS)).
  { apply in_or_app. destruct H as [H|H]; [left|right]; apply get_In; assumption. }
  pose proof x11_tables_canonical as Hall. rewrite forallb_forall in Hall.
  specialize (Hall _ Hin). cbn [fst snd] in Hall.
  apply andb_true_iff in Hall. destruct Hall as [Hall H3].
  apply andb_true_iff in Hall. destruct Hall as [H1 H2].
  apply negb_true_iff in H1, H2.
  repeat split.
  - intros Hl. rewrite Hl in H1. discriminate.
  - intros ->. discriminate.
  - apply String.eqb_eq. assumption.
Qed.

(** [_resolve_key] without the truth tests of [or]: no value of the tables
    is empty. *)
Lemma resolve_key_eq key :
  _resolve_key key =
  match str.get MODIFIER_MAP (str.lower key) with
  | Some v => v
  | None =>
      match str.get SPECIAL_KEYS (str.lower key) with
      | Some v => v
      | None => if str.len key =? 1 then key else str.lower key
      end
  end.
Proof.
  unfold _resolve_key. cbv zeta.
  destruct (str.get MODIFIER_MAP (str.lower key)) as [v|] eqn:Em.
  - destruct (x11_table_item _ v (or_introl Em)) as (_ & Hv & _).
    apply or_else_some. assumption.
  - cbn [or_else]. destruct (str.get SPECIAL_KEYS (str.lower key)) as [v|] eqn:Es.
    + destruct (x11_table_item _ v (or_intror Es)) as (_ & Hv & _).
      apply or_else_some. assumption.
    + reflexivity.
Qed.

(** X17.  Key names of the direct backend.  [_resolve_key] maps every name
    to one that it leaves alone; a name of any length other than one is
    looked up without regard to case (and comes back in lower case if it is
    in neither table), while a single character is returned as it is, case
    included. *)
Theorem resolve_key_canonical (key : string) :
  _resolve_key (_resolve_key key) = _resolve_key key /\
  (str.len key <> 1 -> _resolve_key key = _resolve_key (str.lower key)) /\
  (str.len key = 1 -> _resolve_key key = key).
Proof.
  assert (Hlow : str.len key <> 1 -> _resolve_key key = _resolve_key (str.lower key)).
  { intros Hl. rewrite (resolve_key_eq key), (resolve_key_eq (str.lower key)).
    rewrite lower_idempotent, len_lower.
    destruct (Z.eqb_spec (str.len key) 1); [contradiction|reflexivity]. }
  split; [|split; [exact Hlow|]].
  - rewrite (resolve_key_eq key).
    destruct (str.get MODIFIER_MAP (str.lower key)) as [v|] eqn:Em.
    { apply (x11_table_item _ v (or_introl Em)). }
    destruct (str.get SPECIAL_KEYS (str.lower key)) as [v|] eqn:Es.
    { apply (x11_table_item _ v (or_intror Es)). }
    destruct (Z.eqb_spec (str.len key) 1) as [Hl|Hl].
    + rewrite resolve_key_eq, Em, Es.
      destruct (Z.eqb_spec (str.len key) 1); [reflexivity|contradiction].
    + rewrite resolve_key_eq, lower_idempotent, Em, Es, len_lower.
      destruct (Z.eqb_spec (str.len key) 1); [contradiction|reflexivity].
  - intros Hl. rewrite resolve_key_eq.
    destruct (str.get MODIFIER_MAP (str.lower key)) as [v|] eqn:Em.
    { destruct (x11_table_item _ v (or_introl Em)) as (Hlen & _).
      rewrite len_lower in Hlen. contradiction. }
    destruct (str.get SPECIAL_KEYS (str.lower key)) as [v|] eqn:Es.
    { destruct (x11_table_item _ v (or_intror Es)) as (Hlen & _).
      rewrite len_lower in Hlen. contradiction. }
    destruct (Z.eqb_spec (str.len key) 1); [reflexivity|contradiction].
Qed.

(** X17 at a name in capitals and at a capital letter. *)
Lemma resolve_key_canonical_witness :
  str.len "Control" <> 1 /\ _resolve_key "Control" = _resolve_key (str.lower "Control") /\
  str.len "A" = 1 /\ _resolve_key "A" = "A"%string.
Proof.
  assert (H1 : str.len "Control" <> 1) by discriminate.
  assert (H2 : str.len "A" = 1) by reflexivity.
  exact (conj H1 (conj (proj1 (proj2 (resolve_key_canonical "Control")) H1)
          (conj H2 (proj2 (proj2 (resolve_key_canonical "A")) H2)))).
Defined.

(** ** The key table of the input helper *)

(** Every key of [KEYSYM_MAP] is found again under its lower-case form. *)
Lemma keysym_keys_fold :
  forallb (fun item : string * Z =>
             match str.get KEYSYM_MAP (str.lower (fst item)) with
             | Some _ => true
             | None => false
             end)
          KEYSYM_MAP = true.
Proof. vm_compute. reflexivity. Qed.

Lemma keysym_unknown key :
  str.get KEYSYM_MAP (str.lower key) = None -> str.get KEYSYM_MAP key = None.
Proof.
  intros Hlow. destruct (str.get KEYSYM_MAP key) as [v|] eqn:E; [|reflexivity].
  pose proof (get_forallb _ _ _ _ keysym_keys_fold E) as H. cbn [fst] in H.
  rewrite Hlow in H. discriminate.
Qed.

(** The upper-case letters of ASCII. *)
Lemma capital_letters :
  forallb (fun n =>
             (resolve_keysym (str.chr n) =? n + 32)
             && match str.get KEYSYM_MAP (str.chr n) with
                | Some keysym => keysym =? n
                | None => false
                end)
          (map Z.of_nat (seq 65 26)) = true.
Proof. vm_compute. reflexivity. Qed.

(** X18.  Key names of the input helper.  [resolve_keysym] looks every name
    up in lower case first.  So a name of any length other than one
    resolves as its lower-case form does, and to 0 (no key) if that is not
    in the table; and a capital letter of ASCII resolves to the keysym of
    the small letter, 32 above its own code, although the table has an
    entry for the capital letter itself. *)
Theorem resolve_keysym_folds_case (key : string) (n : Z) :
  (str.len key <> 1 ->
   resolve_keysym key = resolve_keysym (str.lower key) /\
   (str.get KEYSYM_MAP (str.lower key) = None -> resolve_keysym key = 0)) /\
  (65 <= n <= 90 ->
   resolve_keysym (str.chr n) = n + 32 /\
   str.get KEYSYM_MAP (str.chr n) = Some n).
Proof.
  split.
  - intros Hl. unfold resolve_keysym. cbv zeta.
    rewrite lower_idempotent, len_lower.
    destruct (Z.eqb_spec (str.len key) 1) as [?|_]; [contradiction|].
    destruct (str.get KEYSYM_MAP (str.lower key)) as [v|] eqn:E.
    + split; [reflexivity|discriminate].
    + rewrite (keysym_unknown key E). split; reflexivity.
  - intros Hn.
    assert (Hin : In n (map Z.of_nat (seq 65 26))).
    { apply in_map_iff. exists (Z.to_nat n). split; [lia|]. apply in_seq. lia. }
    pose proof capital_letters as Hall. rewrite forallb_forall in Hall.
    specialize (Hall n Hin). apply andb_true_iff in Hall. destruct Hall as [H1 H2].
    split; [apply Z.eqb_eq; exact H1|].
    destruct (str.get KEYSYM_MAP (str.chr n)) as [v|]; [|discriminate].
    apply Z.eqb_eq in H2. subst v. reflexivity.
Qed.

(** X18 at [ENTER] and at the letter [H]. *)
Lemma resolve_keysym_folds_case_witness :
  str.len "ENTER" <> 1 /\ resolve_keysym "ENTER" = resolve_keysym (str.lower "ENTER") /\
  65 <= 72 <= 90 /\ resolve_keysym (str.chr 72) = 72 + 32.
Proof.
  assert (H1 : str.len "ENTER" <> 1) by discriminate.
  assert (H2 : 65 <= 72 <= 90) by lia.
  exact (conj H1 (conj (proj1 (proj1 (resolve_keysym_folds_case "ENTER" 72) H1))
          (conj H2 (proj1 (proj2 (resolve_keysym_folds_case "ENTER" 72) H2))))).
Defined.

(** A character of ASCII and its lower-case form resolve alike. *)
Lemma resolve_keysym_char c :
  str.ord c < 128 ->
  resolve_keysym (String c EmptyString) = resolve_keysym (String (str.lower_char c) EmptyString).
Proof.
  destruct c as [[] [] [] [] [] [] [] []]; intros H; try (exfalso; revert H; vm_compute; congruence);
    vm_compute; reflexivity.
Qed.

(** X19.  Text typed through the input helper loses its capitals.  For
    text of ASCII characters, [type_text] sends exactly the key events it
    sends for the text in lower case. *)
Theorem type_text_loses_capitals (text : string) :
  str.isascii text = true ->
  type_text text = type_text (str.lower text).
Proof.
  unfold type_text. induction text as [|c text IH]; [reflexivity|].
  cbn [str.isascii str.lower str.chars flat_map]. intros H.
  apply andb_true_iff in H. destruct H as [Hc Ht].
  apply Z.ltb_lt in Hc.
  rewrite (resolve_keysym_char c Hc), (IH Ht). reflexivity.
Qed.

(** X19 at [Hello World], which is typed as [hello world]. *)
Lemma type_text_loses_capitals_witness :
  str.isascii "Hello World" = true /\ type_text "Hello World" = type_text "hello world".
Proof.
  assert (H : str.isascii "Hello World" = true) by reflexivity.
  exact (conj H (type_text_loses_capitals "Hello World" H)).
Defined.

(** ** Keys pressed and released *)

Lemma key_count_app keysym state a b :
  key_count keysym state (a ++ b) =
  (key_count keysym state a + key_count keysym state b)%nat.
Proof. unfold key_count. rewrite List.filter_app, length_app. reflexivity. Qed.

Lemma key_count_rev keysym state a :
  key_count keysym state (rev a) = key_count keysym state a.
Proof. unfold key_count. rewrite List.filter_rev, length_rev. reflexivity. Qed.

(** The events for a list of keysyms, all with one state. *)
Lemma key_count_events keysym state syms state' :
  key_count keysym state (key_events syms state') =
  if Bool.eqb state' state
  then length (List.filter (fun ms => negb (ms =? 0) && (ms =? keysym)) syms)
  else 0%nat.
Proof.
  induction syms as [|ms syms IH].
  - destruct (Bool.eqb state' state); reflexivity.
  - unfold key_events in *. cbn [flat_map List.filter]. rewrite key_count_app, IH.
    destruct (ms =? 0) eqn:E0; cbn [negb andb].
    + reflexivity.
    + unfold key_event, key_count. cbn [List.filter].
      destruct (ms =? keysym); destruct state, state'; reflexivity.
Qed.

Lemma key_events_rev syms state : key_events (rev syms) state = rev (key_events syms state).
Proof.
  unfold key_events. induction syms as [|ms syms IH]; [reflexivity|].
  cbn [rev flat_map]. rewrite flat_map_app, IH, rev_app_distr. cbn [flat_map].
  rewrite app_nil_r. destruct (negb (ms =? 0)); reflexivity.
Qed.

Lemma key_count_press keysym state ks :
  key_count keysym state (key_press ks) = if ks =? keysym then 1%nat else 0%nat.
Proof.
  unfold key_press, key_event, key_count. cbn [app List.filter].
  destruct (ks =? keysym); destruct state; reflexivity.
Qed.

Lemma key_count_pressed_released keysym syms :
  key_count keysym true (key_events syms true) =
  key_count keysym false (key_events (rev syms) false).
Proof.
  rewrite key_events_rev, key_count_rev, !key_count_events. reflexivity.
Qed.

Lemma key_count_other keysym syms :
  key_count keysym false (key_events syms true) = 0%nat /\
  key_count keysym true (key_events syms false) = 0%nat.
Proof. rewrite !key_count_events. split; reflexivity. Qed.

(** X20.  A command that completes leaves no key down.  In the steps of a
    [key_press] command with or without modifiers, of a [key_combo]
    command and of [type_text], every keysym is released as often as it is
    pressed. *)
Theorem completed_commands_release_keys (keysym : Z) (key : string)
    (modifiers keys : list string) (text : string) :
  key_count keysym true (key_press_command key modifiers) =
    key_count keysym false (key_press_command key modifiers) /\
  key_count keysym true (key_combo_command keys) =
    key_count keysym false (key_combo_command keys) /\
  key_count keysym true (type_text text) = key_count keysym false (type_text text).
Proof.
  split; [|split].
  - unfold key_press_command. cbv zeta.
    assert (Hkey : forall st,
      key_count keysym st (if negb (resolve_keysym key =? 0)
                           then key_press (resolve_keysym key) else []) =
      if negb (resolve_keysym key =? 0) && (resolve_keysym key =? keysym)
      then 1%nat else 0%nat).
    { intros st. destruct (negb (resolve_keysym key =? 0)); cbn [andb].
      - apply key_count_press.
      - reflexivity. }
    destruct modifiers as [|m ms].
    + rewrite !Hkey. reflexivity.
    + rewrite !key_count_app, !Hkey.
      rewrite <- (key_count_pressed_released keysym (map resolve_keysym (m :: ms))).
      destruct (key_count_other keysym (map resolve_keysym (m :: ms))) as [-> _].
      destruct (key_count_other keysym (rev (map resolve_keysym (m :: ms)))) as [_ ->].
      lia.
  - unfold key_combo_command. cbv zeta. rewrite !key_count_app.
    rewrite <- (key_count_pressed_released keysym (map resolve_keysym keys)).
    destruct (key_count_other keysym (map resolve_keysym keys)) as [-> _].
    destruct (key_count_other keysym (rev (map resolve_keysym keys))) as [_ ->].
    change (key_count keysym false [sleep (2 # 100)]) with 0%nat.
    change (key_count keysym true [sleep (2 # 100)]) with 0%nat.
    lia.
  - unfold type_text. induction (str.chars text) as [|char chars IH]; [reflexivity|].
    cbn [flat_map]. rewrite !key_count_app, IH.
    destruct (negb (resolve_keysym char =? 0)); [|reflexivity].
    rewrite !key_count_app, !key_count_press. reflexivity.
Qed.

Lemma key_events_pressed m modifiers :
  In m modifiers -> resolve_keysym m <> 0 ->
  (0 < key_count (resolve_keysym m) true
         (key_events (map resolve_keysym modifiers) true))%nat.
Proof.
  intros Hin Hm. rewrite key_count_events. cbn [Bool.eqb].
  induction modifiers as [|m0 ms IH]; [contradiction|].
  cbn [map List.filter]. destruct Hin as [->|Hin].
  - destruct (Z.eqb_spec (resolve_keysym m) 0) as [?|_]; [contradiction|].
    rewrite Z.eqb_refl. cbn [negb andb length]. lia.
  - specialize (IH Hin).
    destruct (negb (resolve_keysym m0 =? 0) && (resolve_keysym m0 =? resolve_keysym m));
      cbn [length]; lia.
Qed.

(** X21.  A failure in the middle of a [key_press] command leaves the
    modifiers down.  When the D-Bus call that presses the key itself raises,
    every modifier of the command that the helper knows is pressed and not
    released: the steps that follow, the releases among them, are skipped,
    and the handler of the command loop only prints the error. *)
Theorem failed_key_press_keeps_modifiers_down (key m : string) (modifiers : list string)
    (failing : nat) :
  resolve_keysym key <> 0 ->
  In m modifiers ->
  resolve_keysym m <> 0 ->
  failing = length (key_events (map resolve_keysym modifiers) true) ->
  until_failure failing (key_press_command key modifiers) =
    key_events (map resolve_keysym modifiers) true
      ++ [NotifyKeyboardKeysym (resolve_keysym key) true] /\
  left_down (resolve_keysym m) (until_failure failing (key_press_command key modifiers)).
Proof.
  intros Hkey Hin Hm ->.
  assert (Hplan : until_failure (length (key_events (map resolve_keysym modifiers) true))
                    (key_press_command key modifiers) =
                  key_events (map resolve_keysym modifiers) true
                    ++ [NotifyKeyboardKeysym (resolve_keysym key) true]).
  { unfold until_failure, key_press_command. cbv zeta.
    destruct modifiers as [|m0 ms]; [contradiction|].
    destruct (Z.eqb_spec (resolve_keysym key) 0) as [?|_]; [contradiction|]. cbn [negb].
    set (P := key_events (map resolve_keysym (m0 :: ms)) true).
    unfold key_press, key_event. cbn [app].
    replace (S (length P)) with (length P + 1)%nat by lia.
    rewrite firstn_app_2. reflexivity. }
  split; [exact Hplan|].
  rewrite Hplan. unfold left_down. rewrite !key_count_app.
  destruct (key_count_other (resolve_keysym m) (map resolve_keysym modifiers)) as [-> _].
  pose proof (key_events_pressed m modifiers Hin Hm) as Hpos.
  unfold key_count at 1. cbn [List.filter length Bool.eqb]. rewrite andb_false_r. cbn [length]. lia.
Qed.

(** X21 at Ctrl+C. *)
Lemma failed_key_press_keeps_modifiers_down_witness :
  resolve_keysym "c" <> 0 /\ In "ctrl"%string ["ctrl"%string] /\ resolve_keysym "ctrl" <> 0 /\
  until_failure 1 (key_press_command "c" ["ctrl"%string]) =
    [NotifyKeyboardKeysym 0xffe3 true; NotifyKeyboardKeysym 99 true] /\
  left_down 0xffe3 (until_failure 1 (key_press_command "c" ["ctrl"%string])).
Proof.
  assert (H1 : resolve_keysym "c" <> 0) by (vm_compute; discriminate).
  assert (H2 : In "ctrl"%string ["ctrl"%string]) by (left; reflexivity).
  assert (H3 : resolve_keysym "ctrl" <> 0) by (vm_compute; discriminate).
  pose proof (failed_key_press_keeps_modifiers_down "c" "ctrl" ["ctrl"%string] 1 H1 H2 H3 eq_refl)
    as H.
  exact (conj H1 (conj H2 (conj H3 H))).
Defined.

End KeyNames.

(* ===================================================================== *)
(** * Logging in and the lockout                                          *)
(* ===================================================================== *)

Section Lockout.
Import auth login.

Variable checkpw : string -> string -> option bool.

Lemma password_set self :
  is_password_set self = true -> String.eqb (_password_hash self) "" = false.
Proof. unfold is_password_set. intros H. apply negb_true_iff in H. exact H. Qed.

Lemma not_empty (s : string) : s <> ""%string -> String.eqb s "" = false.
Proof. intros H. destruct (String.eqb_spec s ""); [contradiction|reflexivity]. Qed.

(** A failed attempt of a client that is not locked out is counted. *)
Lemma failed_attempt_counted plain client_ip checked failed self :
  is_password_set self = true -> client_ip <> ""%string ->
  checkpw plain (_password_hash self) <> Some true ->
  match _failed_attempts self !! client_ip with
  | Some (count, _) => count < max_login_attempts
  | None => True
  end ->
  verify_password checkpw plain client_ip checked failed self =
  (false,
   set_failed_attempts
     (<[client_ip :=
          (match _failed_attempts self !! client_ip with
           | Some (count, _) => count + 1
           | None => 1
           end, failed)]> (_failed_attempts self)) self).
Proof.
  intros Hset Hip Hwrong Hcount.
  unfold verify_password, _is_locked_out, _record_failure.
  rewrite (password_set _ Hset), (not_empty _ Hip).
  destruct (_failed_attempts self !! client_ip) as [[count last]|] eqn:E.
  - destruct (Z.geb_spec count max_login_attempts) as [?|_]; [lia|].
    rewrite E.
    destruct (checkpw plain (_password_hash self)) as [[]|]; try congruence; reflexivity.
  - rewrite E.
    destruct (checkpw plain (_password_hash self)) as [[]|]; try congruence; reflexivity.
Qed.

(** The number of failures counted for a client. *)
Lemma failed_attempts_count client_ip attempts : forall self,
  is_password_set self = true -> client_ip <> ""%string ->
  Forall (fun a => checkpw (fst a) (_password_hash self) <> Some true) attempts ->
  attempts <> [] ->
  match _failed_attempts self !! client_ip with
  | Some (count, _) => 0 <= count /\ count + Z.of_nat (length attempts) <= max_login_attempts
  | None => Z.of_nat (length attempts) <= max_login_attempts
  end ->
  _password_hash (failed_attempts checkpw client_ip attempts self) = _password_hash self /\
  _failed_attempts (failed_attempts checkpw client_ip attempts self) !! client_ip =
    Some (match _failed_attempts self !! client_ip with
          | Some (count, _) => count
          | None => 0
          end + Z.of_nat (length attempts),
          snd (snd (List.last attempts (""%string, (0%Q, 0%Q))))).
Proof.
  induction attempts as [|a attempts IH]; intros self Hset Hip Hall Hne Hbound; [congruence|].
  inversion Hall as [|? ? Ha Hrest]; subst.
  unfold failed_attempts. cbn [fold_left].
  fold (failed_attempts checkpw client_ip attempts
          (snd (verify_password checkpw (fst a) client_ip (fst (snd a)) (snd (snd a)) self))).
  rewrite (failed_attempt_counted (fst a) client_ip (fst (snd a)) (snd (snd a)) self Hset Hip Ha).
  2: { destruct (_failed_attempts self !! client_ip) as [[count last]|]; [|exact I].
       cbn [length] in Hbound. lia. }
  cbn [snd].
  set (self1 := set_failed_attempts _ self).
  assert (Hent : _failed_attempts self1 !! client_ip =
                 Some (match _failed_attempts self !! client_ip with
                       | Some (count, _) => count + 1
                       | None => 1
                       end, snd (snd a))).
  { subst self1. cbn [_failed_attempts set_failed_attempts]. apply lookup_insert_eq. }
  destruct attempts as [|b attempts].
  - cbn [fold_left List.last length]. unfold failed_attempts. cbn [fold_left].
    split; [reflexivity|]. rewrite Hent. f_equal. f_equal.
    destruct (_failed_attempts self !! client_ip) as [[count last]|]; simpl; lia.
  - destruct (IH self1) as [Hhash Hentry]; try assumption.
    + discriminate.
    + rewrite Hent. cbn [length] in *.
      destruct (_failed_attempts self !! client_ip) as [[count last]|]; lia.
    + split; [rewrite Hhash; reflexivity|].
      rewrite Hentry, Hent. cbn [List.last]. f_equal. f_equal.
      cbn [length]. destruct (_failed_attempts self !! client_ip) as [[count last]|]; lia.
Qed.

(** A client that is locked out is refused without the password being
    looked at, and nothing is recorded. *)
Lemma locked_out_refused plain client_ip checked failed self count last :
  is_password_set self = true -> client_ip <> ""%string ->
  _failed_attempts self !! client_ip = Some (count, last) ->
  max_login_attempts <= count ->
  (checked - last < inject_Z lockout_duration_seconds)%Q ->
  verify_password checkpw plain client_ip checked failed self = (false, self).
Proof.
  intros Hset Hip Hent Hcount Hel.
  unfold verify_password, _is_locked_out.
  rewrite (password_set _ Hset), (not_empty _ Hip), Hent.
  destruct (Z.geb_spec count max_login_attempts) as [_|?]; [|lia].
  apply Qlt_bool_iff in Hel. cbv zeta. rewrite Hel. reflexivity.
Qed.

(** X22.  Five failures lock a client out.  Take a client with a non-empty
    address and no failures on record, and five attempts that fail, at any
    times whatever, however far apart.  Then five failures are on record
    with the time of the fifth, and every attempt that is checked less than
    300 seconds after that time is refused, the right password included;
    such an attempt changes nothing, so it does not prolong the lockout. *)
Theorem five_failures_lock_out (client_ip : string)
    (attempts : list (string * (Q * Q))) (self : AuthManager)
    (plain : string) (checked failed : Q) :
  is_password_set self = true ->
  client_ip <> ""%string ->
  _failed_attempts self !! client_ip = None ->
  length attempts = 5%nat ->
  Forall (fun a => checkpw (fst a) (_password_hash self) <> Some true) attempts ->
  let locked := failed_attempts checkpw client_ip attempts self in
  let since := snd (snd (List.last attempts (""%string, (0%Q, 0%Q)))) in
  _failed_attempts locked !! client_ip = Some (5, since) /\
  ((checked - since < 300)%Q ->
   verify_password checkpw plain client_ip checked failed locked = (false, locked)).
Proof.
  intros Hset Hip Hnone Hlen Hall. cbv zeta.
  destruct (failed_attempts_count client_ip attempts self Hset Hip Hall) as [Hhash Hent].
  - destruct attempts; [discriminate|discriminate].
  - rewrite Hnone, Hlen. unfold max_login_attempts. lia.
  - rewrite Hnone, Hlen in Hent. change (0 + Z.of_nat 5) with 5 in Hent.
    split; [exact Hent|]. intros Hel.
    eapply locked_out_refused; [|exact Hip|exact Hent| |exact Hel].
    + unfold is_password_set. rewrite Hhash. exact Hset.
    + unfold max_login_attempts. lia.
Qed.

(** What [int] makes of the time that remains. *)
Lemma Qtruncate_positive q : (1 <= q)%Q -> 0 < Qtruncate q.
Proof.
  destruct q as [n d]. unfold Qle, Qtruncate. simpl. intros H.
  rewrite Z.quot_div_nonneg by lia.
  apply Z.div_str_pos. lia.
Qed.

Lemma Qtruncate_below_1 q : (q < 1)%Q -> Qtruncate q <= 0.
Proof.
  destruct q as [n d]. unfold Qlt, Qtruncate. simpl. intros H.
  destruct (Z.le_gt_cases 0 n) as [Hn|Hn].
  - rewrite Z.quot_small by lia. lia.
  - pose proof (Z.quot_opp_l n (Z.pos d) ltac:(lia)) as Ho.
    assert (0 <= Z.quot (- n) (Z.pos d)) by (apply Z.quot_pos; lia).
    lia.
Qed.

(** X23.  The end of a lockout and of a count.  For a client with failures
    on record that is not locked out, because the failures are fewer than
    five or because the last one is 300 seconds or more in the past: the
    right password is accepted and the record of the client is deleted; a
    wrong password after a lockout that has run out starts a new count at
    one, and a wrong password below five failures adds one to the count,
    however long ago the last failure was. *)
Theorem lockout_ends (plain client_ip : string) (checked failed : Q)
    (self : AuthManager) (count : Z) (last : Q) :
  is_password_set self = true ->
  client_ip <> ""%string ->
  _failed_attempts self !! client_ip = Some (count, last) ->
  count < max_login_attempts \/ (inject_Z lockout_duration_seconds <= checked - last)%Q ->
  verify_password checkpw plain client_ip checked failed self =
  if default false (checkpw plain (_password_hash self)) then
    (true, set_failed_attempts (delete client_ip (_failed_attempts self)) self)
  else
    (false,
     set_failed_attempts
       (<[client_ip := (if count >=? max_login_attempts then 1 else count + 1, failed)]>
          (_failed_attempts self)) self).
Proof.
  intros Hset Hip Hent Hfree.
  unfold verify_password, _is_locked_out, _record_failure.
  rewrite (password_set _ Hset), (not_empty _ Hip), Hent.
  destruct (Z.geb_spec count max_login_attempts) as [Hge|Hlt].
  - destruct Hfree as [?|Hel]; [lia|]. cbv zeta.
    assert (Hq : Qlt_bool (checked - last) (inject_Z lockout_duration_seconds) = false).
    { destruct (Qlt_bool _ _) eqn:E; [|reflexivity]. apply Qlt_bool_iff in E.
      exfalso. exact (Qlt_not_le _ _ E Hel). }
    rewrite Hq. cbn [_password_hash _failed_attempts set_failed_attempts].
    rewrite lookup_delete_eq.
    destruct (default false (checkpw plain (_password_hash self))).
    + rewrite delete_delete_eq. reflexivity.
    + unfold set_failed_attempts. cbn [_password_hash _failed_attempts].
      rewrite insert_delete_eq. reflexivity.
  - destruct (default false (checkpw plain (_password_hash self))); [reflexivity|].
    rewrite ?Hent. reflexivity.
Qed.

End Lockout.

Section LoginRoute.
Import auth login.

Variable checkpw : string -> string -> option bool.

(** X24.  The login route during a lockout.  For a client that is locked
    out, a request that comes 299 seconds or less after the last failure is
    answered with status 429.  In the last second of the lockout the time
    that remains is cut to 0 seconds: the request is passed on to
    [create_token], which refuses it, and the answer is status 401, the one
    for a wrong password, whatever the password.  Neither request changes
    the record. *)
Theorem login_during_lockout (token : string) (request : Request)
    (asked checked failed : Q) (auth_manager : AuthManager) (count : Z) (last : Q) :
  is_password_set auth_manager = true ->
  get_client_ip request <> ""%string ->
  _failed_attempts auth_manager !! get_client_ip request = Some (count, last) ->
  max_login_attempts <= count ->
  ((asked - last <= 299)%Q ->
   auth_login checkpw token request asked checked failed auth_manager =
     (HTTPException 429, auth_manager)) /\
  ((299 < asked - last)%Q -> (checked - last < 300)%Q ->
   auth_login checkpw token request asked checked failed auth_manager =
     (HTTPException 401, auth_manager)).
Proof.
  intros Hset Hip Hent Hcount.
  unfold auth_login, get_lockout_remaining. rewrite Hset. cbn [negb]. cbv zeta.
  rewrite (not_empty _ Hip), Hent.
  destruct (Z.geb_spec count max_login_attempts) as [_|?]; [|lia].
  split.
  - intros Hel.
    assert (Hpos : 0 < Qtruncate (inject_Z lockout_duration_seconds - (asked - last))).
    { apply Qtruncate_positive. unfold lockout_duration_seconds.
      apply Qle_minus_iff in Hel. apply Qle_minus_iff.
      eapply Qle_trans; [exact Hel|]. apply Qle_lteq. right.
      change (inject_Z 300) with 300%Q. ring. }
    destruct (Z.gtb_spec (Z.max 0 (Qtruncate (inject_Z lockout_duration_seconds - (asked - last)))) 0);
      [reflexivity|lia].
  - intros Hlate Hel.
    assert (Hzero : Qtruncate (inject_Z lockout_duration_seconds - (asked - last)) <= 0).
    { apply Qtruncate_below_1. unfold lockout_duration_seconds.
      apply Qlt_minus_iff in Hlate. apply Qlt_minus_iff.
      eapply Qlt_le_trans; [exact Hlate|]. apply Qle_lteq. right.
      change (inject_Z 300) with 300%Q. ring. }
    destruct (Z.gtb_spec (Z.max 0 (Qtruncate (inject_Z lockout_duration_seconds - (asked - last)))) 0);
      [lia|].
    unfold create_token.
    rewrite (locked_out_refused checkpw (password request) (get_client_ip request)
               checked failed auth_manager count last Hset Hip Hent Hcount Hel).
    reflexivity.
Qed.

(** X25.  The [X-Forwarded-For] header decides which record a login is
    checked against.  If the first comma-separated field of a non-empty
    header is empty or blank, the client address is the empty string, for
    which nothing is ever recorded: such a request is never answered with
    status 429 and a wrong password leaves the manager as it was, so the
    number of guesses is not limited.  And if nothing is on record for the
    address the header names, the right password logs in, whatever is on
    record for the address of the peer. *)
Theorem forwarded_header_escapes_lockout (token : string) (request : Request)
    (forwarded : string) (asked checked failed : Q) (auth_manager : AuthManager) :
  is_password_set auth_manager = true ->
  forwarded_for request = Some forwarded ->
  forwarded <> ""%string ->
  (str.strip (nth 0 (screen_capture.split_on "," forwarded) ""%string) = ""%string ->
   get_client_ip request = ""%string /\
   fst (auth_login checkpw token request asked checked failed auth_manager)
     <> HTTPException 429 /\
   (checkpw (password request) (_password_hash auth_manager) <> Some true ->
    auth_login checkpw token request asked checked failed auth_manager =
      (HTTPException 401, auth_manager))) /\
  (_failed_attempts auth_manager
     !! str.strip (nth 0 (screen_capture.split_on "," forwarded) ""%string) = None ->
   checkpw (password request) (_password_hash auth_manager) = Some true ->
   fst (auth_login checkpw token request asked checked failed auth_manager) =
     logged_in token).
Proof.
  intros Hset Hfwd Hne.
  assert (Hip : get_client_ip request =
                str.strip (nth 0 (screen_capture.split_on "," forwarded) ""%string)).
  { unfold get_client_ip. rewrite Hfwd, (not_empty _ Hne). reflexivity. }
  split.
  - intros Hblank. rewrite Hblank in Hip. split; [exact Hip|].
    unfold auth_login, get_lockout_remaining, create_token, verify_password,
      _is_locked_out, _record_failure.
    rewrite Hset, Hip, (password_set _ Hset). cbn [negb String.eqb]. cbv zeta.
    cbn [Z.gtb Z.compare].
    destruct (checkpw (password request) (_password_hash auth_manager)) as [[]|];
      cbn [default id]; (split; [discriminate|]); intros Hw; congruence.
  - intros Hnone Hright.
    unfold auth_login, get_lockout_remaining, create_token, verify_password,
      _is_locked_out, _record_failure.
    rewrite Hset, Hip, (password_set _ Hset), Hnone. cbn [negb]. cbv zeta.
    destruct (String.eqb _ ""); cbn [Z.gtb Z.compare]; rewrite Hright; reflexivity.
Qed.

End LoginRoute.

Section LoginExamples.
Import auth login.

(** X22 at five wrong guesses, one a day: a minute after the fifth the
    right password is refused. *)
Lemma five_failures_lock_out_witness :
  _failed_attempts (failed_attempts accepts_secret "10.0.0.7" five_guesses fresh_manager)
    !! "10.0.0.7"%string = Some (5, 345600%Q) /\
  verify_password accepts_secret "secret" "10.0.0.7" 345660 345661
    (failed_attempts accepts_secret "10.0.0.7" five_guesses fresh_manager) =
  (false, failed_attempts accepts_secret "10.0.0.7" five_guesses fresh_manager).
Proof.
  assert (H1 : is_password_set fresh_manager = true) by reflexivity.
  assert (H2 : "10.0.0.7"%string <> ""%string) by discriminate.
  assert (H3 : _failed_attempts fresh_manager !! "10.0.0.7"%string = None) by reflexivity.
  assert (H4 : length five_guesses = 5%nat) by reflexivity.
  assert (H5 : Forall (fun a => accepts_secret (fst a) (_password_hash fresh_manager)
                                <> Some true) five_guesses)
    by (repeat constructor; discriminate).
  destruct (five_failures_lock_out accepts_secret "10.0.0.7" five_guesses fresh_manager
              "secret" 345660 345661 H1 H2 H3 H4 H5) as [Ha Hb].
  split; [exact Ha|]. apply Hb. reflexivity.
Defined.

(** X23 at the right password, 300 seconds after the fifth failure. *)
Lemma lockout_ends_witness :
  verify_password accepts_secret "secret" "10.0.0.7" 1300 1301 locked_manager =
  (true, set_failed_attempts (delete "10.0.0.7"%string (_failed_attempts locked_manager))
           locked_manager).
Proof.
  assert (H1 : is_password_set locked_manager = true) by reflexivity.
  assert (H2 : "10.0.0.7"%string <> ""%string) by discriminate.
  assert (H3 : _failed_attempts locked_manager !! "10.0.0.7"%string = Some (5, 1000%Q))
    by reflexivity.
  assert (H4 : 5 < max_login_attempts \/
               (inject_Z lockout_duration_seconds <= 1300 - 1000)%Q)
    by (right; discriminate).
  exact (lockout_ends accepts_secret "secret" "10.0.0.7" 1300 1301 locked_manager 5 1000
           H1 H2 H3 H4).
Defined.

(** X24 half a second before the lockout runs out, with the right
    password. *)
Lemma login_during_lockout_witness :
  auth_login accepts_secret "token"
    {| forwarded_for := None; client_host := Some "10.0.0.7"%string;
       password := "secret" |}
    (2599 # 2) (2599 # 2) (2599 # 2) locked_manager =
  (HTTPException 401, locked_manager).
Proof.
  assert (H1 : is_password_set locked_manager = true) by reflexivity.
  assert (H2 : get_client_ip {| forwarded_for := None; client_host := Some "10.0.0.7"%string;
                                password := "secret" |} <> ""%string) by discriminate.
  assert (H3 : _failed_attempts locked_manager
                 !! get_client_ip {| forwarded_for := None;
                                     client_host := Some "10.0.0.7"%string;
                                     password := "secret" |} = Some (5, 1000%Q))
    by reflexivity.
  assert (H4 : max_login_attempts <= 5) by (unfold max_login_attempts; lia).
  apply (proj2 (login_during_lockout accepts_secret "token" _ (2599 # 2) (2599 # 2) (2599 # 2)
                  locked_manager 5 1000 H1 H2 H3 H4)); reflexivity.
Defined.

(** X25 at a client that is locked out and sends a header that is a single
    comma. *)
Lemma forwarded_header_escapes_lockout_witness :
  auth_login accepts_secret "token"
    {| forwarded_for := Some ","%string; client_host := Some "10.0.0.7"%string;
       password := "guess" |}
    1001 1001 1001 locked_manager =
  (HTTPException 401, locked_manager).
Proof.
  assert (H1 : is_password_set locked_manager = true) by reflexivity.
  assert (H2 : ","%string <> ""%string) by discriminate.
  destruct (forwarded_header_escapes_lockout accepts_secret "token"
              {| forwarded_for := Some ","%string; client_host := Some "10.0.0.7"%string;
                 password := "guess" |} "," 1001 1001 1001 locked_manager H1 eq_refl H2)
    as [Hblank _].
  destruct (Hblank eq_refl) as (_ & _ & H).
  apply H. discriminate.
Defined.

End LoginExamples.


(* ===================================================================== *)
(** * The input channel                                                   *)
(* ===================================================================== *)

Section InputChannel.
Import input_handler input_channel.

#[local] Arguments start : simpl never.
#[local] Arguments dict_get : simpl never.
#[local] Arguments process_command : simpl never.

Lemma direct_safe_bind {A B} (m : H A) (k : A -> H B) :
  direct_safe m -> (forall a, direct_safe (k a)) -> direct_safe (m ≫= k).
Proof.
  intros Hm Hk s Hs. unfold mbind, M_bind, bind.
  destruct (Hm s Hs) as (Hb & Ht & Hn). destruct (m s) as [[a|e| |] s1]; cbn [fst snd] in *.
  - apply Hk. assumption.
  - split; [assumption|]. split; [|discriminate]. intros e' [= <-]. apply Ht. reflexivity.
  - split; [assumption|]. split; discriminate.
  - contradiction Hn. reflexivity.
Qed.

Lemma direct_safe_try {A} (body : H A) handler :
  direct_safe body -> (forall e, direct_safe (handler e)) ->
  direct_safe (try_except body handler).
Proof.
  intros Hb Hh s Hs. unfold try_except.
  destruct (Hb s Hs) as (Hk & Ht & Hn). destruct (body s) as [[a|e| |] s1]; cbn [fst snd] in *.
  - split; [assumption|]. split; discriminate.
  - rewrite (Ht e eq_refl). apply Hh. assumption.
  - split; [assumption|]. split; discriminate.
  - contradiction Hn. reflexivity.
Qed.

Lemma direct_safe_ret {A} (a : A) : direct_safe (ret a).
Proof. intros s Hs. split; [exact Hs|]. split; discriminate. Qed.

Lemma direct_safe_raise {A} e : is_Exception e = true -> direct_safe (@raise _ _ _ A e).
Proof.
  intros He s Hs. split; [exact Hs|]. split; [|discriminate]. intros ? [= <-]. exact He.
Qed.

Lemma direct_safe_external p : direct_safe (external p).
Proof.
  intros [self [sc lg k]] Hs. unfold external. run_once.
  destruct sc as [|[| | | | |[]| |] sc]; cbn [fst snd];
    (split; [exact Hs|]); (split; [|discriminate]); try discriminate.
  intros ? [= <-]. reflexivity.
Qed.

Lemma direct_safe_backend_call depth c : direct_safe (backend_call depth c).
Proof.
  intros s Hs. unfold backend_call. unfold mbind, M_bind, bind, get_self. cbn [fst snd].
  rewrite Hs. destruct c; apply direct_safe_external; exact Hs.
Qed.

Lemma direct_safe_ensure_started depth : direct_safe (ensure_started depth).
Proof.
  intros s Hs. unfold ensure_started. unfold mbind, M_bind, bind, get_self. cbn [fst snd].
  rewrite Hs. split; [exact Hs|]. split; discriminate.
Qed.

Lemma direct_safe_scaled x : direct_safe (scaled x).
Proof.
  intros s Hs. unfold scaled. unfold mbind, M_bind, bind, get_self. cbn [fst snd].
  destruct (as_number x); [split; [exact Hs|split; discriminate]|].
  destruct x; cbn [fst snd]; (split; [exact Hs|]); (split; [|discriminate]);
    try discriminate; intros ? [= <-]; reflexivity.
Qed.

Lemma direct_safe_set_drag v : direct_safe (modify_self (set_drag_active v)).
Proof. intros s Hs. split; [exact Hs|]. split; discriminate. Qed.

Lemma direct_safe_setter value : direct_safe (sensitivity_setter value).
Proof.
  intros s Hs. unfold sensitivity_setter.
  destruct (as_number value) as [v|]; cbn [fst snd]; (split; [exact Hs|]);
    (split; [|discriminate]); try discriminate.
  intros ? [= <-]. reflexivity.
Qed.

Lemma direct_safe_clipboard command : direct_safe (_handle_clipboard command).
Proof.
  unfold _handle_clipboard. apply direct_safe_try; [|intros; apply direct_safe_ret].
  destruct (is_str _ _).
  - apply direct_safe_bind; [apply direct_safe_external|intros; apply direct_safe_ret].
  - intros [self [sc lg k]] Hs. run_once.
    destruct sc as [|[| | | | |[]| |] sc]; cbn [fst snd]; (split; [exact Hs|]);
      (split; [|discriminate]); try discriminate.
    intros ? [= <-]. reflexivity.
Qed.

(** On the direct backend [process_command] returns: it neither raises nor
    waits for ever. *)
Lemma process_command_direct depth command s :
  _backend (fst s) = X11InputBackend ->
  _backend (fst (snd (process_command depth command s))) = X11InputBackend /\
  (forall e, fst (process_command depth command s) <> Thrown e) /\
  fst (process_command depth command s) <> Blocked.
Proof.
  intros Hs.
  assert (Hbody : exists body : H reply,
    direct_safe body /\
    process_command depth command =
      (ensure_started depth ≫= fun _ =>
         try_except body (fun e => ret (status_error (StrOf e))))).
  { eexists. split; [|unfold process_command; reflexivity].
    repeat match goal with
    | |- direct_safe (if ?c then _ else _) => destruct c
    | |- direct_safe (_ ≫= _) => apply direct_safe_bind; [|intros]
    | |- direct_safe (ret _) => apply direct_safe_ret
    | |- direct_safe (mret _) => apply direct_safe_ret
    | |- direct_safe (backend_call _ _) => apply direct_safe_backend_call
    | |- direct_safe (scaled _) => apply direct_safe_scaled
    | |- direct_safe (modify_self (set_drag_active _)) => apply direct_safe_set_drag
    | |- direct_safe (sensitivity_setter _) => apply direct_safe_setter
    | |- direct_safe (_handle_clipboard _) => apply direct_safe_clipboard
    end. }
  destruct Hbody as (body & Hsafe & Heq). rewrite Heq.
  unfold mbind, M_bind, bind.
  destruct (direct_safe_ensure_started depth s Hs) as (Hb0 & Ht0 & Hn0).
  destruct (ensure_started depth s) as [[[]|e0| |] s0] eqn:E0; cbn [fst snd] in *.
  - unfold try_except. destruct (Hsafe s0 Hb0) as (Hb1 & Ht1 & Hn1).
    destruct (body s0) as [[r|e1| |] s1]; cbn [fst snd] in *.
    + split; [assumption|]. split; discriminate.
    + rewrite (Ht1 e1 eq_refl). cbn [fst snd]. split; [assumption|]. split; discriminate.
    + split; [assumption|]. split; discriminate.
    + contradiction Hn1. reflexivity.
  - exfalso. revert E0. unfold ensure_started, mbind, M_bind, bind, get_self. cbn [fst snd].
    rewrite Hs. discriminate.
  - split; [assumption|]. split; discriminate.
  - contradiction Hn0. reflexivity.
Qed.

(** The two types for which [ws_input] wants to send data are unknown to
    the router. *)
Lemma data_request_unknown depth (command : gmap string pyval) ty s :
  command !! "type"%string = Some (VStr ty) ->
  In ty ["get_cursor"; "get_screen_size"]%string ->
  _backend (fst s) = X11InputBackend ->
  process_command depth command s =
    (Done (status_error (UnknownCommand (VStr ty))), s) /\
  asks_for_data (VDict command) = true.
Proof.
  intros Hty Hin Hs.
  assert (Hget : forall dflt, dict_get command "type" dflt = VStr ty).
  { intros dflt. unfold dict_get. rewrite Hty. reflexivity. }
  split.
  - unfold process_command. rewrite Hget.
    unfold ensure_started, mbind, M_bind, bind, get_self, try_except. cbn [fst snd].
    rewrite Hs. destruct s as [self w].
    destruct Hin as [<-|[<-|[]]]; reflexivity.
  - unfold asks_for_data. rewrite Hget.
    destruct Hin as [<-|[<-|[]]]; reflexivity.
Qed.

(** X26.  Two kinds of message end the input channel with an
    [AttributeError].  A JSON object of type [get_cursor] or
    [get_screen_size] is first given to [process_command], which on the
    direct backend answers that the command is unknown and changes nothing;
    then [ws_input] calls a method that [InputHandler] does not have.  A
    JSON value that is not an object fails inside [process_command], before
    its [try].  Neither exception is caught in [ws_input]: nothing is sent,
    and the frames that follow are not read. *)
Theorem data_request_ends_channel (depth : nat) (command : gmap string pyval)
    (ty : string) (value : pyval) (how : sending) (rest : list frame)
    (s : InputHandler * world helper_line payload) :
  (command !! "type"%string = Some (VStr ty) ->
   In ty ["get_cursor"; "get_screen_size"]%string ->
   _backend (fst s) = X11InputBackend ->
   serve depth (Text (Some (VDict command)) how :: rest) s =
     (Done ([], failed AttributeError), s)) /\
  ((forall d, value <> VDict d) ->
   serve depth (Text (Some value) how :: rest) s =
     (Done ([], failed AttributeError), s)).
Proof.
  split.
  - intros Hty Hin Hs.
    destruct (data_request_unknown depth command ty s Hty Hin Hs) as [Hrun Hasks].
    cbn [serve]. unfold mbind, M_bind, bind, attempt, process.
    rewrite Hrun, Hasks. reflexivity.
  - intros Hv. cbn [serve]. unfold mbind, M_bind, bind, attempt, process.
    destruct value; try reflexivity. exfalso. eapply Hv. reflexivity.
Qed.

(** X26 at [{"type": "get_cursor"}] followed by a command that is never
    read, and at the JSON value [42]. *)
Lemma data_request_ends_channel_witness :
  serve 1 [Text (Some (VDict {[ "type"%string := VStr "get_cursor" ]})) delivered;
           Text (Some (VDict mouse_up_command)) delivered]
    (__init__ false, world_of [Called true]) =
    (Done ([], failed AttributeError), (__init__ false, world_of [Called true])) /\
  serve 1 [Text (Some (VInt 42)) delivered] (__init__ false, world_of []) =
    (Done ([], failed AttributeError), (__init__ false, world_of [])).
Proof.
  split.
  - apply (proj1 (data_request_ends_channel 1 {[ "type"%string := VStr "get_cursor" ]}
                    "get_cursor" VNone delivered _ (__init__ false, world_of [Called true])));
      [reflexivity|left; reflexivity|reflexivity].
  - apply (proj2 (data_request_ends_channel 1 ∅ "" (VInt 42) delivered []
                    (__init__ false, world_of []))).
    intros d. discriminate.
Defined.

(** X27.  Commands are never answered.  On the direct backend, a run of
    JSON objects of any types but the two above goes through the loop
    without anything being sent: what [process_command] returns, the error
    envelopes for unknown commands and for failures of the backend
    included, is dropped, and the channel keeps receiving. *)
Theorem commands_get_no_reply (depth : nat) (frames : list frame) :
  forall s : InputHandler * world helper_line payload,
    _backend (fst s) = X11InputBackend ->
    Forall plain_command frames ->
    match fst (serve depth frames s) with
    | Done (sent, ending) => sent = [] /\ ending = receiving
    | Thrown _ => False
    | Unscripted => True
    | Blocked => False
    end.
Proof.
  induction frames as [|f frames IH]; intros s Hs Hall.
  - cbn. auto.
  - inversion Hall as [|? ? Hf Hrest]; subst.
    destruct f as [|[[| | | | | |command]|] how]; cbn [plain_command] in Hf; try contradiction.
    cbn [serve]. unfold mbind, M_bind, bind, attempt, process.
    destruct (process_command_direct depth command s Hs) as (Hb & Ht & Hn).
    destruct (process_command depth command s) as [[r|e| |] s1]; cbn [fst snd] in *.
    + rewrite Hf. apply IH; assumption.
    + exfalso. apply (Ht e). reflexivity.
    + exact I.
    + apply Hn. reflexivity.
Qed.

(** X27 at a click that the backend refuses and a command of an unknown
    type. *)
Lemma commands_get_no_reply_witness :
  fst (serve 1 [Text (Some (VDict {[ "type"%string := VStr "mouse_click" ]})) delivered;
                Text (Some (VDict {[ "type"%string := VStr "reboot" ]})) delivered]
         (__init__ false, world_of [Called false])) =
  Done ([], receiving).
Proof.
  assert (H1 : _backend (fst (__init__ false, @world_of helper_line payload [Called false]))
               = X11InputBackend) by reflexivity.
  assert (H2 : Forall plain_command
                 [Text (Some (VDict {[ "type"%string := VStr "mouse_click" ]})) delivered;
                  Text (Some (VDict {[ "type"%string := VStr "reboot" ]})) delivered])
    by (repeat constructor).
  pose proof (commands_get_no_reply 1 _ _ H1 H2) as H.
  destruct (fst (serve 1 _ _)) as [[sent ending]| | |] eqn:E.
  - destruct H as [-> ->]. reflexivity.
  - contradiction.
  - exfalso. revert E. vm_compute. discriminate.
  - contradiction.
Defined.

End InputChannel.

(* ===================================================================== *)
(** * Files                                                               *)
(* ===================================================================== *)

Section Files.
Import file_manager.

(** ** Characters of strings *)

Lemma has_char_append c a b :
  str.has_char c (String.append a b) = str.has_char c a || str.has_char c b.
Proof.
  induction a as [|x a IH]; [reflexivity|].
  simpl. rewrite IH, orb_assoc. reflexivity.
Qed.

Lemma has_char_substring c s : forall n m,
  str.has_char c s = false -> str.has_char c (String.substring n m s) = false.
Proof.
  induction s as [|x s IH]; intros n m H.
  - destruct n, m; reflexivity.
  - cbn [str.has_char] in H. apply orb_false_iff in H. destruct H as [Hx Hs].
    destruct n as [|n]; destruct m as [|m]; cbn [String.substring str.has_char]; auto.
    rewrite Hx, (IH 0%nat m Hs). reflexivity.
Qed.

(** No field of a split contains the separator. *)
Lemma split_on_fields sep s :
  Forall (fun field => str.has_char sep field = false) (screen_capture.split_on sep s).
Proof.
  induction s as [|c s IH]; cbn [screen_capture.split_on].
  - repeat constructor.
  - destruct (Ascii.eqb c sep) eqn:E.
    + constructor; [reflexivity|exact IH].
    + destruct (screen_capture.split_on sep s) as [|field fields].
      * repeat constructor. cbn [str.has_char]. rewrite E. reflexivity.
      * inversion IH as [|? ? Hf Hfs]; subst. constructor; [|exact Hfs].
        cbn [str.has_char]. rewrite E, Hf. reflexivity.
Qed.

Lemma last_Forall {A} (P : A -> Prop) l d : Forall P l -> P d -> P (List.last l d).
Proof.
  induction l as [|x l IH]; intros Hl Hd; [exact Hd|].
  inversion Hl; subst. destruct l; [assumption|]. apply IH; assumption.
Qed.

Lemma name_no_slash path : str.has_char "/" (name path) = false.
Proof.
  unfold name, components. apply last_Forall; [|reflexivity].
  apply List.Forall_forall. intros c Hc. apply List.filter_In in Hc. destruct Hc as [Hc _].
  pose proof (split_on_fields "/" path) as H. rewrite List.Forall_forall in H. auto.
Qed.

(** The decimal digits of a number contain no slash. *)
Lemma of_nat_no_slash n : str.has_char "/" (str.of_nat n) = false.
Proof.
  unfold str.of_nat. generalize (Nat.to_uint n). intros d.
  induction d; cbn [NilEmpty.string_of_uint str.has_char]; auto.
Qed.

Lemma stem_no_slash name_ : str.has_char "/" name_ = false -> str.has_char "/" (stem name_) = false.
Proof.
  intros H. unfold stem. destruct (rfind "." name_) as [i|]; [|exact H].
  destruct ((0 <? i)%nat && (i <? String.length name_ - 1)%nat); [|exact H].
  apply has_char_substring. exact H.
Qed.

Lemma suffix_no_slash name_ : str.has_char "/" name_ = false -> str.has_char "/" (suffix name_) = false.
Proof.
  intros H. unfold suffix. destruct (rfind "." name_) as [i|]; [|reflexivity].
  destruct ((0 <? i)%nat && (i <? String.length name_ - 1)%nat); [|reflexivity].
  apply has_char_substring. exact H.
Qed.

(** The stem of a name that is not empty and does not begin with a dot is
    not empty and does not begin with a dot. *)
Lemma stem_first name_ :
  name_ <> ""%string -> String.prefix "." name_ = false ->
  exists a rest, stem name_ = String a rest /\ Ascii.eqb "." a = false.
Proof.
  intros Hne Hdot. destruct name_ as [|a rest]; [congruence|].
  assert (Ha : Ascii.eqb "." a = false).
  { cbn in Hdot. destruct (Ascii.eqb_spec "." a) as [<-|]; [|reflexivity].
    destruct rest; discriminate Hdot. }
  unfold stem. destruct (rfind "." (String a rest)) as [i|]; [|eauto].
  destruct (Nat.ltb_spec 0 i) as [Hi|Hi]; cbn [andb]; [|eauto].
  destruct (i <? String.length (String a rest) - 1)%nat; [|eauto].
  destruct i as [|i]; [lia|]. cbn [String.substring]. eauto.
Qed.

Lemma prefix_dot a rest more :
  Ascii.eqb "." a = false -> String.prefix "." (String.append (String a rest) more) = false.
Proof.
  intros H.
  change (String.prefix "." (String.append (String a rest) more))
    with (if ascii_dec "." a then String.prefix "" (String.append rest more) else false).
  destruct (ascii_dec "." a) as [<-|_]; [discriminate H|reflexivity].
Qed.

(** ** Counters give different names *)

Lemma append_cancel_l a x y : String.append a x = String.append a y -> x = y.
Proof. induction a as [|c a IH]; simpl; [auto|]. intros [= H]. auto. Qed.

Lemma append_length a b : String.length (String.append a b) = (String.length a + String.length b)%nat.
Proof. induction a as [|c a IH]; simpl; [reflexivity|]. rewrite IH. reflexivity. Qed.

Lemma append_cancel_r s : forall x y, String.append x s = String.append y s -> x = y.
Proof.
  induction x as [|c x IH]; intros y H.
  - destruct y as [|d y]; [reflexivity|].
    apply (f_equal String.length) in H. rewrite !append_length in H. simpl in H. lia.
  - destruct y as [|d y].
    + apply (f_equal String.length) in H. rewrite !append_length in H. simpl in H. lia.
    + simpl in H. injection H as -> H. f_equal. apply IH. exact H.
Qed.

Lemma of_nat_inj n m : str.of_nat n = str.of_nat m -> n = m.
Proof.
  unfold str.of_nat. intros H.
  apply (f_equal NilEmpty.uint_of_string) in H. rewrite !NilEmpty.usu in H.
  injection H as H. apply (f_equal Nat.of_uint) in H.
  rewrite !DecimalNat.Unsigned.of_to in H. exact H.
Qed.

Lemma numbered_inj directory stem_ suffix_ n m :
  join directory (String.append stem_ (String.append "_" (String.append (str.of_nat n) suffix_))) =
  join directory (String.append stem_ (String.append "_" (String.append (str.of_nat m) suffix_))) ->
  n = m.
Proof.
  unfold join. intros H.
  apply append_cancel_l, append_cancel_l, append_cancel_l, append_cancel_l in H.
  apply append_cancel_r in H. apply of_nat_inj. exact H.
Qed.

(** ** The loop *)

(** A loop that runs out of tests found every numbered name taken. *)
Lemma while_exists_exhausted directory exists_ stem_ suffix_ : forall fuel target counter,
  while_exists directory exists_ fuel stem_ suffix_ target counter = None ->
  forall i, (i < fuel - 1)%nat ->
    exists_
      (join directory
         (String.append stem_ (String.append "_"
            (String.append (str.of_nat (counter + i)) suffix_)))) = Ok true.
Proof.
  induction fuel as [|fuel IH]; intros target counter H i Hi; [lia|].
  cbn [while_exists] in H. destruct (exists_ target) as [[|]|e]; try discriminate.
  destruct fuel as [|fuel]; [lia|].
  destruct i as [|i].
  - rewrite Nat.add_0_r. cbn [while_exists] in H.
    destruct (exists_ _) as [[|]|e]; [reflexivity|discriminate|discriminate].
  - replace (counter + S i)%nat with (S counter + i)%nat by lia.
    apply (IH _ _ H). lia.
Qed.

(** What the loop returns does not exist, and is the first target or a
    numbered one. *)
Lemma while_exists_found directory exists_ stem_ suffix_ : forall fuel target counter found,
  while_exists directory exists_ fuel stem_ suffix_ target counter = Some (Ok found) ->
  exists_ found = Ok false /\
  (found = target \/
   exists k, found = join directory
     (String.append stem_ (String.append "_" (String.append (str.of_nat k) suffix_)))).
Proof.
  induction fuel as [|fuel IH]; intros target counter found H; [discriminate|].
  cbn [while_exists] in H. destruct (exists_ target) as [[|]|e] eqn:E.
  - destruct (IH _ _ _ H) as [Hf Hshape]. split; [exact Hf|]. right.
    destruct Hshape as [->|Hk]; eauto.
  - injection H as <-. auto.
  - discriminate.
Qed.

(** What the loop raises, a test of [exists] raised. *)
Lemma while_exists_raises directory exists_ stem_ suffix_ : forall fuel target counter e,
  while_exists directory exists_ fuel stem_ suffix_ target counter = Some (Raise e) ->
  exists path, exists_ path = Raise e.
Proof.
  induction fuel as [|fuel IH]; intros target counter e H; [discriminate|].
  cbn [while_exists] in H. destruct (exists_ target) as [[|]|e'] eqn:E.
  - exact (IH _ _ _ H).
  - discriminate.
  - injection H as <-. eauto.
Qed.

(** With one test more than there are paths, and one for the first target,
    the loop finds a name or raises. *)
Lemma while_exists_terminates directory exists_ existing stem_ suffix_ target counter :
  (forall path, exists_ path = Ok true -> In path existing) ->
  while_exists directory exists_ (S (S (length existing))) stem_ suffix_ target counter
    <> None.
Proof.
  intros Hfinite H.
  pose proof (while_exists_exhausted _ _ _ _ _ _ _ H) as Hall.
  set (names := map (fun i => join directory
                  (String.append stem_ (String.append "_"
                     (String.append (str.of_nat (counter + i)) suffix_))))
                (seq 0 (S (length existing)))).
  assert (Hnodup : List.NoDup names).
  { subst names. apply List.NoDup_map_NoDup_ForallPairs; [|apply List.seq_NoDup].
    intros a b _ _ Hab. apply numbered_inj in Hab. lia. }
  assert (Hincl : incl names existing).
  { intros p Hp. subst names. apply in_map_iff in Hp. destruct Hp as (i & <- & Hi).
    apply in_seq in Hi. apply Hfinite. apply Hall. lia. }
  pose proof (List.NoDup_incl_length Hnodup Hincl) as Hlen.
  subst names. rewrite length_map, length_seq in Hlen. lia.
Qed.

(** X28.  An upload gets a new file inside the upload directory.  Where
    the paths that exist are finitely many (all in [existing]), with two
    tests of the loop more than there are such paths [validate_upload]
    always ends: it refuses, raises or gives a target.  It refuses, before
    it touches the file system, exactly a file name whose last component is
    empty or begins with a dot and, after that, a size above the limit.  It
    raises only what [mkdir] or a test of [exists] raised.  When it gives a
    target, the directory was made, no such path exists, so the upload
    overwrites nothing; the target is the upload directory followed by one
    path component that is not empty, contains no slash and does not begin
    with a dot, so it lies directly in the upload directory; and the size is
    within the limit. *)
Theorem upload_target_is_fresh (upload_directory : string) (mkdir : result unit)
    (exists_ : string -> result bool) (existing : list string)
    (filename : string) (file_size : Z) :
  (forall path, exists_ path = Ok true -> In path existing) ->
  match validate_upload upload_directory mkdir exists_ (S (S (length existing)))
          filename file_size with
  | None => False
  | Some (Raise e) =>
      (mkdir = Raise e \/ exists path, exists_ path = Raise e) /\
      name filename <> ""%string /\ String.prefix "." (name filename) = false /\
      file_size <= max_file_size_bytes
  | Some (Ok (inl target)) =>
      mkdir = Ok tt /\
      exists_ target = Ok false /\
      (exists leaf,
         target = join upload_directory leaf /\
         leaf <> ""%string /\
         str.has_char "/" leaf = false /\
         String.prefix "." leaf = false) /\
      file_size <= max_file_size_bytes
  | Some (Ok (inr invalid_filename)) =>
      name filename = ""%string \/ String.prefix "." (name filename) = true
  | Some (Ok (inr file_too_large)) =>
      name filename <> ""%string /\ String.prefix "." (name filename) = false /\
      max_file_size_bytes < file_size
  end.
Proof.
  intros Hfinite. unfold validate_upload. cbv zeta.
  destruct (String.eqb_spec (name filename) "") as [He|Hne]; cbn [orb]; [auto|].
  destruct (String.prefix "." (name filename)) eqn:Hdot; [auto|].
  destruct (Z.gtb_spec file_size max_file_size_bytes) as [Hbig|Hsize];
    [split; [assumption|split; [reflexivity|lia]]|].
  destruct mkdir as [[]|e]; [|repeat split; auto].
  pose proof (name_no_slash filename) as Hslash.
  assert (Hname : exists leaf,
            join upload_directory (name filename) = join upload_directory leaf /\
            leaf <> ""%string /\ str.has_char "/" leaf = false /\
            String.prefix "." leaf = false) by eauto.
  destruct (exists_ (join upload_directory (name filename))) as [[|]|e] eqn:Eex.
  - pose proof (while_exists_terminates upload_directory exists_ existing
                  (stem (name filename)) (suffix (name filename))
                  (join upload_directory (name filename)) 1 Hfinite) as Hterm.
    destruct (while_exists _ _ _ _ _ _ _) as [[found|e]|] eqn:Ew; [| |congruence].
    + destruct (while_exists_found _ _ _ _ _ _ _ _ Ew) as [Hfresh Hshape].
      split; [reflexivity|]. split; [exact Hfresh|]. split; [|exact Hsize].
      destruct Hshape as [->|[k ->]]; [congruence|].
      exists (String.append (stem (name filename))
                (String.append "_" (String.append (str.of_nat k) (suffix (name filename))))).
      destruct (stem_first (name filename) Hne Hdot) as (a & rest & Hstem & Ha).
      split; [reflexivity|]. split; [rewrite Hstem; discriminate|]. split.
      * rewrite !has_char_append, (stem_no_slash _ Hslash), of_nat_no_slash,
          (suffix_no_slash _ Hslash). reflexivity.
      * rewrite Hstem. apply prefix_dot. exact Ha.
    + repeat split; auto. right. exact (while_exists_raises _ _ _ _ _ _ _ _ Ew).
  - split; [reflexivity|]. split; [exact Eex|]. split; [exact Hname|exact Hsize].
  - repeat split; eauto.
Qed.

(** ** The allowed directories *)

Lemma prefix_append a b : String.prefix a (String.append a b) = true.
Proof.
  induction a as [|c a IH]; simpl.
  - destruct b; reflexivity.
  - destruct (ascii_dec c c); [exact IH|congruence].
Qed.

(** X29.  The allowed directories are compared as text.  A path is allowed
    as soon as the text it resolves to begins with the text an allowed
    directory resolves to, whatever follows: the next character need not be
    a slash, so a path next to an allowed directory whose name only begins
    like it is allowed and passes [_sanitize_path]. *)
Theorem path_allowed_by_text (resolve : string -> option string)
    (before after : list string) (directory root path more : string) :
  Forall (fun d => resolve d <> None) before ->
  resolve directory = Some root ->
  resolve path = Some (String.append root more) ->
  resolve (String.append root more) = Some (String.append root more) ->
  _is_path_allowed resolve (before ++ directory :: after) path = true /\
  _sanitize_path resolve (before ++ directory :: after) path = Some (String.append root more).
Proof.
  intros Hbefore Hdir Hpath Hfix.
  assert (Hany : forall resolved,
            resolved = String.append root more ->
            default false (any_allowed resolve resolved (before ++ directory :: after)) = true).
  { intros resolved ->. induction before as [|d before IH]; cbn [app any_allowed].
    - rewrite Hdir, prefix_append. reflexivity.
    - inversion Hbefore as [|? ? Hd Hrest]; subst.
      destruct (resolve d) as [d'|]; [|congruence].
      destruct (String.prefix d' (String.append root more)); [reflexivity|].
      apply IH. exact Hrest. }
  assert (Hallowed : forall p, resolve p = Some (String.append root more) ->
            _is_path_allowed resolve (before ++ directory :: after) p = true).
  { intros p Hp. unfold _is_path_allowed. rewrite Hp. apply Hany. reflexivity. }
  split; [apply Hallowed; exact Hpath|].
  unfold _sanitize_path. rewrite Hpath, (Hallowed _ Hfix). reflexivity.
Qed.

End Files.

Section FileExamples.
Import file_manager.

(** X28 at a report that exists already, with its first copy: the upload
    becomes the second copy, whatever directories the file name gives.  And
    at a name of 300 characters, for which the test of [exists] raises. *)
Lemma upload_target_is_fresh_witness :
  (forall path, reports_taken path = Ok true ->
     In path ["/srv/uploads/report.pdf"; "/srv/uploads/report_1.pdf"]%string) /\
  validate_upload "/srv/uploads" (Ok tt) reports_taken 4 "../../etc/report.pdf" 1024 =
    Some (Ok (inl "/srv/uploads/report_2.pdf"%string)) /\
  reports_taken "/srv/uploads/report_2.pdf" = Ok false /\
  validate_upload "/srv/uploads" (Ok tt) long_names_refused 2
    (String.concat "" (repeat "a"%string 300)) 1024 = Some (Raise PermissionError).
Proof.
  assert (H : forall path, reports_taken path = Ok true ->
     In path ["/srv/uploads/report.pdf"; "/srv/uploads/report_1.pdf"]%string).
  { intros path Hp. unfold reports_taken in Hp. injection Hp as Hp.
    apply orb_true_iff in Hp. destruct Hp as [Hp|Hp].
    - apply String.eqb_eq in Hp. left. symmetry. exact Hp.
    - apply orb_true_iff in Hp. destruct Hp as [Hp|Hp]; [|discriminate].
      apply String.eqb_eq in Hp. right. left. symmetry. exact Hp. }
  pose proof (upload_target_is_fresh "/srv/uploads" (Ok tt) reports_taken _
                "../../etc/report.pdf" 1024 H) as T.
  assert (E : validate_upload "/srv/uploads" (Ok tt) reports_taken 4 "../../etc/report.pdf" 1024 =
              Some (Ok (inl "/srv/uploads/report_2.pdf"%string))) by (vm_compute; reflexivity).
  cbn [length] in T. rewrite E in T.
  refine (conj H (conj E (conj (proj1 (proj2 T)) _))).
  vm_compute. reflexivity.
Defined.

(** X29 at the home directory [/home/user] and a file of the user
    [user2]. *)
Lemma path_allowed_by_text_witness :
  _is_path_allowed Some ["/home/user"%string] "/home/user2/.ssh/id_rsa" = true /\
  _sanitize_path Some ["/home/user"%string] "/home/user2/.ssh/id_rsa" =
    Some "/home/user2/.ssh/id_rsa"%string.
Proof.
  exact (path_allowed_by_text Some [] [] "/home/user" "/home/user" "/home/user2/.ssh/id_rsa"
           "2/.ssh/id_rsa" (List.Forall_nil _) eq_refl eq_refl eq_refl).
Defined.

End FileExamples.

(* ===================================================================== *)
(** * The list of monitors                                                *)
(* ===================================================================== *)

Section MonitorList.
Import monitors.

Variable py_int : string -> option Z.

(** [map Z.of_nat (seq start len)], shifted. *)
Lemma seq_shift_Z start len :
  map Z.of_nat (seq (S start) len) = map (fun i => i + 1) (map Z.of_nat (seq start len)).
Proof.
  revert start. induction len as [|len IH]; intros start; [reflexivity|].
  cbn [seq map]. rewrite IH. f_equal. lia.
Qed.

Lemma enumerate_indices ms : forall i,
  map index (enumerate_monitors i ms) =
    map (fun k => i + k) (map Z.of_nat (seq 0 (length ms))) /\
  length (enumerate_monitors i ms) = length ms /\
  Forall (fun m => is_combined m = (index m =? 0)) (enumerate_monitors i ms).
Proof.
  induction ms as [|[[l t] [w h]] ms IH]; intros i.
  - repeat split; constructor.
  - cbn [enumerate_monitors map length seq].
    destruct (IH (i + 1)) as (Hidx & Hlen & Hall).
    split; [|split].
    + rewrite Hidx, seq_shift_Z, !map_map. f_equal; [cbn; lia|].
      apply map_ext. intros k. lia.
    + rewrite Hlen. reflexivity.
    + constructor; [reflexivity|exact Hall].
Qed.

Lemma max_append l w :
  fold_right Z.max 0 (l ++ [w]) = Z.max (fold_right Z.max 0 l) w.
Proof. induction l as [|x l IH]; cbn [app fold_right]; [lia|]. rewrite IH. lia. Qed.

Lemma screens_not_combined (others : list Monitor) :
  Forall (fun m => is_combined m = false) others ->
  Forall (fun i => (i =? 0) = false) (map index others) ->
  Forall (fun m => is_combined m = (index m =? 0)) others.
Proof.
  induction others as [|m others IH]; intros Hnc Hpos; [constructor|].
  inversion Hnc; subst. inversion Hpos; subst.
  constructor; [congruence|]. apply IH; assumption.
Qed.

Lemma scan_in_the_making lines : forall monitors idx result,
  in_the_making monitors idx ->
  scan py_int lines monitors idx = Some result ->
  exists idx', in_the_making result idx'.
Proof.
  induction lines as [|line lines IH]; intros monitors idx result Hinv Hscan.
  - cbn [scan] in Hscan. injection Hscan as <-. eauto.
  - cbn [scan] in Hscan.
    destruct (str.contains " connected " line); [|eapply IH; eassumption].
    destruct (first_size py_int (str.split line)) as [[[w h]|]|]; [| |discriminate].
    + eapply IH; [|exact Hscan].
      destruct Hinv as (first & others & -> & Hi & Hc & Hidx & Hnc & -> & Hw & Hh).
      eexists _, _. split; [cbn [app widen]; reflexivity|].
      cbn [index is_combined width height].
      repeat split; try assumption.
      * rewrite map_app, length_app, Hidx. cbn [map length index].
        rewrite Nat.add_1_r, seq_S, map_app. cbn [map]. f_equal.
      * apply Forall_app. split; [assumption|]. constructor; [reflexivity|constructor].
      * rewrite length_app. cbn [length]. lia.
      * rewrite map_app. cbn [map width]. rewrite max_append, Hw. reflexivity.
      * rewrite map_app. cbn [map height]. rewrite max_append, Hh. reflexivity.
    + eapply IH; eassumption.
Qed.

(** X30.  The list of monitors.  Whatever [mss] and [xrandr] report, the
    entries of the list that [get_monitors] returns are numbered from 0
    without gaps, and exactly the entry with number 0 is the combined one.
    When the list does not come from [mss], it is not empty, and it is
    either the single default entry of 1920 by 1080 or a list whose
    combined entry is as wide as the widest and as high as the highest of
    the screens that follow it (0 by 0 if none follows).  One size that
    cannot be read ([scan] meets a [ValueError]) discards every screen found
    and gives the default entry. *)
Theorem monitor_list_well_formed (backend : string)
    (mss_monitors : option (list (Z * Z * (Z * Z)))) (xrandr : option (Z * string)) :
  let result := get_monitors py_int backend mss_monitors xrandr in
  map index result = map Z.of_nat (seq 0 (length result)) /\
  Forall (fun m => is_combined m = (index m =? 0)) result /\
  (String.eqb backend "mss" = false \/ mss_monitors = None ->
   exists first others,
     result = first :: others /\
     (result = [combined 1920 1080] \/
      width first = fold_right Z.max 0 (map width others) /\
      height first = fold_right Z.max 0 (map height others)) /\
     (forall stdout, xrandr = Some (0, stdout) ->
      scan py_int (str.splitlines stdout) [combined 0 0] 1 = None ->
      result = [combined 1920 1080])).
Proof.
  cbv zeta.
  assert (Hdefault :
    map index [combined 1920 1080] = map Z.of_nat (seq 0 (length [combined 1920 1080])) /\
    Forall (fun m => is_combined m = (index m =? 0)) [combined 1920 1080] /\
    exists first others,
      [combined 1920 1080] = first :: others /\
      ([combined 1920 1080] = [combined 1920 1080] \/
       width first = fold_right Z.max 0 (map width others) /\
       height first = fold_right Z.max 0 (map height others))).
  { split; [reflexivity|]. split; [repeat constructor|]. eexists _, _. split; [reflexivity|].
    left. reflexivity. }
  assert (Hxrandr :
    let result :=
      match xrandr with
      | Some (returncode, stdout) =>
          if returncode =? 0 then
            match scan py_int (str.splitlines stdout) [combined 0 0] 1 with
            | Some monitors => monitors
            | None => [combined 1920 1080]
            end
          else [combined 1920 1080]
      | None => [combined 1920 1080]
      end in
    map index result = map Z.of_nat (seq 0 (length result)) /\
    Forall (fun m => is_combined m = (index m =? 0)) result /\
    exists first others,
      result = first :: others /\
      (result = [combined 1920 1080] \/
       width first = fold_right Z.max 0 (map width others) /\
       height first = fold_right Z.max 0 (map height others)) /\
      (forall stdout, xrandr = Some (0, stdout) ->
       scan py_int (str.splitlines stdout) [combined 0 0] 1 = None ->
       result = [combined 1920 1080])).
  { cbv zeta. destruct Hdefault as (Hd1 & Hd2 & first0 & others0 & Hd3 & Hd4).
    destruct xrandr as [[returncode stdout]|].
    2: { split; [exact Hd1|]. split; [exact Hd2|]. exists first0, others0.
         split; [exact Hd3|]. split; [exact Hd4|]. discriminate. }
    destruct (Z.eqb_spec returncode 0) as [->|Hrc].
    2: { split; [exact Hd1|]. split; [exact Hd2|]. exists first0, others0.
         split; [exact Hd3|]. split; [exact Hd4|]. intros ? [= ? ?]. contradiction. }
    destruct (scan py_int (str.splitlines stdout) [combined 0 0] 1) as [monitors|] eqn:Escan.
    2: { split; [exact Hd1|]. split; [exact Hd2|]. exists first0, others0.
         split; [exact Hd3|]. split; [exact Hd4|]. reflexivity. }
    assert (H0 : in_the_making [combined 0 0] 1).
    { exists (combined 0 0), []. repeat split; constructor. }
    destruct (scan_in_the_making _ _ _ _ H0 Escan)
      as (idx' & first & others & -> & Hi & Hc & Hidx & Hnc & _ & Hw & Hh).
    split; [|split].
    - cbn [map length seq]. rewrite Hi, Hidx. reflexivity.
    - constructor; [rewrite Hi, Hc; reflexivity|].
      assert (Hpos : Forall (fun i => (i =? 0) = false) (map index others)).
      { rewrite Hidx. apply List.Forall_forall. intros i Hin.
        apply in_map_iff in Hin. destruct Hin as (n & <- & Hn). apply in_seq in Hn.
        apply Z.eqb_neq. lia. }
      apply screens_not_combined; assumption.
    - exists first, others. split; [reflexivity|]. split; [right; split; assumption|].
      intros stdout' [= <-] Hnone. congruence. }
  destruct (String.eqb backend "mss") eqn:Eb; cbn [get_monitors].
  - unfold get_monitors. rewrite Eb.
    destruct mss_monitors as [ms|]; cbn [fmap option_fmap option_map].
    + destruct (enumerate_indices ms 0) as (Hidx & Hlen & Hall).
      split; [|split; [exact Hall|]].
      * rewrite Hidx, Hlen. rewrite map_map. apply map_ext. intros k. lia.
      * intros [?|?]; discriminate.
    + destruct Hxrandr as (H1 & H2 & H3). split; [exact H1|]. split; [exact H2|].
      intros _. exact H3.
  - unfold get_monitors. rewrite Eb.
    destruct Hxrandr as (H1 & H2 & H3). split; [exact H1|]. split; [exact H2|].
    intros _. exact H3.
Qed.

End MonitorList.

Section MonitorExamples.
Import monitors.

(** X30 at two screens side by side. *)
Lemma monitor_list_well_formed_witness :
  exists first others,
    get_monitors decimal "grim" None (Some (0, two_screens)) = first :: others /\
    width first = 2560 /\ height first = 1440 /\ map index others = [1; 2].
Proof.
  destruct (monitor_list_well_formed decimal "grim" None (Some (0, two_screens)))
    as (_ & _ & Hx).
  destruct (Hx (or_introl eq_refl)) as (first & others & Heq & _ & _).
  exists first, others. split; [exact Heq|].
  revert Heq. vm_compute. intros [= <- <-]. repeat split; reflexivity.
Defined.

End MonitorExamples.
